(** * AI Polyglot Friend: the store, the deduplication engine and the scorer

    A shallow embedding of [ai_friend_app.py]: the text utilities
    ([normalize], [fuzzy_ratio]), the JSON store helpers ([load_global],
    [save_global], [deduplicate_user], [deduplicate_global]), the scoring
    branch of the "Practice prompt" action and the admin merge loop,
    then the choice of a prompt, the actions of the chat and admin panels
    and [tts_bytes]; followed by the properties of the design document
    that concern them (Part II) and by further properties of the code
    (Part III).

    Conventions of the embedding.
    - A Python [str] is a [string] whose characters are the code points
      U+0000..U+00FF (Latin-1), one [ascii] per code point; [lower] and
      [strip] are Python's [str.lower] and [str.strip] on that alphabet.
    - A Python [float] is a primitive binary64 [float]; a Python [int] is
      a [Z].
    - A value read from the JSON document is a [json]; an object is an
      association list in insertion order, the order Python's [dict]
      keeps.  Values are trees, as [json.load] builds them: no object is
      shared, so a mutation in place is the update of the enclosing value.
    - A Python exception is [Raise e]; [Raise Unsupported] marks the few
      inputs whose behaviour is outside the embedding.
    - The clock is an oracle [utcnow]; the number of readings so far is
      threaded through the functions that may call [now_iso]. *)

From Stdlib Require Import ZArith NArith Bool List String Ascii Lia Floats Uint63.
Import ListNotations.

Set Warnings "-inexact-float".

Local Open Scope string_scope.
Local Open Scope Z_scope.

(* ================================================================== *)
(** * Part I: the program *)
(* ================================================================== *)

(** ** Text: Python [str] on the Latin-1 code points *)

Module Text.

Definition code (c : ascii) : N := N_of_ascii c.

(** [str.isspace] for a code point below 256. *)
Definition isspace (c : ascii) : bool :=
  let n := code c in
  (((9 <=? n) && (n <=? 13)) || ((28 <=? n) && (n <=? 32))
   || (n =? 133) || (n =? 160))%N.

(** [str.lower] for a code point below 256: A-Z and the Latin-1 capitals
    U+00C0..U+00DE (the multiplication sign U+00D7 apart) move up by 32. *)
Definition lower_char (c : ascii) : ascii :=
  let n := code c in
  if (((65 <=? n) && (n <=? 90))
      || ((192 <=? n) && (n <=? 222) && negb (n =? 215)))%N
  then ascii_of_N (n + 32) else c.

Fixpoint map_chars (f : ascii -> ascii) (s : string) : string :=
  match s with
  | EmptyString => EmptyString
  | String c s' => String (f c) (map_chars f s')
  end.

Definition lower (s : string) : string := map_chars lower_char s.

Fixpoint lstrip (s : string) : string :=
  match s with
  | EmptyString => EmptyString
  | String c s' => if isspace c then lstrip s' else s
  end.

Fixpoint rstrip (s : string) : string :=
  match s with
  | EmptyString => EmptyString
  | String c s' =>
      match rstrip s' with
      | EmptyString => if isspace c then EmptyString else String c EmptyString
      | r => String c r
      end
  end.

Definition strip (s : string) : string := lstrip (rstrip s).

(** The first and the last character of a string, as tests. *)
Definition starts_space (s : string) : bool :=
  match s with
  | EmptyString => false
  | String c _ => isspace c
  end.

Fixpoint ends_space (s : string) : bool :=
  match s with
  | EmptyString => false
  | String c EmptyString => isspace c
  | String _ s' => ends_space s'
  end.

Fixpoint has_char (p : ascii -> bool) (s : string) : bool :=
  match s with
  | EmptyString => false
  | String c s' => p c || has_char p s'
  end.

End Text.
Export Text.

(** The accented letters of [normalize]'s table, by code point. *)
Definition a_acute : ascii := "225"%char.
Definition e_acute : ascii := "233"%char.
Definition i_acute : ascii := "237"%char.
Definition o_acute : ascii := "243"%char.
Definition u_acute : ascii := "250"%char.
Definition n_tilde : ascii := "241"%char.
Definition u_diaeresis : ascii := "252"%char.
Definition A_acute : ascii := "193"%char.

(** [repl] of [normalize]. *)
Definition repl : list (ascii * ascii) :=
  [ (a_acute, "a"%char); (e_acute, "e"%char); (i_acute, "i"%char);
    (o_acute, "o"%char); (u_acute, "u"%char); (n_tilde, "n"%char);
    (u_diaeresis, "u"%char) ].

(** [repl.get(ch, ch)] *)
Definition repl_get (ch : ascii) : ascii :=
  match find (fun kv => Ascii.eqb (fst kv) ch) repl with
  | Some kv => snd kv
  | None => ch
  end.

(** [normalize(s)] for a [str] argument: fold the accents of [repl],
    then lowercase, then strip. *)
Definition normalize (s : string) : string :=
  if String.eqb s "" then ""
  else strip (lower (map_chars repl_get s)).

(** A character is accented when it is a key of [repl]. *)
Definition accented (c : ascii) : bool :=
  existsb (fun kv => Ascii.eqb (fst kv) c) repl.

(** ** JSON values *)

Inductive json : Type :=
| JNull
| JBool (b : bool)
| JInt (n : Z)
| JFloat (f : float)
| JStr (s : string)
| JList (l : list json)
| JDict (d : list (string * json)).

(** ** Exceptions *)

Inductive exn : Type :=
| TypeError
| AttributeError
| KeyError
| ValueError
| OverflowError
| OSError
| Unsupported.

Inductive result (A : Type) : Type :=
| Ok (a : A)
| Raise (e : exn).

Arguments Ok {A} a.
Arguments Raise {A} e.

Definition bind {A B : Type} (m : result A) (k : A -> result B) : result B :=
  match m with
  | Ok a => k a
  | Raise e => Raise e
  end.

Notation "x <- m ;; k" := (bind m (fun x => k))
  (at level 61, m at next level, right associativity).

Definition is_ok {A : Type} (m : result A) : bool :=
  match m with
  | Ok _ => true
  | Raise _ => false
  end.

(** [mapM] of the exception monad: the first failure wins. *)
Fixpoint mapM {A B : Type} (f : A -> result B) (l : list A) : result (list B) :=
  match l with
  | [] => Ok []
  | a :: l' => b <- f a ;; bs <- mapM f l' ;; Ok (b :: bs)
  end.

(** ** Python's operations on JSON values *)

Module Py.

(** *** Numbers *)

(** The integer a finite float truncates to, [int(f)]. *)
Definition float_trunc (f : float) : result Z :=
  match Prim2SF f with
  | S754_zero _ => Ok 0
  | S754_infinity _ => Raise OverflowError
  | S754_nan => Raise ValueError
  | S754_finite s m e =>
      let a := if 0 <=? e then Z.pos m * 2 ^ e else Z.pos m / 2 ^ (- e) in
      Ok (if s then - a else a)
  end.

(** The integer a float is exactly equal to, when there is one. *)
Definition float_integral (f : float) : option Z :=
  match Prim2SF f with
  | S754_zero _ => Some 0
  | S754_finite s m e =>
      if 0 <=? e then Some (if s then - (Z.pos m * 2 ^ e) else Z.pos m * 2 ^ e)
      else if Z.pos m mod 2 ^ (- e) =? 0
           then Some (if s then - (Z.pos m / 2 ^ (- e)) else Z.pos m / 2 ^ (- e))
           else None
  | _ => None
  end.

(** [float(z)], exact for [|z| <= 2^53]. *)
Definition float_of_Z (z : Z) : float :=
  if 0 <=? z then PrimFloat.of_uint63 (Uint63.of_Z z)
  else PrimFloat.opp (PrimFloat.of_uint63 (Uint63.of_Z (- z))).

(** *** Truth values: [bool(v)], [a or b] *)

Definition truthy (v : json) : bool :=
  match v with
  | JNull => false
  | JBool b => b
  | JInt n => negb (n =? 0)
  | JFloat f => negb (PrimFloat.eqb f 0)
  | JStr s => negb (String.eqb s "")
  | JList l => match l with [] => false | _ => true end
  | JDict d => match d with [] => false | _ => true end
  end.

Definition py_or (a b : json) : json := if truthy a then a else b.

(** *** Dictionaries *)

Fixpoint dict_get (k : string) (d : list (string * json)) : option json :=
  match d with
  | [] => None
  | (k', v) :: d' => if String.eqb k k' then Some v else dict_get k d'
  end.

(** [d[k] = v]: the binding is replaced where it stands, a new key goes last. *)
Fixpoint dict_set (k : string) (v : json) (d : list (string * json))
  : list (string * json) :=
  match d with
  | [] => [(k, v)]
  | (k', v') :: d' =>
      if String.eqb k k' then (k, v) :: d' else (k', v') :: dict_set k v d'
  end.

Definition dict_has (k : string) (d : list (string * json)) : bool :=
  match dict_get k d with
  | Some _ => true
  | None => false
  end.

(** [v.get(k)] *)
Definition py_get (v : json) (k : string) : result json :=
  match v with
  | JDict d => Ok (match dict_get k d with Some x => x | None => JNull end)
  | _ => Raise AttributeError
  end.

(** [v.get(k, dflt)] *)
Definition py_get_default (v : json) (k : string) (dflt : json) : result json :=
  match v with
  | JDict d => Ok (match dict_get k d with Some x => x | None => dflt end)
  | _ => Raise AttributeError
  end.

(** [v[k]] for a string [k] *)
Definition py_getitem (v : json) (k : string) : result json :=
  match v with
  | JDict d => match dict_get k d with Some x => Ok x | None => Raise KeyError end
  | _ => Raise TypeError
  end.

(** [v[k] = x] for a string [k] *)
Definition py_setitem (v : json) (k : string) (x : json) : result json :=
  match v with
  | JDict d => Ok (JDict (dict_set k x d))
  | _ => Raise TypeError
  end.

(** [v.items()] *)
Definition py_items (v : json) : result (list (string * json)) :=
  match v with
  | JDict d => Ok d
  | _ => Raise AttributeError
  end.

(** *** Iteration, slices, membership *)

Fixpoint chars (s : string) : list json :=
  match s with
  | EmptyString => []
  | String c s' => JStr (String c EmptyString) :: chars s'
  end.

(** [for x in v]: the elements of a list, the characters of a string,
    the keys of a dictionary. *)
Definition py_iter (v : json) : result (list json) :=
  match v with
  | JList l => Ok l
  | JStr s => Ok (chars s)
  | JDict d => Ok (map (fun kv => JStr (fst kv)) d)
  | _ => Raise TypeError
  end.

(** [l[-n:]] on a list, for [n > 0] *)
Definition last_n {A : Type} (n : nat) (l : list A) : list A :=
  skipn (List.length l - n)%nat l.

Fixpoint string_skipn (n : nat) (s : string) : string :=
  match n, s with
  | O, _ => s
  | S n', String _ s' => string_skipn n' s'
  | S _, EmptyString => EmptyString
  end.

(** [v[-n:]] *)
Definition py_slice_last (n : nat) (v : json) : result json :=
  match v with
  | JList l => Ok (JList (last_n n l))
  | JStr s => Ok (JStr (string_skipn (String.length s - n)%nat s))
  | _ => Raise TypeError
  end.

Fixpoint is_infix (k s : string) : bool :=
  String.prefix k s ||
  match s with
  | EmptyString => false
  | String _ s' => is_infix k s'
  end.

(** [k in v] for a string [k]: a key of a dictionary, an element of a
    list, a substring of a string. *)
Definition py_contains (k : string) (v : json) : result bool :=
  match v with
  | JDict d => Ok (dict_has k d)
  | JList l =>
      Ok (existsb (fun x => match x with JStr s => String.eqb s k | _ => false end) l)
  | JStr s => Ok (is_infix k s)
  | _ => Raise TypeError
  end.

(** *** Strings and integers *)

(** [v.strip()] *)
Definition py_strip (v : json) : result string :=
  match v with
  | JStr s => Ok (strip s)
  | _ => Raise AttributeError
  end.

Definition digit_val (c : ascii) : option Z :=
  let n := code c in
  if ((48 <=? n) && (n <=? 57))%N then Some (Z.of_N n - 48) else None.

(** Decimal digits with single underscores between them. *)
Fixpoint digits_val (s : string) (acc : Z) (after_digit : bool) : option Z :=
  match s with
  | EmptyString => if after_digit then Some acc else None
  | String c s' =>
      match digit_val c with
      | Some d => digits_val s' (10 * acc + d) true
      | None =>
          if Ascii.eqb c "_" && after_digit then digits_val s' acc false
          else None
      end
  end.

(** The white space [int()] skips around a number: C's [isspace], and
    the two Latin-1 spaces above U+007F, which the conversion turns into
    blanks first.  The separators U+001C..U+001F, which [str.strip]
    removes, are not among them. *)
Definition int_space (c : ascii) : bool :=
  let n := code c in
  (((9 <=? n) && (n <=? 13)) || (n =? 32) || (n =? 133) || (n =? 160))%N.

Fixpoint int_lskip (s : string) : string :=
  match s with
  | EmptyString => EmptyString
  | String c s' => if int_space c then int_lskip s' else s
  end.

Fixpoint int_rskip (s : string) : string :=
  match s with
  | EmptyString => EmptyString
  | String c s' =>
      match int_rskip s' with
      | EmptyString => if int_space c then EmptyString else String c EmptyString
      | r => String c r
      end
  end.

(** The number of decimal digits of a text. *)
Fixpoint count_digits (s : string) : nat :=
  match s with
  | EmptyString => O
  | String c s' =>
      match digit_val c with
      | Some _ => S (count_digits s')
      | None => count_digits s'
      end
  end.

(** [sys.get_int_max_str_digits()], which the program leaves at its
    default. *)
Definition int_max_str_digits : nat := 4300.

(** [int(s)] for a string: white space around, an optional sign, decimal
    digits with single underscores between them, at most
    [int_max_str_digits] digits. *)
Definition int_of_string (s : string) : result Z :=
  let body := int_lskip (int_rskip s) in
  let parsed :=
    match body with
    | String "+" r => digits_val r 0 false
    | String "-" r => option_map Z.opp (digits_val r 0 false)
    | r => digits_val r 0 false
    end in
  match parsed with
  | Some z =>
      if (int_max_str_digits <? count_digits body)%nat then Raise ValueError
      else Ok z
  | None => Raise ValueError
  end.

(** [int(v)] *)
Definition py_int (v : json) : result Z :=
  match v with
  | JBool b => Ok (Z.b2z b)
  | JInt n => Ok n
  | JFloat f => float_trunc f
  | JStr s => int_of_string s
  | _ => Raise TypeError
  end.

(** *** Equality of hashable values, as set membership tests it *)

Inductive num : Type :=
| NumZ (z : Z)
| NumF (f : float).

Definition num_of (v : json) : option num :=
  match v with
  | JBool b => Some (NumZ (Z.b2z b))
  | JInt n => Some (NumZ n)
  | JFloat f =>
      Some (match float_integral f with Some z => NumZ z | None => NumF f end)
  | _ => None
  end.

(** The comparison of two items of a key by [key in seen]: the same
    object, or [a == b].  [None], strings and numbers; numbers compare by
    value across [bool], [int] and [float].  A NaN is not [==] to itself,
    but every NaN of a document is the one object [json.load] returns for
    the literal, and the program computes no float that it puts in a key:
    two NaN are the same object. *)
Definition py_scalar_eqb (a b : json) : bool :=
  match a, b with
  | JNull, JNull => true
  | JStr s, JStr s' => String.eqb s s'
  | _, _ =>
      match num_of a, num_of b with
      | Some (NumZ x), Some (NumZ y) => x =? y
      | Some (NumF f), Some (NumF g) =>
          PrimFloat.eqb f g || (PrimFloat.is_nan f && PrimFloat.is_nan g)
      | _, _ => false
      end
  end.

(** [hash(v)] raises on lists and dictionaries. *)
Definition py_hashable (v : json) : result unit :=
  match v with
  | JList _ | JDict _ => Raise TypeError
  | _ => Ok tt
  end.

End Py.
Export Py.

Notation "' pat <- m ;; k" :=
  (bind m (fun x => match x with pat => k end))
  (at level 61, pat pattern, m at next level, right associativity).

(** ** The store helpers: deduplication *)

(** Keys of the two [seen] sets.  A set is used through [in] and [add]
    only, so it is the list of the keys added so far. *)
Definition vocab_key : Type := (string * string * string * Z)%type.

Definition vocab_key_eqb (a b : vocab_key) : bool :=
  let '(n1, t1, p1, l1) := a in
  let '(n2, t2, p2, l2) := b in
  String.eqb n1 n2 && String.eqb t1 t2 && String.eqb p1 p2 && (l1 =? l2).

Definition history_key : Type := (string * string * json)%type.

Definition history_key_eqb (a b : history_key) : bool :=
  let '(u1, a1, l1) := a in
  let '(u2, a2, l2) := b in
  String.eqb u1 u2 && String.eqb a1 a2 && py_scalar_eqb l1 l2.

(** [key in seen] *)
Definition key_in {K : Type} (eqb : K -> K -> bool) (key : K) (seen : list K) : bool :=
  existsb (eqb key) seen.

(** The locals [native], [target], [topic], [level] of the vocabulary loop. *)
Record vocab_fields : Type := mk_vocab_fields {
  vf_native : string;
  vf_target : string;
  vf_topic : string;
  vf_level : Z
}.

Definition vocab_fields_of (it : json) : result vocab_fields :=
  n0 <- py_get it "native" ;;
  native <- py_strip (py_or n0 (JStr "")) ;;
  t0 <- py_get it "target" ;;
  c0 <- py_get it "correct_answer" ;;
  target <- py_strip (py_or (py_or t0 c0) (JStr "")) ;;
  p0 <- py_get it "topic" ;;
  topic <- py_strip (py_or p0 (JStr "")) ;;
  l0 <- py_get it "level" ;;
  level <- py_int (py_or l0 (JInt 1)) ;;
  Ok (mk_vocab_fields native target topic level).

Definition key_of_fields (f : vocab_fields) : vocab_key :=
  (normalize (vf_native f), normalize (vf_target f), vf_topic f, vf_level f).

(** The record appended to [unique] for a vocabulary entry. *)
Definition vocab_entry (f : vocab_fields) (last_used : json) : json :=
  JDict [ ("native", JStr (vf_native f)); ("target", JStr (vf_target f));
          ("topic", JStr (vf_topic f)); ("level", JInt (vf_level f));
          ("last_used", last_used) ].

(** The record appended to [unique] for a history entry. *)
Definition history_entry (when prompt : json) (your : string) (target score : json) : json :=
  JDict [ ("when", when); ("prompt", prompt); ("your", JStr your);
          ("target", target); ("score", score) ].

Section Clock.

(** [utcnow n] is the text [datetime.utcnow().isoformat()] returns at the
    [n]-th reading of the clock; the count of readings is threaded through
    every function that may call [now_iso]. *)
Variable utcnow : nat -> string.

Definition now_iso (t : nat) : string := utcnow t ++ "Z".

(** [v or now_iso()]: the clock is read only when [v] is falsy. *)
Definition or_now (v : json) (t : nat) : json * nat :=
  if truthy v then (v, t) else (JStr (now_iso t), S t).

(** The body of [for it in vlist], with [seen] and [unique] as they stand. *)
Fixpoint vocab_loop (vlist : list json) (seen : list vocab_key)
  (unique : list json) (t : nat) : result (list json * nat) :=
  match vlist with
  | [] => Ok (unique, t)
  | it :: rest =>
      f <- vocab_fields_of it ;;
      let key := key_of_fields f in
      if key_in vocab_key_eqb key seen then vocab_loop rest seen unique t
      else
        lu0 <- py_get it "last_used" ;;
        let (lu, t') := or_now lu0 t in
        vocab_loop rest (key :: seen) (unique ++ [vocab_entry f lu]) t'
  end.

(** [for lang, vlist in list(items)], writing [mem["custom_vocab"][lang]]. *)
Fixpoint vocab_pass (items : list (string * json)) (mem : json) (t : nat)
  : result (json * nat) :=
  match items with
  | [] => Ok (mem, t)
  | (lang, vlist) :: rest =>
      its <- py_iter vlist ;;
      '(unique, t1) <- vocab_loop its [] [] t ;;
      cv <- py_getitem mem "custom_vocab" ;;
      cv' <- py_setitem cv lang (JList unique) ;;
      mem' <- py_setitem mem "custom_vocab" cv' ;;
      vocab_pass rest mem' t1
  end.

(** The key of a history entry: [(normalize(u), normalize(a), l)], and [u]. *)
Definition history_key_of (mem turn : json) : result (history_key * string) :=
  u0 <- py_get turn "your" ;;
  u1 <- py_get turn "user" ;;
  u <- py_strip (py_or (py_or u0 u1) (JStr "")) ;;
  a0 <- py_get turn "ai" ;;
  a1 <- py_get turn "reply" ;;
  a <- py_strip (py_or (py_or a0 a1) (JStr "")) ;;
  l0 <- py_get turn "lang" ;;
  l <- (if truthy l0 then Ok l0
        else l1 <- py_get mem "lang" ;; Ok (py_or l1 (JStr ""))) ;;
  _ <- py_hashable l ;;
  Ok ((normalize u, normalize a, l), u).

(** The body of [for turn in mem.get("conversation_history", [])]. *)
Fixpoint history_loop (mem : json) (turns : list json) (seen : list history_key)
  (unique : list json) (t : nat) : result (list json * nat) :=
  match turns with
  | [] => Ok (unique, t)
  | turn :: rest =>
      '(key, u) <- history_key_of mem turn ;;
      if key_in history_key_eqb key seen then history_loop mem rest seen unique t
      else
        w0 <- py_get turn "when" ;;
        let (w, t') := or_now w0 t in
        p0 <- py_get turn "prompt" ;;
        g0 <- py_get turn "target" ;;
        s0 <- py_get turn "score" ;;
        history_loop mem rest (key :: seen)
          (unique ++ [history_entry w (py_or p0 (JStr "")) u (py_or g0 (JStr "")) s0]) t'
  end.

Definition deduplicate_user (mem : json) (t : nat) : result (json * nat) :=
  (* custom_vocab dedupe per language *)
  cv <- py_get_default mem "custom_vocab" (JDict []) ;;
  items <- py_items cv ;;
  '(mem1, t1) <- vocab_pass items mem t ;;
  (* history dedupe *)
  h <- py_get_default mem1 "conversation_history" (JList []) ;;
  turns <- py_iter h ;;
  '(unique, t2) <- history_loop mem1 turns [] [] t1 ;;
  mem2 <- py_setitem mem1 "conversation_history" (JList (last_n 500 unique)) ;;
  (* trim recent stats *)
  stats <- py_getitem mem2 "stats" ;;
  recent <- py_get_default stats "recent" (JList []) ;;
  recent' <- py_slice_last 200 recent ;;
  stats' <- py_setitem stats "recent" recent' ;;
  mem3 <- py_setitem mem2 "stats" stats' ;;
  Ok (mem3, t2).

(** [for uname, udata in users.items(): users[uname] = deduplicate_user(udata)] *)
Fixpoint dedup_users (items : list (string * json)) (users : json) (t : nat)
  : result (json * nat) :=
  match items with
  | [] => Ok (users, t)
  | (uname, udata) :: rest =>
      '(udata', t1) <- deduplicate_user udata t ;;
      users' <- py_setitem users uname udata' ;;
      dedup_users rest users' t1
  end.

Definition deduplicate_global (data : json) (t : nat) : result (json * nat) :=
  users <- py_get_default data "users" (JDict []) ;;
  items <- py_items users ;;
  '(users', t') <- dedup_users items users t ;;
  data' <- py_setitem data "users" users' ;;
  Ok (data', t').

(** [save_global(data)]: the deduplicated store, which is also what
    [json.dump] writes to [GLOBAL_FILE]. *)
Definition save_global (dump : json -> string) (data : json) (t : nat)
  : result (json * string * nat) :=
  '(data', t') <- deduplicate_global data t ;;
  Ok (data', dump data', t').

End Clock.

(** ** [difflib.SequenceMatcher(a=..., b=...).ratio()]

    The standard library's matcher with its defaults ([isjunk=None],
    [autojunk=True]), on sequences of characters; positions are [nat]. *)

Module Difflib.

Local Open Scope nat_scope.

Definition seq_chars (s : string) : list ascii := list_ascii_of_string s.

Definition at_pos (s : list ascii) (i : nat) : ascii := nth i s "000"%char.

(** The positions of [c] in [b], in increasing order. *)
Fixpoint positions (c : ascii) (b : list ascii) (j : nat) : list nat :=
  match b with
  | [] => []
  | x :: b' => if Ascii.eqb x c then j :: positions c b' (S j) else positions c b' (S j)
  end.

(** [b2j.get(c, [])]: a character that fills more than [n // 100 + 1]
    positions of a [b] of 200 characters or more has been purged. *)
Definition b2j (b : list ascii) (c : ascii) : list nat :=
  let idxs := positions c b 0 in
  let n := List.length b in
  if (200 <=? n) && (n / 100 + 1 <? List.length idxs) then [] else idxs.

Fixpoint j2len_get (j2len : list (nat * nat)) (j : nat) : nat :=
  match j2len with
  | [] => 0
  | (j', k) :: r => if j' =? j then k else j2len_get r j
  end.

(** [for j in b2j.get(a[i], nothing)], between [blo] and [bhi]. *)
Fixpoint scan_row (js : list nat) (blo bhi i : nat) (j2len newj2len : list (nat * nat))
  (best : nat * nat * nat) : list (nat * nat) * (nat * nat * nat) :=
  match js with
  | [] => (newj2len, best)
  | j :: js' =>
      if j <? blo then scan_row js' blo bhi i j2len newj2len best
      else if bhi <=? j then (newj2len, best)
      else
        let k := (match j with O => 0 | S j' => j2len_get j2len j' end) + 1 in
        let '(_, _, bestsize) := best in
        let best' := if bestsize <? k then (i + 1 - k, j + 1 - k, k) else best in
        scan_row js' blo bhi i j2len ((j, k) :: newj2len) best'
  end.

(** [for i in range(alo, ahi)] *)
Fixpoint scan_rows (a b : list ascii) (is_ : list nat) (blo bhi : nat)
  (j2len : list (nat * nat)) (best : nat * nat * nat) : nat * nat * nat :=
  match is_ with
  | [] => best
  | i :: is' =>
      let '(newj2len, best') :=
        scan_row (b2j b (at_pos a i)) blo bhi i j2len [] best in
      scan_rows a b is' blo bhi newj2len best'
  end.

(** The two [while] loops that stretch the block over equal neighbours;
    [fuel] is the room left on the side being stretched. *)
Fixpoint extend_left (a b : list ascii) (alo blo : nat) (fuel : nat)
  (best : nat * nat * nat) : nat * nat * nat :=
  match fuel with
  | O => best
  | S fuel' =>
      let '(besti, bestj, bestsize) := best in
      if (alo <? besti) && (blo <? bestj)
         && Ascii.eqb (at_pos a (besti - 1)) (at_pos b (bestj - 1))
      then extend_left a b alo blo fuel' (besti - 1, bestj - 1, bestsize + 1)
      else best
  end.

Fixpoint extend_right (a b : list ascii) (ahi bhi : nat) (fuel : nat)
  (best : nat * nat * nat) : nat * nat * nat :=
  match fuel with
  | O => best
  | S fuel' =>
      let '(besti, bestj, bestsize) := best in
      if (besti + bestsize <? ahi) && (bestj + bestsize <? bhi)
         && Ascii.eqb (at_pos a (besti + bestsize)) (at_pos b (bestj + bestsize))
      then extend_right a b ahi bhi fuel' (besti, bestj, bestsize + 1)
      else best
  end.

(** [find_longest_match(alo, ahi, blo, bhi)]; with no junk the last two
    loops of the library's function never run. *)
Definition find_longest_match (a b : list ascii) (alo ahi blo bhi : nat)
  : nat * nat * nat :=
  let best := scan_rows a b (seq alo (ahi - alo)) blo bhi [] (alo, blo, 0) in
  let best1 := extend_left a b alo blo (fst (fst best)) best in
  let '(besti, _, bestsize) := best1 in
  extend_right a b ahi bhi (ahi - (besti + bestsize)) best1.

(** The sum of the sizes of [get_matching_blocks()]: the longest block of
    the range, then the ranges on its left and on its right.  [None] when
    [fuel] does not cover the depth of the splitting. *)
Fixpoint matches_in (a b : list ascii) (fuel : nat) (alo ahi blo bhi : nat)
  : option nat :=
  match fuel with
  | O => None
  | S fuel' =>
      let '(i, j, k) := find_longest_match a b alo ahi blo bhi in
      if k =? 0 then Some 0
      else
        match (if (alo <? i) && (blo <? j)
               then matches_in a b fuel' alo i blo j else Some 0),
              (if (i + k <? ahi) && (j + k <? bhi)
               then matches_in a b fuel' (i + k) ahi (j + k) bhi else Some 0)
        with
        | Some l, Some r => Some (k + l + r)
        | _, _ => None
        end
  end.

(** [_calculate_ratio(matches, length)] *)
Definition calculate_ratio (matches length : nat) : float :=
  match length with
  | O => 1%float
  | _ => (2 * float_of_Z (Z.of_nat matches) / float_of_Z (Z.of_nat length))%float
  end.

(** [SequenceMatcher(a=a, b=b).ratio()]; the fuel given covers every
    input, see [ratio_total]. *)
Definition ratio (a b : string) : result float :=
  let la := seq_chars a in
  let lb := seq_chars b in
  match matches_in la lb (S (List.length la)) 0 (List.length la) 0 (List.length lb) with
  | Some m => Ok (calculate_ratio m (List.length la + List.length lb))
  | None => Raise Unsupported
  end.

End Difflib.

(** ** The scorer *)

Definition repl_get_str (ch : string) : string :=
  match ch with
  | String c EmptyString => String (repl_get c) EmptyString
  | _ => ch
  end.

(** [normalize(s)] for any argument: a falsy one gives [""], any other is
    iterated over; on a [str] this is [normalize]. *)
Definition normalize_any (s : json) : result string :=
  if negb (truthy s) then Ok ""
  else
    chs <- py_iter s ;;
    parts <- mapM (fun ch => match ch with
                             | JStr c => Ok (repl_get_str c)
                             | _ => Raise TypeError
                             end) chs ;;
    Ok (strip (lower (String.concat "" parts))).

Definition fuzzy_ratio (a b : json) : result float :=
  na <- normalize_any a ;;
  nb <- normalize_any b ;;
  Difflib.ratio na nb.

Definition score_answer (user_text target : json) : result float :=
  fuzzy_ratio user_text target.

(** [correct = score >= 0.65] *)
Definition is_correct (score : float) : bool := PrimFloat.leb 0.65 score.

(** *** More of Python, for the practice handler *)

(** [v.setdefault(k, dflt)]: the value found or stored, and [v] afterwards. *)
Definition py_setdefault (v : json) (k : string) (dflt : json) : result (json * json) :=
  match v with
  | JDict d =>
      match dict_get k d with
      | Some x => Ok (x, v)
      | None => Ok (dflt, JDict (dict_set k dflt d))
      end
  | _ => Raise AttributeError
  end.

(** [v.append(x)] *)
Definition py_append (v x : json) : result json :=
  match v with
  | JList l => Ok (JList (l ++ [x]))
  | _ => Raise AttributeError
  end.

(** [v + 1] *)
Definition py_add1 (v : json) : result json :=
  match v with
  | JBool b => Ok (JInt (Z.b2z b + 1))
  | JInt n => Ok (JInt (n + 1))
  | JFloat f => Ok (JFloat (f + 1)%float)
  | _ => Raise TypeError
  end.

(** [sum(l)] of integers; a list with a float in it is outside the
    embedding. *)
Fixpoint py_sum (l : list json) : result Z :=
  match l with
  | [] => Ok 0
  | x :: l' =>
      n <- match x with
           | JBool b => Ok (Z.b2z b)
           | JInt n => Ok n
           | JFloat _ => Raise Unsupported
           | _ => Raise TypeError
           end ;;
      s <- py_sum l' ;;
      Ok (n + s)
  end.

(** [s / n] for integers, exact while [|s|] stays below [2^53]. *)
Definition py_truediv (s : Z) (n : nat) : result float :=
  if Z.abs s <? 2 ^ 53
  then Ok (float_of_Z s / float_of_Z (Z.of_nat n))%float
  else Raise Unsupported.

(** [round(x, 2)]: the double nearest to the two-decimal number nearest
    to [x], ties to even; a float of [2^52] or more is an integer and is
    returned, one in between is outside the embedding. *)
Definition py_round2 (x : float) : result float :=
  match Prim2SF x with
  | S754_finite s m e =>
      if 0 <=? e then Ok x
      else
        let d := 2 ^ (- e) in
        let q := (Z.pos m * 100) / d in
        let r := (Z.pos m * 100) mod d in
        let k := if 2 * r <? d then q
                 else if d <? 2 * r then q + 1
                 else if Z.even q then q else q + 1 in
        if k <? 2 ^ 53
        then Ok (let y := (float_of_Z k / 100)%float in if s then (- y)%float else y)
        else Raise Unsupported
  | _ => Ok x
  end.

(** The level as the slider of the sidebar leaves it: an integer. *)
Definition level_of (v : json) : result Z :=
  match v with
  | JBool b => Ok (Z.b2z b)
  | JInt n => Ok n
  | JFloat _ => Raise Unsupported
  | _ => Raise TypeError
  end.

(** ** The scoring branch of the "Practice prompt" action *)

Definition default_user : json :=
  JDict [ ("name", JNull); ("lang", JStr "es"); ("level", JInt 1);
          ("stats", JDict [("correct", JInt 0); ("wrong", JInt 0); ("recent", JList [])]);
          ("custom_vocab", JDict []);
          ("conversation_history", JList []) ].

(** [user_mem["stats"][counter] += 1] *)
Definition incr_stat (user_mem : json) (counter : string) : result json :=
  stats <- py_getitem user_mem "stats" ;;
  c <- py_getitem stats counter ;;
  c' <- py_add1 c ;;
  stats' <- py_setitem stats counter c' ;;
  py_setitem user_mem "stats" stats'.

(** The update of the recent window: append the mark, keep the last 20. *)
Definition push_recent (user_mem : json) (correct : bool) : result json :=
  stats <- py_getitem user_mem "stats" ;;
  '(recent, stats1) <- py_setdefault stats "recent" (JList []) ;;
  recent1 <- py_append recent (JInt (if correct then 1 else 0)) ;;
  stats2 <- py_setitem stats1 "recent" recent1 ;;
  recent2 <- py_slice_last 20 recent1 ;;
  stats3 <- py_setitem stats2 "recent" recent2 ;;
  py_setitem user_mem "stats" stats3.

(** [len(v)] of a list or a string *)
Definition py_len (v : json) : result nat :=
  match v with
  | JList l => Ok (List.length l)
  | JStr s => Ok (String.length s)
  | JDict d => Ok (List.length d)
  | _ => Raise TypeError
  end.

(** The auto-level adjustment. *)
Definition adjust_level (user_mem : json) : result json :=
  stats <- py_getitem user_mem "stats" ;;
  recent <- py_getitem stats "recent" ;;
  n <- py_len recent ;;
  if (6 <=? n)%nat then
    items <- py_iter recent ;;
    s <- py_sum items ;;
    rate <- py_truediv s n ;;
    up <- (if PrimFloat.leb 0.8 rate
           then lv <- py_getitem user_mem "level" ;; l <- level_of lv ;; Ok (l <? 5)
           else Ok false) ;;
    if up then
      lv <- py_getitem user_mem "level" ;;
      lv' <- py_add1 lv ;;
      py_setitem user_mem "level" lv'
    else
      down <- (if PrimFloat.leb rate 0.5
               then lv <- py_getitem user_mem "level" ;; l <- level_of lv ;; Ok (1 <? l)
               else Ok false) ;;
      if down then
        lv <- py_getitem user_mem "level" ;;
        l <- level_of lv ;;
        py_setitem user_mem "level" (JInt (l - 1))
      else Ok user_mem
  else Ok user_mem.

Section Handler.

Variable utcnow : nat -> string.

(** [add_attempt_to_vocab(user_mem, lang, user_ans, correct_ans, topic, level)] *)
Definition add_attempt_to_vocab (user_mem lang user_ans correct_ans topic level : json)
  (t : nat) : result (json * nat) :=
  let ent := JDict [ ("native", user_ans); ("target", correct_ans); ("topic", topic);
                     ("level", level); ("last_used", JStr (now_iso utcnow t)) ] in
  '(cv, user_mem1) <- py_setdefault user_mem "custom_vocab" (JDict []) ;;
  key <- match lang with
         | JStr s => Ok s
         | JList _ | JDict _ => Raise TypeError
         | _ => Raise Unsupported
         end ;;
  '(vlist, cv1) <- py_setdefault cv key (JList []) ;;
  vlist1 <- py_append vlist ent ;;
  cv2 <- py_setitem cv1 key vlist1 ;;
  user_mem2 <- py_setitem user_mem1 "custom_vocab" cv2 ;;
  Ok (user_mem2, S t).

(** [user_mem.setdefault("conversation_history", []).append(entry)] *)
Definition record_history (user_mem entry : json) : result json :=
  '(h, user_mem1) <- py_setdefault user_mem "conversation_history" (JList []) ;;
  h1 <- py_append h entry ;;
  py_setitem user_mem1 "conversation_history" h1.

(** The handler from [score = score_answer(...)] to the history record,
    for the answer [text] to the prompt [item]. *)
Definition score_attempt (user_mem : json) (text : string) (item : json) (t : nat)
  : result (json * nat) :=
  tgt <- py_get_default item "target" (JStr "") ;;
  score <- score_answer (JStr text) tgt ;;
  let correct := is_correct score in
  '(m1, t1) <-
    (if correct then m <- incr_stat user_mem "correct" ;; Ok (m, t)
     else
       m <- incr_stat user_mem "wrong" ;;
       lang <- py_get_default m "lang" (JStr "es") ;;
       topic <- py_get_default item "topic" (JStr "misc") ;;
       level <- py_get_default m "level" (JInt 1) ;;
       add_attempt_to_vocab m lang (JStr text) tgt topic level t) ;;
  (* update recent window *)
  m2 <- push_recent m1 correct ;;
  (* auto-level adjust *)
  m3 <- adjust_level m2 ;;
  (* record history *)
  prompt <- py_get item "native" ;;
  target <- py_get item "target" ;;
  rounded <- py_round2 score ;;
  m4 <- record_history m3
          (history_entry (JStr (now_iso utcnow t1)) prompt text target (JFloat rounded)) ;;
  Ok (m4, S t1).

End Handler.

(** ** The admin merge of an uploaded document

    The loop runs inside [try]; when it raises, the handler reports the
    failure and skips the save.  (What the interrupted loop has already
    written into the store in memory is not tracked.) *)

(** The list behind [v.extend] *)
Definition py_list (v : json) : result (list json) :=
  match v with
  | JList l => Ok l
  | _ => Raise AttributeError
  end.

(** [for lang, vv in ...: existing.setdefault("custom_vocab", {}).setdefault(lang, []).extend(vv)] *)
Fixpoint merge_vocab (items : list (string * json)) (existing : json) : result json :=
  match items with
  | [] => Ok existing
  | (lang, vv) :: rest =>
      '(cv, existing1) <- py_setdefault existing "custom_vocab" (JDict []) ;;
      '(vl, cv1) <- py_setdefault cv lang (JList []) ;;
      l <- py_list vl ;;
      xs <- py_iter vv ;;
      cv2 <- py_setitem cv1 lang (JList (l ++ xs)) ;;
      existing2 <- py_setitem existing1 "custom_vocab" cv2 ;;
      merge_vocab rest existing2
  end.

(** The [else] branch: merge vocab & history, simple append. *)
Definition merge_existing (existing v : json) : result json :=
  '(h, existing1) <- py_setdefault existing "conversation_history" (JList []) ;;
  l <- py_list h ;;
  more <- py_get_default v "conversation_history" (JList []) ;;
  xs <- py_iter more ;;
  existing2 <- py_setitem existing1 "conversation_history" (JList (l ++ xs)) ;;
  vocab <- py_get_default v "custom_vocab" (JDict []) ;;
  items <- py_items vocab ;;
  merge_vocab items existing2.

(** The body of [for k, v in rd.get("users", rd).items()]. *)
Definition merge_user (global_data : json) (k : string) (v : json) : result json :=
  users <- py_get_default global_data "users" (JDict []) ;;
  present <- py_contains k users ;;
  if negb present then
    '(us, global_data1) <- py_setdefault global_data "users" (JDict []) ;;
    us' <- py_setitem us k v ;;
    py_setitem global_data1 "users" us'
  else
    us <- py_getitem global_data "users" ;;
    existing <- py_getitem us k ;;
    existing' <- merge_existing existing v ;;
    us' <- py_setitem us k existing' ;;
    py_setitem global_data "users" us'.

Fixpoint merge_loop (items : list (string * json)) (global_data : json) : result json :=
  match items with
  | [] => Ok global_data
  | (k, v) :: rest =>
      global_data' <- merge_user global_data k v ;;
      merge_loop rest global_data'
  end.

(** The merge of the uploaded document [rd] into the store. *)
Definition merge (global_data rd : json) : result json :=
  incoming <- py_get_default rd "users" rd ;;
  items <- py_items incoming ;;
  merge_loop items global_data.

(** ** Loading the store *)

Definition empty_store : json := JDict [("users", JDict [])].

(** What the file system holds under [GLOBAL_FILE] when [load_global]
    runs: no file ([stat] fails with ENOENT, ENOTDIR, EBADF or ELOOP); a
    [stat] that fails with another error, such as EACCES on a directory
    that cannot be searched; or a file, with what opening and reading it
    gives. *)
Inductive file_state : Type :=
| NoFile
| StatError
| File (opened : result string).

Section Files.

(** [json.load] on the text of a file. *)
Variable json_load : string -> result json.

(** The body of the [try] of [load_global]. *)
Definition load_body (opened : result string) : result json :=
  text <- opened ;;
  data <- json_load text ;;
  (* ensure shape *)
  has <- py_contains "users" data ;;
  Ok (if negb has then JDict [("users", data)] else data).

(** [Path(GLOBAL_FILE).exists()] stands before the [try]: it is [False]
    when the file is not there, and it raises the error of [stat] when
    that is any other one. *)
Definition path_exists (file : file_state) : result bool :=
  match file with
  | NoFile => Ok false
  | StatError => Raise OSError
  | File _ => Ok true
  end.

(** [open(GLOBAL_FILE, "r", encoding="utf-8")] and the reading of the
    text. *)
Definition read_file (file : file_state) : result string :=
  match file with
  | File opened => opened
  | _ => Raise OSError
  end.

(** [load_global()] *)
Definition load_global (file : file_state) : result json :=
  found <- path_exists file ;;
  if found then
    match load_body (read_file file) with
    | Ok data => Ok data
    | Raise _ => Ok empty_store
    end
  else Ok empty_store.

End Files.

(** ** Shapes of stores *)

(** Every object of the value has pairwise different keys, as every
    Python [dict] has. *)
Fixpoint nodup_keys (ks : list string) : bool :=
  match ks with
  | [] => true
  | k :: ks' => negb (existsb (String.eqb k) ks') && nodup_keys ks'
  end.

Fixpoint well_formed (v : json) : bool :=
  match v with
  | JList l => forallb well_formed l
  | JDict d =>
      nodup_keys (map fst d) && forallb (fun kv => well_formed (snd kv)) d
  | _ => true
  end.

(** ** Observations, specification-level definitions and example data *)

Definition como_estas_accented : string :=
  "c" ++ String o_acute "mo est" ++ String a_acute "s".

(** A parser for two texts, to run [load_global] on. *)
Definition toy_json_load (text : string) : result json :=
  if String.eqb text "{}" then Ok (JDict [])
  else if String.eqb text "{x: {}}" then Ok (JDict [("x", JDict [])])
  else Raise ValueError.

(** [stats.recent] of a user record. *)
Definition recent_of (m : json) : result json :=
  stats <- py_getitem m "stats" ;;
  py_getitem stats "recent".

(** The level after an attempt, in the words of the specification: with
    at least six marks in the window, [rate = sum(recent)/len(recent)];
    one level up when [rate >= 0.8] and [level < 5], else one level down
    when [rate <= 0.5] and [level > 1]. *)
Definition spec_level (recent : list json) (level : Z) : result Z :=
  if (6 <=? List.length recent)%nat then
    s <- py_sum recent ;;
    rate <- py_truediv s (List.length recent) ;;
    Ok (if PrimFloat.leb 0.8 rate && (level <? 5) then level + 1
        else if PrimFloat.leb rate 0.5 && (1 <? level) then level - 1
        else level)
  else Ok level.


(** A clock, the first seed prompt, and a user with six good marks. *)
Definition example_clock (n : nat) : string := "2024-05-01T10:00:00".

Definition seed_hola : json :=
  JDict [ ("native", JStr "hello"); ("target", JStr "hola");
          ("topic", JStr "greet"); ("level", JInt 1) ].

Definition user_with (recent : list json) (level : Z) : json :=
  JDict [ ("name", JStr "ana"); ("lang", JStr "es"); ("level", JInt level);
          ("stats", JDict [("correct", JInt 0); ("wrong", JInt 0);
                           ("recent", JList recent)]);
          ("custom_vocab", JDict []);
          ("conversation_history", JList []) ].

Definition six_ones_after_hola : json :=
  Eval vm_compute in
    match score_attempt example_clock (user_with (repeat (JInt 1) 6) 3) "hola" seed_hola 0 with
    | Ok (m, _) => m
    | Raise _ => JNull
    end.

(** The entries of a vocabulary list whose key is [k]. *)
Definition has_vocab_key (k : vocab_key) (it : json) : bool :=
  match vocab_fields_of it with
  | Ok f => vocab_key_eqb (key_of_fields f) k
  | Raise _ => false
  end.

(** The entries of [vlist] the vocabulary loop keeps, given the keys seen
    so far: those whose key has not occurred before them. *)
Fixpoint survivors_from (seen : list vocab_key) (vlist : list json) : list json :=
  match vlist with
  | [] => []
  | it :: rest =>
      match vocab_fields_of it with
      | Ok f =>
          if key_in vocab_key_eqb (key_of_fields f) seen then survivors_from seen rest
          else it :: survivors_from (key_of_fields f :: seen) rest
      | Raise _ => survivors_from seen rest
      end
  end.

(** [e] is the record the vocabulary loop builds from the entry [it]. *)
Definition rebuilt_from (utcnow : nat -> string) (it e : json) : Prop :=
  exists f lu0 tk,
    vocab_fields_of it = Ok f
    /\ py_get it "last_used" = Ok lu0
    /\ e = vocab_entry f (fst (or_now utcnow lu0 tk)).

(** A user whose Spanish list holds the same phrase twice, in two
    spellings. *)
Definition vocab_example_user : json :=
  JDict [ ("lang", JStr "es");
          ("custom_vocab",
           JDict [ ("es",
                    JList [ JDict [ ("native", JStr " Hello "); ("target", JStr "Hola");
                                    ("topic", JStr "greet"); ("level", JInt 1);
                                    ("note", JStr "first") ];
                            JDict [ ("native", JStr "hello"); ("correct_answer", JStr "hola ");
                                    ("topic", JStr "greet"); ("last_used", JStr "2023") ];
                            JDict [ ("native", JStr "bye"); ("target", JStr "adios") ] ]) ]);
          ("conversation_history", JList []);
          ("stats", JDict []) ].

Definition vocab_example_after : json :=
  Eval vm_compute in
    match deduplicate_user example_clock vocab_example_user 0 with
    | Ok (m, _) => m
    | Raise _ => JNull
    end.

(** ** Stores in the shape the app writes *)

Definition falsy_field (v : json) (k : string) : bool :=
  match py_get v k with
  | Ok x => negb (truthy x)
  | Raise _ => true
  end.

(** A history entry with no ["ai"], ["reply"] or ["lang"] value. *)
Definition plain_turn (turn : json) : bool :=
  falsy_field turn "ai" && falsy_field turn "reply" && falsy_field turn "lang".

(** A vocabulary entry whose level is not read as 0. *)
Definition nonzero_level (it : json) : bool :=
  match vocab_fields_of it with
  | Ok f => negb (vf_level f =? 0)
  | Raise _ => true
  end.

Definition elements (v : json) : list json :=
  match py_iter v with
  | Ok l => l
  | Raise _ => []
  end.

Definition field_or (v : json) (k : string) (dflt : json) : json :=
  match py_get_default v k dflt with
  | Ok x => x
  | Raise _ => dflt
  end.

Definition dict_items (v : json) : list (string * json) :=
  match v with
  | JDict d => d
  | _ => []
  end.

(** A user record whose history entries are plain and whose vocabulary
    levels are not 0: the records the app itself writes are of this kind. *)
Definition plain_user (mem : json) : bool :=
  forallb plain_turn (elements (field_or mem "conversation_history" (JList [])))
  && forallb (fun kv => forallb nonzero_level (elements (snd kv)))
       (dict_items (field_or mem "custom_vocab" (JDict []))).

Definition plain_store (data : json) : bool :=
  forallb (fun kv => plain_user (snd kv))
    (dict_items (field_or data "users" (JDict []))).

(** The lists the two loops produce, given the keys seen before them. *)
Definition stripped_fields (f : vocab_fields) : Prop :=
  strip (vf_native f) = vf_native f
  /\ strip (vf_target f) = vf_target f
  /\ strip (vf_topic f) = vf_topic f.

Fixpoint canonical_vocab (seen : list vocab_key) (news : list json) : Prop :=
  match news with
  | [] => True
  | e :: rest =>
      exists f lu,
        e = vocab_entry f lu
        /\ stripped_fields f
        /\ vf_level f <> 0
        /\ truthy lu = true
        /\ key_in vocab_key_eqb (key_of_fields f) seen = false
        /\ canonical_vocab (key_of_fields f :: seen) rest
  end.

Fixpoint canonical_history (l : json) (seen : list history_key) (news : list json) : Prop :=
  match news with
  | [] => True
  | e :: rest =>
      exists w p u g s,
        e = history_entry w p u g s
        /\ truthy w = true
        /\ py_or p (JStr "") = p
        /\ py_or g (JStr "") = g
        /\ strip u = u
        /\ py_hashable l = Ok tt
        /\ key_in history_key_eqb (normalize u, "", l) seen = false
        /\ canonical_history l ((normalize u, "", l) :: seen) rest
  end.

(** A store of the app's own making, and its deduplication. *)
Definition plain_example_store : json :=
  JDict [ ("users", JDict [ ("ana", vocab_example_user);
                            ("ben", user_with [JInt 1; JInt 0] 2) ]) ].

Definition plain_example_after : json :=
  Eval vm_compute in
    match deduplicate_global example_clock plain_example_store 0 with
    | Ok (data, _) => data
    | Raise _ => JNull
    end.

(** A store with two history entries of an older shape: the same answer,
    two different ["ai"] values. *)
Definition legacy_store : json :=
  JDict [ ("users",
           JDict [ ("ana",
                    JDict [ ("lang", JStr "es");
                            ("conversation_history",
                             JList [ JDict [ ("your", JStr "hola"); ("ai", JStr "hi") ];
                                     JDict [ ("your", JStr "hola"); ("ai", JStr "hello") ] ]);
                            ("stats", JDict []) ]) ]) ].

(** A store whose only user has 21 marks in the recent window. *)
Definition long_recent_store : json :=
  JDict [ ("users", JDict [ ("ana", user_with (repeat (JInt 1) 21) 3) ]) ].

(** The length of the history and of the recent window of a user. *)
Definition history_length (data : json) (uname : string) : result nat :=
  users <- py_getitem data "users" ;;
  u <- py_getitem users uname ;;
  h <- py_getitem u "conversation_history" ;;
  py_len h.

Definition recent_length (data : json) (uname : string) : result nat :=
  users <- py_getitem data "users" ;;
  u <- py_getitem users uname ;;
  r <- recent_of u ;;
  py_len r.

(** A store and an uploaded document that share the user ["ana"]. *)
Definition merge_example_store : json :=
  JDict [ ("users",
           JDict [ ("ana",
                    JDict [ ("name", JStr "Ana"); ("lang", JStr "es"); ("level", JInt 2);
                            ("stats", JDict [("correct", JInt 4); ("wrong", JInt 1);
                                             ("recent", JList [JInt 1])]);
                            ("custom_vocab", JDict [("es", JList [seed_hola])]);
                            ("conversation_history",
                             JList [history_entry (JStr "t0") (JStr "hello") "hola"
                                      (JStr "hola") (JFloat 1)]) ]) ]) ].

Definition merge_example_upload : json :=
  JDict [ ("users",
           JDict [ ("ana",
                    JDict [ ("level", JInt 5);
                            ("custom_vocab", JDict [("es", JList [seed_hola]);
                                                    ("fr", JList [seed_hola])]);
                            ("conversation_history",
                             JList [history_entry (JStr "t0") (JStr "hello") "hola"
                                      (JStr "hola") (JFloat 1)]) ]);
                   ("ben", user_with [] 1) ]) ].

Definition merge_example_after : json :=
  Eval vm_compute in
    match merge merge_example_store merge_example_upload with
    | Ok data => data
    | Raise _ => JNull
    end.

(** A block of the matcher lies within the rows [alo..ahi) of [a]. *)
Definition block_in_rows (alo ahi : nat) (best : nat * nat * nat) : Prop :=
  let '(i, _, k) := best in (alo <= i /\ i + k <= ahi)%nat.

(** The two thresholds of the level rule, on exact fractions: [s] good
    marks out of [n]. *)
Definition thresholds_exact (s n : nat) : bool :=
  let rate := (float_of_Z (Z.of_nat s) / float_of_Z (Z.of_nat n))%float in
  Bool.eqb (PrimFloat.leb 0.8 rate) (4 * Z.of_nat n <=? 5 * Z.of_nat s)
  && Bool.eqb (PrimFloat.leb rate 0.5) (2 * Z.of_nat s <=? Z.of_nat n).

(** A store with two vocabulary entries of the same phrase whose levels
    are read as 0 and as 1. *)
Definition level_zero_store : json :=
  JDict [ ("users",
           JDict [ ("ana",
                    JDict [ ("lang", JStr "es");
                            ("custom_vocab",
                             JDict [ ("es",
                                      JList [ JDict [ ("native", JStr "hello");
                                                      ("target", JStr "hola");
                                                      ("level", JStr "0") ];
                                              JDict [ ("native", JStr "hello");
                                                      ("target", JStr "hola");
                                                      ("level", JInt 1) ] ]) ]);
                            ("stats", JDict []) ]) ]) ].

Definition vocab_length (data : json) (uname lang : string) : result nat :=
  users <- py_getitem data "users" ;;
  u <- py_getitem users uname ;;
  cv <- py_getitem u "custom_vocab" ;;
  vl <- py_getitem cv lang ;;
  py_len vl.

(* ================================================================== *)
(** * Part I, continued: the prompts and the actions of the two panels *)
(* ================================================================== *)

(** ** The seed prompts *)

Definition inverted_question : ascii := "191"%char.
Definition i_circumflex : ascii := "238"%char.

Definition seed_prompt (native target topic : string) (level : Z) : json :=
  JDict [ ("native", JStr native); ("target", JStr target);
          ("topic", JStr topic); ("level", JInt level) ].

Definition SEED : list (string * list json) :=
  [ ("es",
     [ seed_prompt "hello" "hola" "greet" 1;
       seed_prompt "how are you?"
         (String inverted_question
            ("c" ++ String o_acute ("mo est" ++ String a_acute "s?")))
         "greet" 1;
       seed_prompt "i want water please" "quiero agua por favor" "cafe" 1;
       seed_prompt "where is the bathroom?"
         (String inverted_question
            ("d" ++ String o_acute
               ("nde est" ++ String a_acute (" el ba" ++ String n_tilde "o?"))))
         "travel" 1 ]);
    ("fr",
     [ seed_prompt "hello" "bonjour" "greet" 1;
       seed_prompt "i want water please"
         ("je veux de l'eau, s'il vous pla" ++ String i_circumflex "t")
         "cafe" 1 ]);
    ("de",
     [ seed_prompt "hello" "hallo" "greet" 1 ]) ].

(** [SEED.get(lang, [])]: a key that is not a string is never found, a
    list or a dictionary cannot be hashed. *)
Definition seed_get (lang : json) : result (list json) :=
  match lang with
  | JStr s =>
      Ok (match find (fun kv => String.eqb (fst kv) s) SEED with
          | Some kv => snd kv
          | None => []
          end)
  | JList _ | JDict _ => Raise TypeError
  | _ => Ok []
  end.

(** [v.get(key, dflt)] for a key that is any value: the keys of a
    document are strings, so no other key is found. *)
Definition py_get_by (v key dflt : json) : result json :=
  match v with
  | JDict d =>
      match key with
      | JStr s => Ok (match dict_get s d with Some x => x | None => dflt end)
      | JList _ | JDict _ => Raise TypeError
      | _ => Ok dflt
      end
  | _ => Raise AttributeError
  end.

(** [a <= b]: numbers by value, strings by code points.  [None] and
    dictionaries are not ordered, nor are values of two kinds; the order
    of lists and that of an integer beyond [2^53] with a float that is
    not one are outside the embedding. *)
Definition py_le (a b : json) : result bool :=
  match a, b with
  | JStr s, JStr s' => Ok (String.leb s s')
  | JList _, JList _ => Raise Unsupported
  | _, _ =>
      match num_of a, num_of b with
      | Some (NumZ x), Some (NumZ y) => Ok (x <=? y)
      | Some (NumF f), Some (NumF g) => Ok (PrimFloat.leb f g)
      | Some (NumZ x), Some (NumF g) =>
          if Z.abs x <? 2 ^ 53 then Ok (PrimFloat.leb (float_of_Z x) g)
          else Raise Unsupported
      | Some (NumF f), Some (NumZ y) =>
          if Z.abs y <? 2 ^ 53 then Ok (PrimFloat.leb f (float_of_Z y))
          else Raise Unsupported
      | _, _ => Raise TypeError
      end
  end.

(** ** [choose_prompt_for_user] *)

(** The prompt built from a custom vocabulary entry. *)
Definition prompt_of_entry (ent : json) : result json :=
  native <- py_get_default ent "native" (JStr "") ;;
  target <- py_get_default ent "target" (JStr "") ;;
  topic <- py_get_default ent "topic" (JStr "misc") ;;
  level <- py_get_default ent "level" (JInt 1) ;;
  Ok (JDict [ ("native", native); ("target", target);
              ("topic", topic); ("level", level) ]).

(** [[p for p in prompts if p.get("level", 1) <= level]] *)
Fixpoint pool_of (prompts : list json) (level : json) : result (list json) :=
  match prompts with
  | [] => Ok []
  | p :: rest =>
      lv <- py_get_default p "level" (JInt 1) ;;
      keep <- py_le lv level ;;
      pool <- pool_of rest level ;;
      Ok (if keep then p :: pool else pool)
  end.

(** [random.choice(seq)], where [r] is the number the generator draws:
    the element at [r] modulo the length.  (The call is reached with a
    sequence that is not empty.) *)
Definition random_choice (r : nat) (seq : list json) : result json :=
  match nth_error seq (r mod List.length seq) with
  | Some x => Ok x
  | None => Raise Unsupported
  end.

(** [choose_prompt_for_user(user_mem)]; [None] is [JNull]. *)
Definition choose_prompt_for_user (user_mem : json) (r : nat) : result json :=
  lang <- py_get_default user_mem "lang" (JStr "es") ;;
  level <- py_get_default user_mem "level" (JInt 1) ;;
  seeds <- seed_get lang ;;
  (* include custom vocab entries *)
  cv <- py_get_default user_mem "custom_vocab" (JDict []) ;;
  ents <- py_get_by cv lang (JList []) ;;
  its <- py_iter ents ;;
  customs <- mapM prompt_of_entry its ;;
  let prompts := (seeds ++ customs)%list in
  match prompts with
  | [] => Ok JNull
  | _ :: _ =>
      pool <- pool_of prompts level ;;
      random_choice r (match pool with [] => prompts | _ :: _ => pool end)
  end.

(** ** The custom phrase: [native || target] *)

(** [s.split(sep, 1)] for a separator that occurs in [s]: the text before
    its first occurrence and the text after it; [None] when it does not
    occur. *)
Fixpoint split_once (sep s : string) : option (string * string) :=
  if String.prefix sep s then Some ("", string_skipn (String.length sep) s)
  else
    match s with
    | EmptyString => None
    | String c s' =>
        match split_once sep s' with
        | Some (a, b) => Some (String c a, b)
        | None => None
        end
    end.

(** [del v[k]] *)
Fixpoint dict_del (k : string) (d : list (string * json)) : list (string * json) :=
  match d with
  | [] => []
  | (k', v) :: d' => if String.eqb k k' then d' else (k', v) :: dict_del k d'
  end.

Definition py_delitem (v : json) (k : string) : result json :=
  match v with
  | JDict d => if dict_has k d then Ok (JDict (dict_del k d)) else Raise KeyError
  | _ => Raise TypeError
  end.

(** ** The actions

    An action takes the store in memory and returns it as the action
    leaves it, with the text written to [GLOBAL_FILE] when the action
    saves.  The chat view and the audio are not part of the store and
    are left out. *)

Section Actions.

Variable utcnow : nat -> string.
Variable dump : json -> string.

(** [global_data["users"][uname] = user_mem] *)
Definition store_user (global_data : json) (uname : string) (user_mem : json)
  : result json :=
  users <- py_getitem global_data "users" ;;
  users' <- py_setitem users uname user_mem ;;
  py_setitem global_data "users" users'.

(** The "Load user" button of the sidebar; the second component is
    [st.session_state.current_user] when the button sets it. *)
Definition load_user (global_data : json) (username : string) (t : nat)
  : result (json * option string * option string * nat) :=
  if String.eqb (strip username) "" then Ok (global_data, None, None, t)
  else
    let uname := strip username in
    has <- py_contains "users" global_data ;;
    g1 <- (if negb has then py_setitem global_data "users" (JDict [])
           else Ok global_data) ;;
    users <- py_getitem g1 "users" ;;
    present <- py_contains uname users ;;
    if negb present then
      users1 <- py_setitem users uname default_user ;;
      rec <- py_getitem users1 uname ;;
      rec' <- py_setitem rec "name" (JStr uname) ;;
      users2 <- py_setitem users1 uname rec' ;;
      g2 <- py_setitem g1 "users" users2 ;;
      '(g3, file, t') <- save_global utcnow dump g2 t ;;
      Ok (g3, Some uname, Some file, t')
    else Ok (g1, Some uname, None, t).

(** [user_mem = global_data["users"].get(uname, default_user())] *)
Definition current_user_mem (global_data : json) (uname : string) : result json :=
  users <- py_getitem global_data "users" ;;
  py_get_default users uname default_user.

(** The action "Practice prompt" for the answer [text], from the choice
    of the prompt to the save; [user_mem] is the record of the user
    [uname] with the profile of the sidebar in it. *)
Definition practice_prompt (global_data : json) (uname : string) (user_mem : json)
  (text : string) (r : nat) (t : nat) : result (json * string * nat) :=
  item <- choose_prompt_for_user user_mem r ;;
  '(user_mem', t1) <-
    (if negb (truthy item) then Ok (user_mem, t)
     else if String.eqb text "" then Ok (user_mem, t)
     else score_attempt utcnow user_mem text item t) ;;
  (* save user state *)
  global_data' <- store_user global_data uname user_mem' ;;
  save_global utcnow dump global_data' t1.

(** The action "Add custom phrase"; nothing is written when [text] has
    no separator. *)
Definition add_custom_phrase (global_data : json) (uname : string) (user_mem : json)
  (text : string) (t : nat) : result (json * option string * nat) :=
  if is_infix "||" text then
    '(a, b) <- match split_once "||" text with
               | Some ab => Ok ab
               | None => Raise ValueError
               end ;;
    let native := strip a in
    let target := strip b in
    level <- py_get_default user_mem "level" (JInt 1) ;;
    let ent := JDict [ ("native", JStr native); ("target", JStr target);
                       ("topic", JStr "user"); ("level", level);
                       ("last_used", JStr (now_iso utcnow t)) ] in
    '(cv, m1) <- py_setdefault user_mem "custom_vocab" (JDict []) ;;
    _ <- match cv with JDict _ => Ok tt | _ => Raise AttributeError end ;;
    lang <- py_get_default m1 "lang" (JStr "es") ;;
    key <- match lang with
           | JStr s => Ok s
           | JList _ | JDict _ => Raise TypeError
           | _ => Raise Unsupported
           end ;;
    '(vlist, cv1) <- py_setdefault cv key (JList []) ;;
    vlist1 <- py_append vlist ent ;;
    cv2 <- py_setitem cv1 key vlist1 ;;
    m2 <- py_setitem m1 "custom_vocab" cv2 ;;
    global_data' <- store_user global_data uname m2 ;;
    '(g, file, t') <- save_global utcnow dump global_data' (S t) ;;
    Ok (g, Some file, t')
  else Ok (global_data, None, t).

(** The admin buttons "Reset user data" and "Delete user". *)
Definition reset_user (global_data : json) (sel : string) (t : nat)
  : result (json * string * nat) :=
  global_data' <- store_user global_data sel default_user ;;
  save_global utcnow dump global_data' t.

Definition delete_user (global_data : json) (sel : string) (t : nat)
  : result (json * string * nat) :=
  users <- py_getitem global_data "users" ;;
  users' <- py_delitem users sel ;;
  global_data' <- py_setitem global_data "users" users' ;;
  save_global utcnow dump global_data' t.

(** The admin import when nothing raises: the merge, then the save. *)
Definition merge_upload (global_data rd : json) (t : nat)
  : result (json * string * nat) :=
  g <- merge global_data rd ;;
  save_global utcnow dump g t.

End Actions.

(** ** [tts_bytes]

    The two speech libraries are oracles: [pyttsx3_synth text] is the
    audio the offline engine writes, or [None] when any step of it
    raises; [gtts_synth text lang] is the audio of the online service, or
    the text of the exception it raises. *)

Inductive tts_engine : Type :=
| Pyttsx3
| Gtts.

Inductive tts_result : Type :=
| Audio (data mime : string)
| RuntimeError (msg : string).

(** [s.split(sep)[0]] for a separator of one character *)
Fixpoint split_head (sep : ascii) (s : string) : string :=
  match s with
  | EmptyString => EmptyString
  | String c s' => if Ascii.eqb c sep then EmptyString else String c (split_head sep s')
  end.

Section Speech.

Variable TTS_ENGINE : option tts_engine.
Variable pyttsx3_synth : string -> option string.
Variable gtts_synth : string -> string -> string + string.

Definition tts_bytes (text lang_code : string) : tts_result :=
  match (match TTS_ENGINE with
         | Some Pyttsx3 => pyttsx3_synth text
         | _ => None
         end) with
  | Some data => Audio data "audio/wav"
  | None =>
      match TTS_ENGINE with
      | Some Gtts =>
          let lang := if is_infix "-" lang_code then split_head "-"%char lang_code
                      else lang_code in
          match gtts_synth text lang with
          | inl data => Audio data "audio/mp3"
          | inr msg => RuntimeError ("TTS failed: " ++ msg)
          end
      | _ => RuntimeError "No TTS engine available on server."
      end
  end.

End Speech.

(** ** Observations for the properties of Part III *)

(** [m["stats"][counter]] *)
Definition stat_of (m : json) (counter : string) : result json :=
  stats <- py_getitem m "stats" ;;
  py_getitem stats counter.

(** The record of a mistake, as [add_attempt_to_vocab] builds it. *)
Definition attempt_entry (user_ans correct_ans topic level last_used : json) : json :=
  JDict [ ("native", user_ans); ("target", correct_ans); ("topic", topic);
          ("level", level); ("last_used", last_used) ].

(** The key the history loop computes for an entry, when it computes one. *)
Definition history_key_at (mem turn : json) : option history_key :=
  match history_key_of mem turn with
  | Ok (k, _) => Some k
  | Raise _ => None
  end.

(** The test [key in seen] of the history loop, between the entry at hand
    and an entry kept before it. *)
Definition same_history_key (mem new old : json) : bool :=
  match history_key_at mem new, history_key_at mem old with
  | Some k, Some k' => history_key_eqb k k'
  | _, _ => false
  end.

(** The entries of [turns] the history loop keeps, given the entries kept
    so far. *)
Fixpoint history_survivors (mem : json) (kept turns : list json) : list json :=
  match turns with
  | [] => []
  | turn :: rest =>
      if existsb (same_history_key mem turn) kept then history_survivors mem kept rest
      else turn :: history_survivors mem (turn :: kept) rest
  end.

(** [e] is the record the history loop builds from the entry [turn]. *)
Definition history_rebuilt_from (utcnow : nat -> string) (turn e : json) : Prop :=
  exists u0 u1 u w0 p0 g0 s0 tk,
    py_get turn "your" = Ok u0
    /\ py_get turn "user" = Ok u1
    /\ py_strip (py_or (py_or u0 u1) (JStr "")) = Ok u
    /\ py_get turn "when" = Ok w0
    /\ py_get turn "prompt" = Ok p0
    /\ py_get turn "target" = Ok g0
    /\ py_get turn "score" = Ok s0
    /\ e = history_entry (fst (or_now utcnow w0 tk)) (py_or p0 (JStr "")) u
             (py_or g0 (JStr "")) s0.

(** [l] is [l'] with some elements left out, the order kept. *)
Inductive subseq {A : Type} : list A -> list A -> Prop :=
| subseq_nil : subseq [] []
| subseq_skip x l l' : subseq l l' -> subseq l (x :: l')
| subseq_keep x l l' : subseq l l' -> subseq (x :: l) (x :: l').

(** A store whose only user has a record of an older shape, without
    [stats]: what [load_global] makes of the document [{x: {}}]. *)
Definition wrapped_legacy_store : json :=
  JDict [("users", JDict [("x", JDict [])])].

(** A serializer and a parser that know one document. *)
Definition one_document_dump (data : json) : string := "(the store)".

Definition one_document_load (text : string) : result json :=
  if String.eqb text "(the store)" then Ok plain_example_after else Raise ValueError.

(** The prompts [choose_prompt_for_user] draws from: the seed prompts of
    the user's language, then one prompt for each custom entry of that
    language. *)
Definition candidate_prompts (user_mem : json) : result (list json) :=
  lang <- py_get_default user_mem "lang" (JStr "es") ;;
  seeds <- seed_get lang ;;
  cv <- py_get_default user_mem "custom_vocab" (JDict []) ;;
  ents <- py_get_by cv lang (JList []) ;;
  its <- py_iter ents ;;
  customs <- mapM prompt_of_entry its ;;
  Ok (seeds ++ customs)%list.

(** The prompt [p] is within the level [level]. *)
Definition within_level (level p : json) : Prop :=
  exists l, py_get_default p "level" (JInt 1) = Ok l /\ py_le l level = Ok true.

(** A user of Italian with one custom phrase above the level. *)
Definition italian_user : json :=
  JDict [ ("name", JStr "ida"); ("lang", JStr "it"); ("level", JInt 1);
          ("stats", JDict [("correct", JInt 0); ("wrong", JInt 0); ("recent", JList [])]);
          ("custom_vocab",
           JDict [("it", JList [ JDict [ ("native", JStr "thanks"); ("target", JStr "grazie");
                                         ("topic", JStr "user"); ("level", JInt 2);
                                         ("last_used", JStr "2024") ] ])]);
          ("conversation_history", JList []) ].

(** The vertical bar of the separator [||]. *)
Definition is_bar (c : ascii) : bool := Ascii.eqb c "|"%char.

(** The record "Add custom phrase" appends. *)
Definition phrase_entry (native target : string) (level last_used : json) : json :=
  JDict [ ("native", JStr native); ("target", JStr target);
          ("topic", JStr "user"); ("level", level); ("last_used", last_used) ].

(** The record of a user who has just signed in for the first time. *)
Definition new_user (uname : string) : json :=
  JDict [ ("name", JStr uname); ("lang", JStr "es"); ("level", JInt 1);
          ("stats", JDict [("correct", JInt 0); ("wrong", JInt 0); ("recent", JList [])]);
          ("custom_vocab", JDict []);
          ("conversation_history", JList []) ].

(** The record of a user of a store. *)
Definition user_of (data : json) (uname : string) : result json :=
  users <- py_getitem data "users" ;;
  py_getitem users uname.

(** The hyphen of a language code such as [pt-BR]. *)
Definition is_hyphen (c : ascii) : bool := Ascii.eqb c "-"%char.

(** An online service that answers with the code it was given. *)
Definition echo_service (text lang : string) : string + string := inl lang.

(** ** The matcher on two equal sequences *)

(** A character the matcher has not purged from its index of [s] as too
    frequent. *)
Definition matcher_live (s : list ascii) (c : ascii) : bool :=
  negb ((200 <=? List.length s)%nat
        && (List.length s / 100 + 1 <? List.length (Difflib.positions c s 0))%nat).

(** The length of the run of equal characters that ends at the positions
    [i] and [j] of [s], as the matcher counts it: a purged character ends
    a run. *)
Fixpoint diagonal_run (s : list ascii) (i j : nat) : nat :=
  if (j <? List.length s)%nat
     && Ascii.eqb (Difflib.at_pos s i) (Difflib.at_pos s j)
     && matcher_live s (Difflib.at_pos s i)
  then S (match i, j with
          | S i', S j' => diagonal_run s i' j'
          | _, _ => O
          end)
  else O.

(** The row of the table that the matcher holds when it starts the row
    [i]: the runs that end in the row before. *)
Definition row_before (s : list ascii) (i j : nat) : nat :=
  match i with
  | O => O
  | S i' => diagonal_run s i' j
  end.

(** A block that starts at the same position of both sequences, and the
    size of a block. *)
Definition on_diagonal (best : nat * nat * nat) : Prop :=
  let '(bi, bj, _) := best in bi = bj.

Definition size_of (best : nat * nat * nat) : nat := snd best.

(** [2.0 * n / (n + n)] is [1.0] for every [n] from [lo] to
    [lo + 2^k - 1]. *)
Definition full_match_is_one (z : Z) : bool :=
  PrimFloat.Leibniz.eqb (2 * float_of_Z z / float_of_Z (z + z))%float 1%float.

Fixpoint full_match_is_one_on (k : nat) (lo : Z) : bool :=
  match k with
  | O => full_match_is_one lo
  | S k' => full_match_is_one_on k' lo && full_match_is_one_on k' (lo + 2 ^ Z.of_nat k')
  end.

(** A parser for one text, a list that holds the string ["users"]. *)
Definition list_document_load (text : string) : result json :=
  if String.eqb text "[users]" then Ok (JList [JStr "users"]) else Raise ValueError.

(** ** The vocabulary of a record, in the words of the design document *)

(** The value of the field [k] of an entry, [None] when it is missing. *)
Definition field (it : json) (k : string) : json := field_or it k JNull.

(** Two vocabulary entries have the same identity key: the same
    normalized native, the same normalized target, the same topic and
    the same level. *)
Definition same_identity (a b : json) : bool :=
  match vocab_fields_of a, vocab_fields_of b with
  | Ok f, Ok g =>
      String.eqb (normalize (vf_native f)) (normalize (vf_native g))
      && String.eqb (normalize (vf_target f)) (normalize (vf_target g))
      && String.eqb (vf_topic f) (vf_topic g)
      && (vf_level f =? vf_level g)
  | _, _ => false
  end.

(** A text of white space only. *)
Fixpoint all_space (s : string) : bool :=
  match s with
  | EmptyString => true
  | String c s' => isspace c && all_space s'
  end.

(** [s] is [text] without the white space at its two ends. *)
Definition trimmed_of (text s : string) : Prop :=
  starts_space s = false
  /\ ends_space s = false
  /\ exists l r, text = l ++ s ++ r /\ all_space l = true /\ all_space r = true.

(** [s] is the text [v or ""] without the white space at its two ends. *)
Definition trimmed_text (v : json) (s : string) : Prop :=
  exists text, py_or v (JStr "") = JStr text /\ trimmed_of text s.

(** A user with two Spanish entries of an older shape: white space
    around the texts, the target under [correct_answer], a level written
    as a text, fields the app does not know. *)
Definition rebuild_example_user : json :=
  JDict [ ("lang", JStr "es");
          ("custom_vocab",
           JDict [ ("es",
                    JList [ JDict [ ("native", JStr "  Good night ");
                                    ("correct_answer", JStr " buenas noches  ");
                                    ("topic", JStr " greet ");
                                    ("note", JStr "from the old app") ];
                            JDict [ ("native", JStr "bye"); ("target", JStr "adios");
                                    ("correct_answer", JStr "chao");
                                    ("level", JStr " 2 ");
                                    ("last_used", JStr "2023") ] ]) ]);
          ("conversation_history", JList []);
          ("stats", JDict []) ].

Definition rebuild_example_after : json :=
  Eval vm_compute in
    match deduplicate_user example_clock rebuild_example_user 0 with
    | Ok (m, _) => m
    | Raise _ => JNull
    end.

(** ** The history the practice handler writes *)

(** An attempt as the handler records it: the reading of the clock, the
    native text of the prompt, the answer, the target of the prompt and
    the rounded score. *)
Record attempt : Type := mk_attempt {
  at_clock : string;
  at_prompt : json;
  at_your : string;
  at_target : json;
  at_score : float
}.

(** The entry the handler appends for an attempt. *)
Definition written (a : attempt) : json :=
  history_entry (JStr (at_clock a ++ "Z")) (at_prompt a) (at_your a) (at_target a)
    (JFloat (at_score a)).

(** The record [deduplicate_user] builds from that entry. *)
Definition rewritten (a : attempt) : json :=
  history_entry (JStr (at_clock a ++ "Z")) (py_or (at_prompt a) (JStr ""))
    (strip (at_your a)) (py_or (at_target a) (JStr "")) (JFloat (at_score a)).

(** The attempts that are no duplicates, in the words of the design
    document: an attempt is a duplicate of an earlier one of the record
    when the two normalized answers are equal, whatever the two targets. *)
Fixpoint first_answers (seen : list string) (l : list attempt) : list attempt :=
  match l with
  | [] => []
  | a :: rest =>
      let answer := normalize (at_your a) in
      if existsb (String.eqb answer) seen then first_answers seen rest
      else a :: first_answers (answer :: seen) rest
  end.

(** The second seed prompt of Spanish, and a user who has answered
    [hola] to the first one. *)
Definition seed_como_estas : json :=
  JDict [ ("native", JStr "how are you?");
          ("target", JStr (String inverted_question
                             ("c" ++ String o_acute ("mo est" ++ String a_acute "s?"))));
          ("topic", JStr "greet"); ("level", JInt 1) ].

Definition hola_attempt : attempt :=
  mk_attempt "2024-05-01T10:00:00" (JStr "hello") "hola" (JStr "hola") 1%float.

Definition user_after_hola : json :=
  Eval vm_compute in
    match score_attempt example_clock (user_with [] 1) "hola" seed_hola 0 with
    | Ok (m, _) => m
    | Raise _ => JNull
    end.

Definition user_after_second_hola : json :=
  Eval vm_compute in
    match score_attempt example_clock user_after_hola "Hola" seed_como_estas 1 with
    | Ok (m, _) => m
    | Raise _ => JNull
    end.

Definition user_after_second_hola_saved : json :=
  Eval vm_compute in
    match deduplicate_user example_clock user_after_second_hola 3 with
    | Ok (m, _) => m
    | Raise _ => JNull
    end.

(** A record whose language is the NaN of a document, with the same
    answer twice in its history. *)
Definition nan_language_user : json :=
  JDict [ ("lang", JFloat nan);
          ("conversation_history",
           JList [ JDict [ ("your", JStr "hola") ]; JDict [ ("your", JStr "hola") ] ]);
          ("stats", JDict []) ].

(** [e] is a vocabulary record rebuilt from an entry of [vlist], in the
    words of the design document: exactly the fields native, target,
    topic, level and last_used; the three texts without white space
    around them, the target taken from [correct_answer] when [target] is
    missing or empty; the level an integer, 1 when it is missing; a
    last_used that is never empty, the time of the rebuilding when the
    entry had none. *)
Definition rebuilt_record (utcnow : nat -> string) (vlist : list json) (e : json) : Prop :=
  exists it native target topic level lu,
    In it vlist
    /\ e = JDict [ ("native", JStr native); ("target", JStr target);
                   ("topic", JStr topic); ("level", JInt level);
                   ("last_used", lu) ]
    /\ trimmed_text (field it "native") native
    /\ (truthy (field it "target") = true -> trimmed_text (field it "target") target)
    /\ (truthy (field it "target") = false ->
        trimmed_text (field it "correct_answer") target)
    /\ trimmed_text (field it "topic") topic
    /\ py_int (py_or (field it "level") (JInt 1)) = Ok level
    /\ (truthy (field it "level") = false -> level = 1)
    /\ (forall n, field it "level" = JInt n -> n <> 0 -> level = n)
    /\ truthy lu = true
    /\ (truthy (field it "last_used") = true -> lu = field it "last_used")
    /\ (truthy (field it "last_used") = false ->
        exists tk, lu = JStr (now_iso utcnow tk)).
(* ================================================================== *)
(** * Part II: properties *)
(* ================================================================== *)

(** ** The exception monad *)

Lemma bind_ok {A B : Type} (m : result A) (k : A -> result B) (b : B) :
  bind m k = Ok b -> exists a, m = Ok a /\ k a = Ok b.
Proof.
  destruct m as [a|e]; simpl; intros H; [eauto | discriminate].
Qed.

(** Split every [bind] of a hypothesis that ends in [Ok]. *)
Ltac bind_inv H :=
  let a := fresh "x" in
  let Ha := fresh "E" in
  apply bind_ok in H; destruct H as (a & Ha & H).

Ltac binds H := repeat (bind_inv H); simpl in H.

(** ** Text *)

Lemma lstrip_starts s : starts_space (lstrip s) = false.
Proof.
  induction s as [|c s IH]; simpl; [reflexivity|].
  destruct (isspace c) eqn:E; [exact IH | simpl; exact E].
Qed.

Lemma rstrip_ends s : ends_space (rstrip s) = false.
Proof.
  induction s as [|c s IH]; simpl; [reflexivity|].
  destruct (rstrip s) as [|c' r] eqn:E.
  - destruct (isspace c) eqn:Ec; simpl; [reflexivity | exact Ec].
  - simpl. simpl in IH. exact IH.
Qed.

Lemma lstrip_fix s : starts_space s = false -> lstrip s = s.
Proof.
  destruct s as [|c s]; simpl; [reflexivity|]. intros ->. reflexivity.
Qed.

Lemma rstrip_fix s : ends_space s = false -> rstrip s = s.
Proof.
  induction s as [|c s IH]; simpl; [reflexivity|].
  destruct s as [|c' s'].
  - simpl. intros ->. reflexivity.
  - intros H. rewrite (IH H). reflexivity.
Qed.

Lemma lstrip_keeps_end s : ends_space s = false -> ends_space (lstrip s) = false.
Proof.
  induction s as [|c s IH]; [reflexivity|].
  intros H. cbn [lstrip]. destruct (isspace c) eqn:E; [|exact H].
  apply IH. destruct s as [|c' s']; [reflexivity|].
  exact H.
Qed.

Lemma strip_starts s : starts_space (strip s) = false.
Proof. apply lstrip_starts. Qed.

Lemma strip_ends s : ends_space (strip s) = false.
Proof. apply lstrip_keeps_end, rstrip_ends. Qed.

Lemma strip_fix s : starts_space s = false -> ends_space s = false -> strip s = s.
Proof.
  intros Hs He. unfold strip. rewrite (rstrip_fix _ He). apply lstrip_fix, Hs.
Qed.

Lemma strip_idem s : strip (strip s) = strip s.
Proof. apply strip_fix; [apply strip_starts | apply strip_ends]. Qed.

Lemma strip_empty : strip "" = "".
Proof. reflexivity. Qed.

(** What [strip] removes. *)
Lemma append_assoc3 (a b c : string) : (a ++ b) ++ c = a ++ b ++ c.
Proof. induction a as [|x a IH]; simpl; [reflexivity | rewrite IH; reflexivity]. Qed.

Lemma lstrip_split s : exists l, s = l ++ lstrip s /\ all_space l = true.
Proof.
  induction s as [|c s (l & E & A)]; [exists ""; split; reflexivity|].
  simpl. destruct (isspace c) eqn:Ec.
  - exists (String c l). simpl. rewrite <- E, Ec, A. split; reflexivity.
  - exists "". split; reflexivity.
Qed.

Lemma rstrip_split s : exists r, s = rstrip s ++ r /\ all_space r = true.
Proof.
  induction s as [|c s (r & E & A)]; [exists ""; split; reflexivity|].
  simpl. destruct (rstrip s) as [|c' s'] eqn:Er.
  - simpl in E. subst r. destruct (isspace c) eqn:Ec.
    + exists (String c s). simpl. rewrite Ec, A. split; reflexivity.
    + exists s. split; [reflexivity | exact A].
  - exists r. simpl. simpl in E. rewrite <- E. split; [reflexivity | exact A].
Qed.

(** [strip] cuts the white space at the two ends of a text, and only
    that. *)
Lemma strip_trimmed s : trimmed_of s (strip s).
Proof.
  split; [apply strip_starts|]. split; [apply strip_ends|].
  destruct (rstrip_split s) as (r & Er & Ar).
  destruct (lstrip_split (rstrip s)) as (l & El & Al).
  exists l, r. unfold strip. split; [|split; assumption].
  rewrite <- append_assoc3, <- El. exact Er.
Qed.

Lemma lower_char_idem c : lower_char (lower_char c) = lower_char c.
Proof.
  destruct c as [[] [] [] [] [] [] [] []]; reflexivity.
Qed.

Lemma isspace_lower_char c : isspace (lower_char c) = isspace c.
Proof.
  destruct c as [[] [] [] [] [] [] [] []]; reflexivity.
Qed.

Lemma lower_idem s : lower (lower s) = lower s.
Proof.
  unfold lower. induction s as [|c s IH]; simpl; [reflexivity|].
  rewrite IH, lower_char_idem. reflexivity.
Qed.

Section MapStrip.

Variable f : ascii -> ascii.
Hypothesis f_space : forall c, isspace (f c) = isspace c.

Lemma map_chars_lstrip s : map_chars f (lstrip s) = lstrip (map_chars f s).
Proof.
  induction s as [|c s IH]; simpl; [reflexivity|].
  rewrite f_space. destruct (isspace c); [exact IH | reflexivity].
Qed.

Lemma map_chars_rstrip s : map_chars f (rstrip s) = rstrip (map_chars f s).
Proof.
  induction s as [|c s IH]; simpl; [reflexivity|].
  rewrite <- IH, f_space.
  destruct (rstrip s); simpl; [destruct (isspace c)|]; reflexivity.
Qed.

Lemma map_chars_strip s : map_chars f (strip s) = strip (map_chars f s).
Proof. unfold strip. rewrite map_chars_lstrip, map_chars_rstrip. reflexivity. Qed.

End MapStrip.

Lemma isspace_repl_get c : isspace (repl_get c) = isspace c.
Proof.
  destruct c as [[] [] [] [] [] [] [] []]; reflexivity.
Qed.

Lemma lower_strip s : lower (strip s) = strip (lower s).
Proof. apply map_chars_strip, isspace_lower_char. Qed.

Lemma normalize_unfold s : normalize s = strip (lower (map_chars repl_get s)).
Proof.
  unfold normalize. destruct (String.eqb s "") eqn:E; [|reflexivity].
  apply String.eqb_eq in E. subst s. reflexivity.
Qed.

(** Stripping before [normalize] changes nothing. *)
Lemma normalize_strip s : normalize (strip s) = normalize s.
Proof.
  rewrite !normalize_unfold.
  rewrite (map_chars_strip _ isspace_repl_get), lower_strip.
  apply strip_idem.
Qed.

(** [normalize] returns a lowercase string ... *)
Lemma normalize_lowercase s : lower (normalize s) = normalize s.
Proof.
  unfold normalize. destruct (String.eqb s ""); [reflexivity|].
  rewrite lower_strip, lower_idem. reflexivity.
Qed.

(** ... with no white space at either end. *)
Lemma normalize_stripped s :
  starts_space (normalize s) = false /\ ends_space (normalize s) = false.
Proof.
  unfold normalize. destruct (String.eqb s ""); [split; reflexivity|].
  split; [apply strip_starts | apply strip_ends].
Qed.

Lemma normalize_strip_fix s : strip (normalize s) = normalize s.
Proof.
  destruct (normalize_stripped s). apply strip_fix; assumption.
Qed.

(** On a [str], the general [normalize_any] is [normalize]. *)
Lemma concat_chars s :
  mapM (fun ch => match ch with
                  | JStr c => Ok (repl_get_str c)
                  | _ => Raise TypeError
                  end) (chars s)
  = Ok (map (fun c => String (repl_get c) "") (list_ascii_of_string s)).
Proof.
  induction s as [|c s IH]; simpl; [reflexivity|]. rewrite IH. reflexivity.
Qed.

Lemma concat_singletons f s :
  String.concat "" (map (fun c => String (f c) "") (list_ascii_of_string s))
  = map_chars f s.
Proof.
  induction s as [|c s IH]; simpl; [reflexivity|].
  destruct (map _ (list_ascii_of_string s)) eqn:E.
  - simpl in IH. rewrite <- IH. reflexivity.
  - rewrite <- IH. reflexivity.
Qed.

Lemma normalize_any_str s : normalize_any (JStr s) = Ok (normalize s).
Proof.
  unfold normalize_any, normalize. simpl.
  destruct (String.eqb s ""); simpl; [reflexivity|].
  rewrite concat_chars. simpl. rewrite concat_singletons. reflexivity.
Qed.

(** C7. [normalize] folds the accents of its table before it lowercases:
    the capital A with acute accent is not a key of the table, passes the
    folding unchanged, and is then lowercased into the accented letter the
    table was meant to remove.  [normalize("Á")] is ["á"], which holds an
    accented character of the table. *)
Theorem normalize_keeps_capital_accent :
  normalize (String A_acute "") = String a_acute ""
  /\ has_char accented (normalize (String A_acute "")) = true.
Proof. split; reflexivity. Qed.

(** The folding does apply to the lowercase accented letters. *)
Lemma normalize_folds_lowercase_accent :
  normalize (String a_acute "") = "a"
  /\ normalize (String n_tilde "") = "n".
Proof. split; reflexivity. Qed.

(** ** Similarity *)

(** C6. [similarity("hola","hola")] is [1.0]; [similarity("hola","bonjour")]
    is below [0.65] and the attempt is classified incorrect;
    [similarity("cómo estás","como estas")] is at least [0.65] and the
    attempt is classified correct. *)
Theorem similarity_threshold_examples :
  fuzzy_ratio (JStr "hola") (JStr "hola") = Ok 1%float
  /\ (exists r, fuzzy_ratio (JStr "hola") (JStr "bonjour") = Ok r
                /\ PrimFloat.ltb r 0.65 = true /\ is_correct r = false)
  /\ (exists r, fuzzy_ratio (JStr como_estas_accented) (JStr "como estas") = Ok r
                /\ PrimFloat.leb 0.65 r = true /\ is_correct r = true).
Proof.
  split; [vm_compute; reflexivity|].
  split.
  - eexists. split; [vm_compute; reflexivity|]. split; vm_compute; reflexivity.
  - eexists. split; [vm_compute; reflexivity|]. split; vm_compute; reflexivity.
Qed.

(** ** The matcher always answers *)

Section MatcherBounds.

Local Open Scope nat_scope.

Variables a b : list ascii.
Variables alo ahi : nat.

Lemma j2len_get_bound (t : list (nat * nat)) (j bound : nat) :
  (forall j' k, In (j', k) t -> k <= bound) -> Difflib.j2len_get t j <= bound.
Proof.
  induction t as [|[j' k] t IH]; intros H; simpl; [lia|].
  destruct (j' =? j).
  - apply (H j' k). left. reflexivity.
  - apply IH. intros j2 k2 Hin. apply (H j2 k2). right. exact Hin.
Qed.

Lemma scan_row_bounds (i0 : nat) :
  alo <= i0 < ahi ->
  forall js blo bhi j2len newj2len best,
    (forall j k, In (j, k) j2len -> k <= i0 - alo) ->
    (forall j k, In (j, k) newj2len -> k <= i0 + 1 - alo) ->
    block_in_rows alo ahi best ->
    (forall j k, In (j, k) (fst (Difflib.scan_row js blo bhi i0 j2len newj2len best)) ->
       k <= i0 + 1 - alo)
    /\ block_in_rows alo ahi (snd (Difflib.scan_row js blo bhi i0 j2len newj2len best)).
Proof.
  intros Hi. induction js as [|j js IH]; intros blo bhi j2len newj2len best Hold Hnew Hb.
  - simpl. split; assumption.
  - cbn [Difflib.scan_row]. destruct (j <? blo); [apply IH; assumption|].
    destruct (bhi <=? j); [simpl; split; assumption|].
    set (k := (match j with O => 0 | S j' => Difflib.j2len_get j2len j' end) + 1).
    assert (Hk : k <= i0 + 1 - alo).
    { unfold k. destruct j as [|j']; [lia|].
      pose proof (j2len_get_bound j2len j' (i0 - alo) Hold). lia. }
    destruct best as [[bi bj] bs].
    apply IH.
    + exact Hold.
    + intros j2 k2 [Heq|Hin]; [injection Heq as <- <-; exact Hk | apply (Hnew _ _ Hin)].
    + destruct (bs <? k); [|exact Hb]. unfold block_in_rows. lia.
Qed.

Lemma scan_rows_bounds (n : nat) :
  forall s blo bhi j2len best,
    alo <= s -> s + n <= ahi ->
    (forall j k, In (j, k) j2len -> k <= s - alo) ->
    block_in_rows alo ahi best ->
    block_in_rows alo ahi (Difflib.scan_rows a b (seq s n) blo bhi j2len best).
Proof.
  induction n as [|n IH]; intros s blo bhi j2len best Hs Hn Hold Hb; [exact Hb|].
  cbn [seq Difflib.scan_rows].
  assert (Hi : alo <= s < ahi) by lia.
  pose proof (scan_row_bounds s Hi (Difflib.b2j b (Difflib.at_pos a s)) blo bhi
                j2len [] best Hold (fun _ _ H => match H with end) Hb) as [H1 H2].
  destruct (Difflib.scan_row _ blo bhi s j2len [] best) as [newj2len best'].
  cbn [fst snd] in H1, H2.
  apply IH; [lia | lia | | exact H2].
  intros j k Hin. specialize (H1 j k Hin). lia.
Qed.

Lemma extend_left_bounds blo (fuel : nat) :
  forall best, block_in_rows alo ahi best ->
    block_in_rows alo ahi (Difflib.extend_left a b alo blo fuel best).
Proof.
  induction fuel as [|fuel IH]; intros best Hb; [exact Hb|].
  cbn [Difflib.extend_left]. destruct best as [[bi bj] bs].
  destruct ((alo <? bi) && (blo <? bj)
            && Ascii.eqb (Difflib.at_pos a (bi - 1)) (Difflib.at_pos b (bj - 1))) eqn:E;
    [|exact Hb].
  apply IH. apply andb_true_iff in E as [E _]. apply andb_true_iff in E as [E _].
  apply Nat.ltb_lt in E. unfold block_in_rows in *. lia.
Qed.

Lemma extend_right_bounds bhi (fuel : nat) :
  forall best, block_in_rows alo ahi best ->
    block_in_rows alo ahi (Difflib.extend_right a b ahi bhi fuel best).
Proof.
  induction fuel as [|fuel IH]; intros best Hb; [exact Hb|].
  cbn [Difflib.extend_right]. destruct best as [[bi bj] bs].
  destruct ((bi + bs <? ahi) && (bj + bs <? bhi)
            && Ascii.eqb (Difflib.at_pos a (bi + bs)) (Difflib.at_pos b (bj + bs))) eqn:E;
    [|exact Hb].
  apply IH. apply andb_true_iff in E as [E _]. apply andb_true_iff in E as [E _].
  apply Nat.ltb_lt in E. unfold block_in_rows in *. lia.
Qed.

Lemma find_longest_match_bounds blo bhi :
  alo <= ahi ->
  block_in_rows alo ahi (Difflib.find_longest_match a b alo ahi blo bhi).
Proof.
  intros H. unfold Difflib.find_longest_match.
  assert (H0 : block_in_rows alo ahi
                 (Difflib.scan_rows a b (seq alo (ahi - alo)) blo bhi [] (alo, blo, 0))).
  { apply scan_rows_bounds; [lia | lia | intros ? ? [] | unfold block_in_rows; lia]. }
  set (best := Difflib.scan_rows a b (seq alo (ahi - alo)) blo bhi [] (alo, blo, 0)) in *.
  pose proof (extend_left_bounds blo (fst (fst best)) best H0) as H1.
  destruct (Difflib.extend_left a b alo blo (fst (fst best)) best) as [[bi bj] bs].
  apply extend_right_bounds. exact H1.
Qed.

End MatcherBounds.

(** With fuel above the number of rows, the splitting ends. *)
Lemma matches_in_total (a b : list ascii) (fuel : nat) :
  forall alo ahi blo bhi,
    (alo <= ahi)%nat -> (ahi - alo < fuel)%nat ->
    exists m, Difflib.matches_in a b fuel alo ahi blo bhi = Some m.
Proof.
  induction fuel as [|fuel IH]; intros alo ahi blo bhi Hle Hf; [lia|].
  cbn [Difflib.matches_in].
  pose proof (find_longest_match_bounds a b alo ahi blo bhi Hle) as Hb.
  destruct (Difflib.find_longest_match a b alo ahi blo bhi) as [[i j] k].
  unfold block_in_rows in Hb.
  destruct (k =? 0)%nat eqn:Ek; [eauto|]. apply Nat.eqb_neq in Ek.
  assert (HL : exists l, (if (alo <? i)%nat && (blo <? j)%nat
                          then Difflib.matches_in a b fuel alo i blo j else Some 0%nat)
                         = Some l).
  { destruct ((alo <? i)%nat && (blo <? j)%nat); [|eauto]. apply IH; lia. }
  assert (HR : exists r, (if (i + k <? ahi)%nat && (j + k <? bhi)%nat
                          then Difflib.matches_in a b fuel (i + k) ahi (j + k) bhi
                          else Some 0%nat)
                         = Some r).
  { destruct ((i + k <? ahi)%nat && (j + k <? bhi)%nat) eqn:E; [|eauto].
    apply IH; lia. }
  destruct HL as (l & ->). destruct HR as (r & ->). eauto.
Qed.

(** [ratio] never reaches the end of its fuel. *)
Lemma ratio_total (a b : string) : exists r, Difflib.ratio a b = Ok r.
Proof.
  unfold Difflib.ratio.
  destruct (matches_in_total (Difflib.seq_chars a) (Difflib.seq_chars b)
              (S (List.length (Difflib.seq_chars a))) 0
              (List.length (Difflib.seq_chars a)) 0
              (List.length (Difflib.seq_chars b))) as (m & ->); [lia | lia |].
  eauto.
Qed.

(** ** Loading *)

(** C9. [load_global] raises when the test [Path(GLOBAL_FILE).exists()]
    raises: the test stands before the [try], so the error of a [stat]
    that fails for another reason than a missing file (a directory that
    cannot be searched, say) leaves the function, whatever the parser. *)
Theorem load_global_raises_when_stat_fails (json_load : string -> result json) :
  path_exists StatError = Raise OSError
  /\ load_global json_load StatError = Raise OSError.
Proof. split; reflexivity. Qed.

(** Past that test [load_global] returns a store in every case: the empty
    store when the file is absent, cannot be read or cannot be parsed, or
    when the membership test raises on the parsed document; the parsed
    document wrapped as the users mapping when it has no ["users"] key. *)
Lemma load_global_fails_safe (json_load : string -> result json) :
  load_global json_load NoFile = Ok empty_store
  /\ (forall e, load_global json_load (File (Raise e)) = Ok empty_store)
  /\ (forall text e, json_load text = Raise e ->
        load_global json_load (File (Ok text)) = Ok empty_store)
  /\ (forall text d, json_load text = Ok (JDict d) -> dict_get "users" d = None ->
        load_global json_load (File (Ok text)) = Ok (JDict [("users", JDict d)]))
  /\ (forall text data, json_load text = Ok data ->
        py_contains "users" data = Ok false ->
        load_global json_load (File (Ok text)) = Ok (JDict [("users", data)]))
  /\ (forall text data e, json_load text = Ok data ->
        py_contains "users" data = Raise e ->
        load_global json_load (File (Ok text)) = Ok empty_store)
  /\ (forall file, file <> StatError ->
        exists data, load_global json_load file = Ok data).
Proof.
  repeat split.
  - intros text e H. unfold load_global, load_body. simpl. rewrite H. reflexivity.
  - intros text d H Hd. unfold load_global, load_body. simpl. rewrite H. simpl.
    unfold dict_has. rewrite Hd. reflexivity.
  - intros text data H Hc. unfold load_global, load_body. simpl. rewrite H. simpl.
    rewrite Hc. reflexivity.
  - intros text data e H Hc. unfold load_global, load_body. simpl. rewrite H. simpl.
    rewrite Hc. reflexivity.
  - intros file Hf. destruct file as [| |opened]; [eexists; reflexivity | congruence |].
    unfold load_global. cbn [path_exists bind read_file].
    destruct (load_body json_load opened); eexists; reflexivity.
Qed.

Lemma load_global_wraps_legacy_document :
  load_global toy_json_load (File (Ok "{x: {}}"))
  = Ok (JDict [("users", JDict [("x", JDict [])])]).
Proof. reflexivity. Qed.

(** ** Dictionaries *)

Lemma dict_get_set_eq k v d : dict_get k (dict_set k v d) = Some v.
Proof.
  induction d as [|[k' v'] d IH]; simpl.
  - rewrite String.eqb_refl. reflexivity.
  - destruct (String.eqb k k') eqn:E; simpl.
    + rewrite String.eqb_refl. reflexivity.
    + rewrite E. exact IH.
Qed.

Lemma dict_get_set_ne k k' v d :
  k <> k' -> dict_get k (dict_set k' v d) = dict_get k d.
Proof.
  intros Hne. apply String.eqb_neq in Hne.
  induction d as [|[k2 v2] d IH]; simpl.
  - rewrite Hne. reflexivity.
  - destruct (String.eqb k' k2) eqn:E; simpl.
    + apply String.eqb_eq in E. subst k2. rewrite Hne. reflexivity.
    + rewrite IH. reflexivity.
Qed.

Lemma dict_set_get_id k v d : dict_get k d = Some v -> dict_set k v d = d.
Proof.
  induction d as [|[k' v'] d IH]; simpl; [discriminate|].
  destruct (String.eqb k k') eqn:E.
  - apply String.eqb_eq in E. subst k'. intros [= ->]. reflexivity.
  - intros H. rewrite (IH H). reflexivity.
Qed.

Lemma dict_set_set k v v' d : dict_set k v (dict_set k v' d) = dict_set k v d.
Proof.
  induction d as [|[k' w] d IH]; simpl.
  - rewrite String.eqb_refl. reflexivity.
  - destruct (String.eqb k k') eqn:E; simpl.
    + rewrite String.eqb_refl. reflexivity.
    + rewrite E, IH. reflexivity.
Qed.

Lemma dict_set_keys k v d :
  dict_get k d <> None -> map fst (dict_set k v d) = map fst d.
Proof.
  induction d as [|[k' w] d IH]; simpl; [congruence|].
  destruct (String.eqb k k') eqn:E; simpl.
  - apply String.eqb_eq in E. subst k'. reflexivity.
  - intros H. rewrite (IH H). reflexivity.
Qed.

Lemma getitem_setitem_eq m k x m' :
  py_setitem m k x = Ok m' -> py_getitem m' k = Ok x.
Proof.
  destruct m; simpl; try discriminate. intros [= <-]. simpl.
  rewrite dict_get_set_eq. reflexivity.
Qed.

Lemma getitem_setitem_ne m k k' x m' :
  py_setitem m k' x = Ok m' -> k <> k' -> py_getitem m' k = py_getitem m k.
Proof.
  destruct m; simpl; try discriminate. intros [= <-] Hne. simpl.
  rewrite dict_get_set_ne by exact Hne. reflexivity.
Qed.

Lemma get_default_setitem_ne m k k' x m' dflt :
  py_setitem m k' x = Ok m' -> k <> k' ->
  py_get_default m' k dflt = py_get_default m k dflt.
Proof.
  destruct m; simpl; try discriminate. intros [= <-] Hne. simpl.
  rewrite dict_get_set_ne by exact Hne. reflexivity.
Qed.

Lemma setdefault_effect m k dflt x m1 :
  py_setdefault m k dflt = Ok (x, m1) ->
  py_get_default m k dflt = Ok x
  /\ py_getitem m1 k = Ok x
  /\ (forall k', k' <> k -> py_getitem m1 k' = py_getitem m k')
  /\ (forall k' d', k' <> k -> py_get_default m1 k' d' = py_get_default m k' d').
Proof.
  destruct m; simpl; try discriminate.
  destruct (dict_get k d) eqn:E; intros [= <- <-]; simpl.
  - rewrite E. repeat split; reflexivity.
  - rewrite dict_get_set_eq. repeat split; try reflexivity.
    + intros k' Hne. rewrite dict_get_set_ne by exact Hne. reflexivity.
    + intros k' d' Hne. rewrite dict_get_set_ne by exact Hne. reflexivity.
Qed.

(** ** The practice handler *)

Lemma last_n_length {A : Type} (n : nat) (l : list A) :
  (List.length (last_n n l) <= n)%nat.
Proof.
  unfold last_n. rewrite length_skipn. lia.
Qed.

Lemma last_n_short {A : Type} (n : nat) (l : list A) :
  (List.length l <= n)%nat -> last_n n l = l.
Proof.
  intros H. unfold last_n. replace (List.length l - n)%nat with 0%nat by lia.
  reflexivity.
Qed.

Lemma incr_stat_effect m c m' :
  incr_stat m c = Ok m' -> c <> "recent" ->
  (forall k, k <> "stats" -> py_getitem m' k = py_getitem m k)
  /\ (forall k d, k <> "stats" -> py_get_default m' k d = py_get_default m k d)
  /\ exists st st',
       py_getitem m "stats" = Ok st /\ py_getitem m' "stats" = Ok st'
       /\ py_get_default st' "recent" (JList []) = py_get_default st "recent" (JList []).
Proof.
  unfold incr_stat. intros H Hc. binds H.
  split; [|split].
  - intros k Hk. eapply getitem_setitem_ne; eauto.
  - intros k d Hk. eapply get_default_setitem_ne; eauto.
  - exists x, x2. split; [exact E|]. split.
    + eapply getitem_setitem_eq; eauto.
    + eapply get_default_setitem_ne; eauto.
Qed.

Lemma add_attempt_effect clk m lang ua ca topic level t m' t' :
  add_attempt_to_vocab clk m lang ua ca topic level t = Ok (m', t') ->
  t' = S t
  /\ (forall k, k <> "custom_vocab" -> py_getitem m' k = py_getitem m k)
  /\ (forall k d, k <> "custom_vocab" -> py_get_default m' k d = py_get_default m k d).
Proof.
  unfold add_attempt_to_vocab. intros H. binds H.
  destruct x as [cv m1]. binds H. destruct x0 as [vl cv1]. binds H.
  injection H as <- <-.
  apply setdefault_effect in E as (_ & _ & F1 & F2).
  split; [reflexivity|]. split.
  - intros k Hk. rewrite (getitem_setitem_ne _ _ _ _ _ E4 Hk). apply F1, Hk.
  - intros k d Hk. rewrite (get_default_setitem_ne _ _ _ _ _ _ E4 Hk). apply F2, Hk.
Qed.

Lemma push_recent_effect m c m' :
  push_recent m c = Ok m' ->
  (forall k, k <> "stats" -> py_getitem m' k = py_getitem m k)
  /\ exists st r0,
       py_getitem m "stats" = Ok st
       /\ py_get_default st "recent" (JList []) = Ok (JList r0)
       /\ recent_of m' = Ok (JList (last_n 20 (r0 ++ [JInt (if c then 1 else 0)]))).
Proof.
  unfold push_recent. intros H. binds H. destruct x0 as [recent stats1]. binds H.
  split.
  - intros k Hk. eapply getitem_setitem_ne; eauto.
  - apply setdefault_effect in E0 as (G & _ & _ & _).
    destruct recent; try discriminate. simpl in E1. injection E1 as <-.
    simpl in E3. injection E3 as <-.
    exists x, l. split; [exact E|]. split; [exact G|].
    unfold recent_of. rewrite (getitem_setitem_eq _ _ _ _ H). simpl.
    apply (getitem_setitem_eq _ _ _ _ E4).
Qed.

Lemma adjust_level_effect m m' r lv :
  adjust_level m = Ok m' ->
  recent_of m = Ok (JList r) ->
  py_getitem m "level" = Ok (JInt lv) ->
  recent_of m' = Ok (JList r)
  /\ (forall k, k <> "level" -> py_getitem m' k = py_getitem m k)
  /\ exists lv', py_getitem m' "level" = Ok (JInt lv') /\ spec_level r lv = Ok lv'.
Proof.
  unfold adjust_level, recent_of, spec_level. intros H Hr Hl.
  bind_inv Hr. rewrite E in H. cbn [bind] in H. rewrite Hr in H.
  cbn [bind py_len py_iter] in H.
  destruct (6 <=? List.length r)%nat.
  - bind_inv H. bind_inv H. rewrite E0. cbn [bind]. rewrite E1. cbn [bind].
    rewrite Hl in H. cbn [bind level_of py_add1] in H.
    assert (Frame : forall v m2, py_setitem m "level" v = Ok m2 ->
              (stats <- py_getitem m2 "stats" ;; py_getitem stats "recent") = Ok (JList r)
              /\ (forall k, k <> "level" -> py_getitem m2 k = py_getitem m k)
              /\ py_getitem m2 "level" = Ok v).
    { intros v m2 Hs. split; [|split].
      - rewrite (getitem_setitem_ne _ "stats" _ _ _ Hs) by discriminate.
        rewrite E. simpl. exact Hr.
      - intros k Hk. eapply getitem_setitem_ne; eauto.
      - eapply getitem_setitem_eq; eauto. }
    destruct (PrimFloat.leb 0.8 x1) eqn:Eup; simpl in H.
    + destruct (lv <? 5) eqn:E5; simpl in H.
      * destruct (Frame _ _ H) as (F1 & F2 & F3).
        split; [exact F1|]. split; [exact F2|]. exists (lv + 1). split; [exact F3|].
        reflexivity.
      * destruct (PrimFloat.leb x1 0.5) eqn:Edn; simpl in H.
        -- destruct (1 <? lv) eqn:E1'; simpl in H.
           ++ destruct (Frame _ _ H) as (F1 & F2 & F3).
              split; [exact F1|]. split; [exact F2|]. exists (lv - 1).
              split; [exact F3 | reflexivity].
           ++ injection H as <-. rewrite E. simpl. split; [exact Hr|].
              split; [reflexivity|]. exists lv. split; [exact Hl | reflexivity].
        -- injection H as <-. rewrite E. simpl. split; [exact Hr|].
           split; [reflexivity|]. exists lv. split; [exact Hl | reflexivity].
    + destruct (PrimFloat.leb x1 0.5) eqn:Edn; simpl in H.
      * destruct (1 <? lv) eqn:E1'; simpl in H.
        -- destruct (Frame _ _ H) as (F1 & F2 & F3).
           split; [exact F1|]. split; [exact F2|]. exists (lv - 1).
           split; [exact F3 | reflexivity].
        -- injection H as <-. rewrite E. simpl. split; [exact Hr|].
           split; [reflexivity|]. exists lv. split; [exact Hl | reflexivity].
      * injection H as <-. rewrite E. simpl. split; [exact Hr|].
        split; [reflexivity|]. exists lv. split; [exact Hl | reflexivity].
  - injection H as <-. rewrite E. simpl. split; [exact Hr|].
    split; [reflexivity|]. exists lv. split; [exact Hl | reflexivity].
Qed.

Lemma record_history_effect m e m' :
  record_history m e = Ok m' ->
  (forall k, k <> "conversation_history" -> py_getitem m' k = py_getitem m k)
  /\ exists old,
       py_get_default m "conversation_history" (JList []) = Ok (JList old)
       /\ py_getitem m' "conversation_history" = Ok (JList (old ++ [e])).
Proof.
  unfold record_history. intros H. binds H. destruct x as [h m1]. binds H.
  apply setdefault_effect in E as (G & _ & F & _).
  split.
  - intros k Hk. rewrite (getitem_setitem_ne _ _ _ _ _ H Hk). apply F, Hk.
  - destruct h; try discriminate. injection E0 as <-.
    exists l. split; [exact G|]. eapply getitem_setitem_eq; eauto.
Qed.

Lemma spec_level_step r lv lv' :
  spec_level r lv = Ok lv' ->
  Z.abs (lv' - lv) <= 1 /\ (1 <= lv <= 5 -> 1 <= lv' <= 5).
Proof.
  unfold spec_level. destruct (6 <=? List.length r)%nat.
  - intros H. binds H.
    destruct (PrimFloat.leb 0.8 x0); simpl in H.
    + destruct (lv <? 5) eqn:E5; simpl in H.
      * injection H as <-. apply Z.ltb_lt in E5. lia.
      * destruct (PrimFloat.leb x0 0.5); simpl in H.
        -- destruct (1 <? lv) eqn:E1; injection H as <-;
             [apply Z.ltb_lt in E1|]; lia.
        -- injection H as <-. lia.
    + destruct (PrimFloat.leb x0 0.5); simpl in H.
      * destruct (1 <? lv) eqn:E1; injection H as <-;
          [apply Z.ltb_lt in E1|]; lia.
      * injection H as <-. lia.
  - intros [= <-]. lia.
Qed.

(** ** The thresholds of the level rule are exact *)

(** For every window the handler can hold, up to 20 marks of 0 and 1, the
    floating-point tests [rate >= 0.8] and [rate <= 0.5] agree with the
    exact comparisons [5 s >= 4 n] and [2 s <= n]. *)
Lemma level_thresholds_exact :
  forallb (fun n => forallb (fun s => thresholds_exact s n) (seq 0 (S n))) (seq 1 20) = true.
Proof. vm_compute. reflexivity. Qed.

Lemma recent_of_frame m m' :
  py_getitem m' "stats" = py_getitem m "stats" -> recent_of m' = recent_of m.
Proof. unfold recent_of. intros ->. reflexivity. Qed.

(** The counters and the mistake record leave the window and the level
    as they were. *)
Lemma score_bookkeeping_frame clk user_mem text tgt item (correct : bool) t m1 t1 :
  (if correct then m <- incr_stat user_mem "correct" ;; Ok (m, t)
   else
     m <- incr_stat user_mem "wrong" ;;
     lang <- py_get_default m "lang" (JStr "es") ;;
     topic <- py_get_default item "topic" (JStr "misc") ;;
     level <- py_get_default m "level" (JInt 1) ;;
     add_attempt_to_vocab clk m lang (JStr text) tgt topic level t) = Ok (m1, t1) ->
  py_getitem m1 "level" = py_getitem user_mem "level"
  /\ exists st st1,
       py_getitem user_mem "stats" = Ok st /\ py_getitem m1 "stats" = Ok st1
       /\ py_get_default st1 "recent" (JList []) = py_get_default st "recent" (JList []).
Proof.
  destruct correct; intros H.
  - binds H. injection H as <- <-.
    apply incr_stat_effect in E as (F & _ & st & st' & G1 & G2 & G3); [|discriminate].
    split; [apply F; discriminate|]. exists st, st'. auto.
  - do 4 bind_inv H.
    apply incr_stat_effect in E as (F & _ & st & st' & G1 & G2 & G3); [|discriminate].
    apply add_attempt_effect in H as (_ & F' & _).
    split.
    + rewrite F' by discriminate. apply F. discriminate.
    + exists st, st'. split; [exact G1|]. split; [|exact G3].
      rewrite F' by discriminate. exact G2.
Qed.

(** C4. One scored attempt appends the mark 1 or 0 to [stats.recent] and
    keeps the last 20; then, with at least six marks, the level moves as
    [spec_level] says: up by one when [rate >= 0.8] and [level < 5], else
    down by one when [rate <= 0.5] and [level > 1].  The level changes by
    at most one and stays within 1..5.  With six ones and level 3 a
    correct attempt gives level 4; with six zeros and level 3 an incorrect
    attempt gives level 2. *)
Theorem score_attempt_adjusts_level
  (utcnow : nat -> string) (user_mem : json) (text : string) (item : json)
  (t : nat) (m' : json) (t' : nat) (lv : Z) :
  score_attempt utcnow user_mem text item t = Ok (m', t') ->
  py_getitem user_mem "level" = Ok (JInt lv) ->
  exists stats recent0 tgt score lv',
    py_getitem user_mem "stats" = Ok stats
    /\ py_get_default stats "recent" (JList []) = Ok (JList recent0)
    /\ py_get_default item "target" (JStr "") = Ok tgt
    /\ score_answer (JStr text) tgt = Ok score
    /\ let recent' :=
         last_n 20 (recent0 ++ [JInt (if is_correct score then 1 else 0)]) in
       recent_of m' = Ok (JList recent')
       /\ (List.length recent' <= 20)%nat
       /\ py_getitem m' "level" = Ok (JInt lv')
       /\ spec_level recent' lv = Ok lv'
       /\ Z.abs (lv' - lv) <= 1
       /\ (1 <= lv <= 5 -> 1 <= lv' <= 5)
       /\ (recent0 = repeat (JInt 1) 6 -> lv = 3 -> is_correct score = true -> lv' = 4)
       /\ (recent0 = repeat (JInt 0) 6 -> lv = 3 -> is_correct score = false -> lv' = 2).
Proof.
  unfold score_attempt. intros H Hlv.
  bind_inv H. bind_inv H. bind_inv H. destruct x1 as [m1 t1].
  cbn beta iota in H.
  bind_inv H. bind_inv H. bind_inv H. bind_inv H. bind_inv H. bind_inv H.
  injection H as <- <-.
  apply score_bookkeeping_frame in E1 as (L1 & st & st1 & S0 & S1 & S2).
  apply push_recent_effect in E2 as (F2 & st1' & r0 & P1 & P2 & P3).
  rewrite S1 in P1. injection P1 as <-. rewrite S2 in P2.
  assert (L2 : py_getitem x1 "level" = Ok (JInt lv)).
  { rewrite F2 by discriminate. rewrite L1. exact Hlv. }
  destruct (adjust_level_effect _ _ _ _ E3 P3 L2) as (A1 & A2 & lv' & A3 & A4).
  apply record_history_effect in E7 as (F7 & _).
  exists st, r0, x, x0, lv'.
  split; [exact S0|]. split; [exact P2|]. split; [exact E|]. split; [exact E0|].
  cbv zeta.
  split. { rewrite (recent_of_frame x2 x6); [exact A1 | apply F7; discriminate]. }
  split. { apply last_n_length. }
  split. { rewrite F7 by discriminate. exact A3. }
  split. { exact A4. }
  destruct (spec_level_step _ _ _ A4) as (B1 & B2).
  split; [exact B1|]. split; [exact B2|].
  split.
  - intros -> -> Hc. rewrite Hc in A4. vm_compute in A4. congruence.
  - intros -> -> Hc. rewrite Hc in A4. vm_compute in A4. congruence.
Qed.

Lemma score_attempt_adjusts_level_witness :
  score_attempt example_clock (user_with (repeat (JInt 1) 6) 3) "hola" seed_hola 0
    = Ok (six_ones_after_hola, 1%nat)
  /\ py_getitem (user_with (repeat (JInt 1) 6) 3) "level" = Ok (JInt 3)
  /\ exists lv', py_getitem six_ones_after_hola "level" = Ok (JInt lv')
                 /\ Z.abs (lv' - 3) <= 1.
Proof.
  assert (H1 : score_attempt example_clock (user_with (repeat (JInt 1) 6) 3)
                 "hola" seed_hola 0 = Ok (six_ones_after_hola, 1%nat))
    by (vm_compute; reflexivity).
  assert (H2 : py_getitem (user_with (repeat (JInt 1) 6) 3) "level" = Ok (JInt 3))
    by reflexivity.
  split; [exact H1|]. split; [exact H2|].
  destruct (score_attempt_adjusts_level _ _ _ _ _ _ _ _ H1 H2)
    as (st & r0 & tgt & sc & lv' & _ & _ & _ & _ & _ & _ & L & _ & B & _).
  exists lv'. split; [exact L | exact B].
Defined.

(** ** The key of an entry written by the practice handler *)

Lemma history_key_of_entry mem w p text g sc :
  history_key_of mem (history_entry w p text g sc)
  = (l1 <- py_get mem "lang" ;;
     _ <- py_hashable (py_or l1 (JStr "")) ;;
     Ok ((normalize text, "", py_or l1 (JStr "")), strip text)).
Proof.
  unfold history_key_of, history_entry. simpl.
  assert (Hu : py_strip (py_or (py_or (JStr text) JNull) (JStr "")) = Ok (strip text)).
  { unfold py_or. cbn [truthy]. destruct (String.eqb text "") eqn:E; simpl.
    - apply String.eqb_eq in E. subst. reflexivity.
    - rewrite E. reflexivity. }
  rewrite Hu. simpl. rewrite normalize_strip.
  destruct (py_get mem "lang"); reflexivity.
Qed.

(** ** Well-formed values *)

Lemma nodup_keys_NoDup ks : nodup_keys ks = true -> NoDup ks.
Proof.
  induction ks as [|k ks IH]; simpl; intros H; [constructor|].
  apply andb_true_iff in H as [H1 H2]. constructor; [|apply IH, H2].
  intros Hin. apply negb_true_iff in H1.
  assert (existsb (String.eqb k) ks = true); [|congruence].
  apply existsb_exists. exists k. split; [exact Hin | apply String.eqb_refl].
Qed.

Lemma well_formed_dict d :
  well_formed (JDict d) = true ->
  NoDup (map fst d) /\ forall k v, In (k, v) d -> well_formed v = true.
Proof.
  simpl. intros H. apply andb_true_iff in H as [H1 H2]. split.
  - apply nodup_keys_NoDup, H1.
  - intros k v Hin. rewrite forallb_forall in H2. apply (H2 (k, v) Hin).
Qed.

Lemma dict_get_In k v d : dict_get k d = Some v -> In (k, v) d.
Proof.
  induction d as [|[k' v'] d IH]; simpl; [discriminate|].
  destruct (String.eqb k k') eqn:E.
  - apply String.eqb_eq in E. subst. intros [= ->]. left. reflexivity.
  - intros H. right. apply IH, H.
Qed.

Lemma In_dict_get k v d : NoDup (map fst d) -> In (k, v) d -> dict_get k d = Some v.
Proof.
  induction d as [|[k' v'] d IH]; simpl; [tauto|].
  intros Hnd [H|H].
  - injection H as -> ->. rewrite String.eqb_refl. reflexivity.
  - inversion Hnd as [|? ? Hnot Hnd']; subst.
    destruct (String.eqb k k') eqn:E.
    + apply String.eqb_eq in E. subst k'. exfalso. apply Hnot.
      apply in_map_iff. exists (k, v). split; [reflexivity | exact H].
    + apply IH; assumption.
Qed.

Lemma dict_get_keys k d : dict_get k d <> None <-> In k (map fst d).
Proof.
  induction d as [|[k' v'] d IH]; simpl; [split; [congruence | tauto]|].
  destruct (String.eqb k k') eqn:E.
  - apply String.eqb_eq in E. subst. split; [auto | congruence].
  - rewrite IH. apply String.eqb_neq in E. split; [auto | intros [H|H]; congruence || exact H].
Qed.

(** ** The vocabulary loop *)

Lemma vocab_key_eqb_eq a b : vocab_key_eqb a b = true <-> a = b.
Proof.
  destruct a as [[[n1 t1] p1] l1], b as [[[n2 t2] p2] l2]. unfold vocab_key_eqb.
  rewrite !andb_true_iff, !String.eqb_eq, Z.eqb_eq.
  split; [intros [[[-> ->] ->] ->]; reflexivity | intros [= -> -> -> ->]; auto].
Qed.

Lemma vocab_key_in_iff k seen : key_in vocab_key_eqb k seen = true <-> In k seen.
Proof.
  unfold key_in. rewrite existsb_exists. split.
  - intros (x & Hin & E). apply vocab_key_eqb_eq in E. subst. exact Hin.
  - intros Hin. exists k. split; [exact Hin | apply vocab_key_eqb_eq; reflexivity].
Qed.

(** What the loop returns: the records already in [unique], then one
    record for each surviving entry, in order. *)
Lemma vocab_loop_survivors utcnow vlist :
  forall seen unique t out t',
    vocab_loop utcnow vlist seen unique t = Ok (out, t') ->
    exists news,
      out = (unique ++ news)%list
      /\ Forall2 (rebuilt_from utcnow) (survivors_from seen vlist) news
      /\ Forall (fun it => is_ok (vocab_fields_of it) = true) vlist.
Proof.
  induction vlist as [|it rest IH]; intros seen unique t out t' H; simpl in H.
  - injection H as <- <-. exists []. rewrite app_nil_r. repeat constructor.
  - bind_inv H. simpl. rewrite E.
    destruct (key_in vocab_key_eqb (key_of_fields x) seen).
    + destruct (IH _ _ _ _ _ H) as (news & -> & F2 & Fa).
      exists news. split; [reflexivity|]. split; [exact F2|].
      constructor; [rewrite E; reflexivity | exact Fa].
    + bind_inv H. destruct (or_now utcnow x0 t) as [lu t1] eqn:Eo.
      destruct (IH _ _ _ _ _ H) as (news & -> & F2 & Fa).
      exists (vocab_entry x lu :: news). split; [rewrite <- app_assoc; reflexivity|].
      split.
      * constructor; [|exact F2]. exists x, x0, t. rewrite Eo. auto.
      * constructor; [rewrite E; reflexivity | exact Fa].
Qed.

Lemma survivors_from_incl seen vlist : incl (survivors_from seen vlist) vlist.
Proof.
  revert seen. induction vlist as [|it rest IH]; intros seen; simpl.
  - apply incl_refl.
  - destruct (vocab_fields_of it) as [f|e].
    + destruct (key_in vocab_key_eqb (key_of_fields f) seen).
      * apply incl_tl, IH.
      * apply incl_cons; [left; reflexivity | apply incl_tl, IH].
    + apply incl_tl, IH.
Qed.

(** For every key, the survivors with that key are none when the key has
    been seen, and otherwise the first entry of the list with that key. *)
Lemma survivors_from_first k vlist :
  forall seen,
    filter (has_vocab_key k) (survivors_from seen vlist)
    = if key_in vocab_key_eqb k seen then []
      else match find (has_vocab_key k) vlist with
           | Some first => [first]
           | None => []
           end.
Proof.
  induction vlist as [|it rest IH]; intros seen; cbn [survivors_from find filter].
  - destruct (key_in vocab_key_eqb k seen); reflexivity.
  - destruct (vocab_fields_of it) as [f|e] eqn:Ef.
    + assert (Hk : has_vocab_key k it = vocab_key_eqb (key_of_fields f) k).
      { unfold has_vocab_key. rewrite Ef. reflexivity. }
      destruct (key_in vocab_key_eqb (key_of_fields f) seen) eqn:Es.
      * rewrite IH, Hk. destruct (key_in vocab_key_eqb k seen) eqn:Ek; [reflexivity|].
        destruct (vocab_key_eqb (key_of_fields f) k) eqn:Efk; [|reflexivity].
        apply vocab_key_eqb_eq in Efk. congruence.
      * cbn [filter]. rewrite Hk, IH.
        destruct (vocab_key_eqb (key_of_fields f) k) eqn:Efk.
        -- apply vocab_key_eqb_eq in Efk. rewrite <- Efk at 1 2. rewrite Es.
           replace (key_in vocab_key_eqb (key_of_fields f) (key_of_fields f :: seen))
             with true; [reflexivity|].
           symmetry. apply vocab_key_in_iff. left. reflexivity.
        -- replace (key_in vocab_key_eqb k (key_of_fields f :: seen))
             with (key_in vocab_key_eqb k seen); [reflexivity|].
           unfold key_in. cbn [existsb].
           destruct (vocab_key_eqb k (key_of_fields f)) eqn:E2; [|reflexivity].
           apply vocab_key_eqb_eq in E2. subst k.
           assert (vocab_key_eqb (key_of_fields f) (key_of_fields f) = true)
             by (apply vocab_key_eqb_eq; reflexivity).
           congruence.
    + assert (Hk : has_vocab_key k it = false).
      { unfold has_vocab_key. rewrite Ef. reflexivity. }
      rewrite Hk. apply IH.
Qed.

(** ** The pass over the languages *)

Lemma vocab_pass_lookup utcnow items :
  forall md cv t mem' t',
    NoDup (map fst items) ->
    vocab_pass utcnow items (JDict md) t = Ok (mem', t') ->
    dict_get "custom_vocab" md = Some (JDict cv) ->
    (forall k, In k (map fst items) -> dict_get k cv <> None) ->
    exists cv',
      mem' = JDict (dict_set "custom_vocab" (JDict cv') md)
      /\ map fst cv' = map fst cv
      /\ (forall lang, ~ In lang (map fst items) -> dict_get lang cv' = dict_get lang cv)
      /\ (forall lang vl, In (lang, vl) items ->
            exists its out t1 t2,
              py_iter vl = Ok its
              /\ vocab_loop utcnow its [] [] t1 = Ok (out, t2)
              /\ dict_get lang cv' = Some (JList out)).
Proof.
  induction items as [|[lang vl] rest IH]; intros md cv t mem' t' Hnd H Hcv Hkeys.
  - simpl in H. injection H as <- <-. exists cv.
    split; [rewrite (dict_set_get_id _ _ _ Hcv); reflexivity|].
    split; [reflexivity|]. split; [reflexivity|]. intros ? ? [].
  - cbn [vocab_pass] in H. bind_inv H. bind_inv H. destruct x0 as [unique t1].
    cbn [py_getitem] in H. rewrite Hcv in H. cbn [bind py_setitem] in H.
    inversion Hnd as [|? ? Hnot Hnd']; subst.
    assert (Hcv1 : dict_get "custom_vocab"
                     (dict_set "custom_vocab" (JDict (dict_set lang (JList unique) cv)) md)
                   = Some (JDict (dict_set lang (JList unique) cv)))
      by apply dict_get_set_eq.
    assert (Hk : map fst (dict_set lang (JList unique) cv) = map fst cv).
    { apply dict_set_keys, Hkeys. left. reflexivity. }
    destruct (IH _ _ _ _ _ Hnd' H Hcv1) as (cv' & -> & K & U & T).
    { intros k Hin. apply dict_get_keys. rewrite Hk. apply dict_get_keys.
      apply Hkeys. right. exact Hin. }
    exists cv'. split; [rewrite dict_set_set; reflexivity|].
    split; [congruence|]. split.
    + intros l Hl. rewrite U by (intros Hin; apply Hl; right; exact Hin).
      apply dict_get_set_ne. intros ->. apply Hl. left. reflexivity.
    + intros l v [Heq|Hin].
      * injection Heq as <- <-. exists x, unique, t, t1.
        split; [exact E|]. split; [exact E0|].
        rewrite U by exact Hnot. apply dict_get_set_eq.
      * apply T, Hin.
Qed.

(** The steps of a run of [deduplicate_user] that returns. *)
Lemma deduplicate_user_steps utcnow mem t mem' t' :
  deduplicate_user utcnow mem t = Ok (mem', t') ->
  exists cvj items mem1 t1 h turns unique mem2 stats recent recent' stats',
    py_get_default mem "custom_vocab" (JDict []) = Ok cvj
    /\ py_items cvj = Ok items
    /\ vocab_pass utcnow items mem t = Ok (mem1, t1)
    /\ py_get_default mem1 "conversation_history" (JList []) = Ok h
    /\ py_iter h = Ok turns
    /\ history_loop utcnow mem1 turns [] [] t1 = Ok (unique, t')
    /\ py_setitem mem1 "conversation_history" (JList (last_n 500 unique)) = Ok mem2
    /\ py_getitem mem2 "stats" = Ok stats
    /\ py_get_default stats "recent" (JList []) = Ok recent
    /\ py_slice_last 200 recent = Ok recent'
    /\ py_setitem stats "recent" recent' = Ok stats'
    /\ py_setitem mem2 "stats" stats' = Ok mem'.
Proof.
  unfold deduplicate_user. intros H.
  do 3 bind_inv H. destruct x1 as [mem1 t1]. cbn beta iota in H.
  do 3 bind_inv H. destruct x3 as [unique t2]. cbn beta iota in H.
  do 6 bind_inv H. injection H as <- <-.
  exists x, x0, mem1, t1, x1, x2, unique, x3, x4, x5, x6, x7.
  repeat (split; [assumption|]). assumption.
Qed.

(** What [deduplicate_user] leaves under ["custom_vocab"]: for every
    language, the result of the vocabulary loop on the list of that
    language. *)
Lemma deduplicate_user_vocab utcnow mem t mem' t' cv :
  deduplicate_user utcnow mem t = Ok (mem', t') ->
  well_formed mem = true ->
  py_getitem mem "custom_vocab" = Ok (JDict cv) ->
  exists cv',
    py_getitem mem' "custom_vocab" = Ok (JDict cv')
    /\ map fst cv' = map fst cv
    /\ (forall lang vl, dict_get lang cv = Some vl ->
          exists its out t1 t2,
            py_iter vl = Ok its
            /\ vocab_loop utcnow its [] [] t1 = Ok (out, t2)
            /\ dict_get lang cv' = Some (JList out)).
Proof.
  intros H Hwf Hcv.
  apply deduplicate_user_steps in H
    as (cvj & items & mem1 & t1 & h & turns & unique & mem2 & stats & recent
        & recent' & stats' & S1 & S2 & S3 & S4 & S5 & S6 & S7 & S8 & S9 & S10 & S11 & S12).
  destruct mem as [| | | | | |md]; try discriminate.
  cbn [py_getitem] in Hcv.
  destruct (dict_get "custom_vocab" md) as [c|] eqn:Ec; [|discriminate].
  injection Hcv as ->.
  cbn [py_get_default] in S1. rewrite Ec in S1. injection S1 as <-.
  cbn [py_items] in S2. injection S2 as <-.
  destruct (well_formed_dict _ Hwf) as (_ & Hsub).
  pose proof (Hsub _ _ (dict_get_In _ _ _ Ec)) as Hwfcv.
  destruct (well_formed_dict _ Hwfcv) as (Hnd & _).
  destruct (vocab_pass_lookup utcnow cv md cv t mem1 t1 Hnd S3 Ec) as (cv' & -> & K & _ & T).
  { intros k Hin. apply dict_get_keys, Hin. }
  exists cv'. split.
  - rewrite (getitem_setitem_ne _ _ _ _ _ S12) by discriminate.
    rewrite (getitem_setitem_ne _ _ _ _ _ S7) by discriminate.
    cbn [py_getitem]. rewrite dict_get_set_eq. reflexivity.
  - split; [exact K|]. intros lang vl Hl. apply T, dict_get_In, Hl.
Qed.

Lemma survivors_from_subseq vlist :
  forall seen, subseq (survivors_from seen vlist) vlist.
Proof.
  induction vlist as [|it rest IH]; intros seen; simpl; [constructor|].
  destruct (vocab_fields_of it) as [f|e].
  - destruct (key_in vocab_key_eqb (key_of_fields f) seen); constructor; apply IH.
  - constructor. apply IH.
Qed.

(** Two entries have the same identity key when the key the loop
    computes for the second is the key of the first. *)
Lemma same_identity_key e f x :
  vocab_fields_of e = Ok f ->
  same_identity e x = has_vocab_key (key_of_fields f) x.
Proof.
  intros Hf. unfold same_identity, has_vocab_key. rewrite Hf.
  destruct (vocab_fields_of x) as [g|]; [|reflexivity].
  unfold key_of_fields, vocab_key_eqb.
  rewrite (String.eqb_sym (normalize (vf_native f))).
  rewrite (String.eqb_sym (normalize (vf_target f))).
  rewrite (String.eqb_sym (vf_topic f)), (Z.eqb_sym (vf_level f)). reflexivity.
Qed.

Lemma filter_same {A : Type} (p q : A -> bool) (l : list A) :
  (forall x, p x = q x) -> filter p l = filter q l.
Proof.
  intros H. induction l as [|x l IH]; simpl; [reflexivity|]. rewrite H, IH. reflexivity.
Qed.

Lemma find_same {A : Type} (p q : A -> bool) (l : list A) :
  (forall x, p x = q x) -> find p l = find q l.
Proof.
  intros H. induction l as [|x l IH]; simpl; [reflexivity|]. rewrite H, IH. reflexivity.
Qed.

(** C5. Within one language of one user, the entries that survive
    [deduplicate_user] are rebuilt one by one, in order, from a
    selection [survivors] of the original entries.  For every entry of
    the original list, exactly one survivor has its identity key
    (normalized native, normalized target, topic, level), and it is the
    first entry of the original list with that key.  So when two entries
    have the same key, exactly one entry with that key survives, and it
    is the first. *)
Theorem deduplicate_user_keeps_first
  (utcnow : nat -> string) (mem : json) (t : nat) (mem' : json) (t' : nat)
  (cv : list (string * json)) (lang : string) (vlist : list json) :
  deduplicate_user utcnow mem t = Ok (mem', t') ->
  well_formed mem = true ->
  py_getitem mem "custom_vocab" = Ok (JDict cv) ->
  dict_get lang cv = Some (JList vlist) ->
  exists cv' out survivors,
    py_getitem mem' "custom_vocab" = Ok (JDict cv')
    /\ dict_get lang cv' = Some (JList out)
    /\ subseq survivors vlist
    /\ Forall2 (rebuilt_from utcnow) survivors out
    /\ (forall e, In e vlist ->
          exists first,
            find (same_identity e) vlist = Some first
            /\ filter (same_identity e) survivors = [first])
    /\ (forall e1 e2, In e1 vlist -> In e2 vlist -> same_identity e1 e2 = true ->
          exists first,
            find (same_identity e1) vlist = Some first
            /\ filter (same_identity e1) survivors = [first]
            /\ filter (same_identity e2) survivors = [first]).
Proof.
  intros H Hwf Hcv Hl.
  destruct (deduplicate_user_vocab _ _ _ _ _ _ H Hwf Hcv) as (cv' & G & _ & T).
  destruct (T _ _ Hl) as (its & out & t1 & t2 & I & L & D).
  injection I as <-.
  destruct (vocab_loop_survivors _ _ _ _ _ _ _ L) as (news & -> & F2 & Fok).
  exists cv', news, (survivors_from [] vlist).
  split; [exact G|]. split; [exact D|].
  split; [apply survivors_from_subseq|]. split; [exact F2|].
  assert (Hone : forall e, In e vlist ->
            exists f first,
              vocab_fields_of e = Ok f
              /\ find (same_identity e) vlist = Some first
              /\ filter (same_identity e) (survivors_from [] vlist) = [first]).
  { intros e Hin. pose proof (proj1 (Forall_forall _ _) Fok e Hin) as Hok.
    cbv beta in Hok.
    destruct (vocab_fields_of e) as [f|] eqn:Ef; [|discriminate Hok].
    pose proof (same_identity_key e f) as Hk. specialize (fun x => Hk x Ef).
    assert (Hself : has_vocab_key (key_of_fields f) e = true).
    { unfold has_vocab_key. rewrite Ef. apply vocab_key_eqb_eq. reflexivity. }
    destruct (find (has_vocab_key (key_of_fields f)) vlist) as [first|] eqn:Efind.
    - exists f, first. split; [reflexivity|].
      rewrite (find_same _ _ vlist Hk), (filter_same _ _ _ Hk), survivors_from_first, Efind.
      split; reflexivity.
    - pose proof (find_none _ _ Efind _ Hin). congruence. }
  split.
  - intros e Hin. destruct (Hone e Hin) as (f & first & _ & A & B).
    exists first. split; assumption.
  - intros e1 e2 H1 H2 Hsame.
    destruct (Hone e1 H1) as (f1 & first & Ef1 & A & B).
    exists first. split; [exact A|]. split; [exact B|].
    destruct (Hone e2 H2) as (f2 & first2 & Ef2 & _ & _).
    rewrite <- B. apply filter_same. intros x.
    rewrite (same_identity_key e1 f1 x Ef1), (same_identity_key e2 f2 x Ef2).
    rewrite (same_identity_key e1 f1 e2 Ef1) in Hsame.
    unfold has_vocab_key in Hsame. rewrite Ef2 in Hsame.
    apply vocab_key_eqb_eq in Hsame. rewrite Hsame. reflexivity.
Qed.

Lemma deduplicate_user_keeps_first_witness :
  let e1 := JDict [ ("native", JStr " Hello "); ("target", JStr "Hola");
                    ("topic", JStr "greet"); ("level", JInt 1);
                    ("note", JStr "first") ] in
  let e2 := JDict [ ("native", JStr "hello"); ("correct_answer", JStr "hola ");
                    ("topic", JStr "greet"); ("last_used", JStr "2023") ] in
  deduplicate_user example_clock vocab_example_user 0 = Ok (vocab_example_after, 2%nat)
  /\ well_formed vocab_example_user = true
  /\ same_identity e1 e2 = true
  /\ exists cv' out survivors,
       py_getitem vocab_example_after "custom_vocab" = Ok (JDict cv')
       /\ dict_get "es" cv' = Some (JList out)
       /\ Forall2 (rebuilt_from example_clock) survivors out
       /\ filter (same_identity e1) survivors = [e1]
       /\ filter (same_identity e2) survivors = [e1]
       /\ out = [ JDict [ ("native", JStr "Hello"); ("target", JStr "Hola");
                          ("topic", JStr "greet"); ("level", JInt 1);
                          ("last_used", JStr "2024-05-01T10:00:00Z") ];
                  JDict [ ("native", JStr "bye"); ("target", JStr "adios");
                          ("topic", JStr ""); ("level", JInt 1);
                          ("last_used", JStr "2024-05-01T10:00:00Z") ] ].
Proof.
  intros e1 e2.
  assert (H1 : deduplicate_user example_clock vocab_example_user 0
               = Ok (vocab_example_after, 2%nat)) by (vm_compute; reflexivity).
  assert (H2 : well_formed vocab_example_user = true) by reflexivity.
  assert (H3 : same_identity e1 e2 = true) by reflexivity.
  split; [exact H1|]. split; [exact H2|]. split; [exact H3|].
  destruct (deduplicate_user_keeps_first _ _ _ _ _ _ "es" _ H1 H2 eq_refl eq_refl)
    as (cv' & out & survivors & A & B & _ & C & _ & D).
  destruct (D e1 e2) as (first & F1 & F2 & F3);
    [left; reflexivity | right; left; reflexivity | exact H3 |].
  vm_compute in F1. injection F1 as <-.
  exists cv', out, survivors.
  split; [exact A|]. split; [exact B|]. split; [exact C|].
  split; [exact F2|]. split; [exact F3|].
  vm_compute in A. injection A as <-. vm_compute in B. injection B as <-. reflexivity.
Defined.

Lemma now_iso_truthy utcnow t : truthy (JStr (now_iso utcnow t)) = true.
Proof.
  unfold now_iso. simpl. destruct (utcnow t); reflexivity.
Qed.

Lemma or_now_truthy utcnow v t : truthy (fst (or_now utcnow v t)) = true.
Proof.
  unfold or_now. destruct (truthy v) eqn:E; simpl; [exact E|].
  apply now_iso_truthy.
Qed.

Lemma py_strip_stripped v s : py_strip v = Ok s -> strip s = s.
Proof.
  destruct v; simpl; try discriminate. intros [= <-]. apply strip_idem.
Qed.

Lemma py_strip_trimmed v s : py_strip (py_or v (JStr "")) = Ok s -> trimmed_text v s.
Proof.
  unfold trimmed_text.
  destruct (py_or v (JStr "")) as [| | | |text| |]; simpl; try discriminate.
  intros [= <-]. exists text. split; [reflexivity | apply strip_trimmed].
Qed.

Lemma py_get_field it k x : py_get it k = Ok x -> field it k = x.
Proof.
  unfold field, field_or. destruct it; simpl; try discriminate.
  intros [= <-]. reflexivity.
Qed.

(** The record built from an entry is a rebuilt record of the list the
    entry stands in. *)
Lemma rebuilt_from_record utcnow vlist it e :
  In it vlist -> rebuilt_from utcnow it e -> rebuilt_record utcnow vlist e.
Proof.
  intros Hin (f & lu0 & tk & Hf & Hlu & ->).
  unfold vocab_fields_of in Hf.
  apply bind_ok in Hf. destruct Hf as (n0 & N0 & Hf).
  apply bind_ok in Hf. destruct Hf as (native & N & Hf).
  apply bind_ok in Hf. destruct Hf as (t0 & T0 & Hf).
  apply bind_ok in Hf. destruct Hf as (c0 & C0 & Hf).
  apply bind_ok in Hf. destruct Hf as (target & T & Hf).
  apply bind_ok in Hf. destruct Hf as (p0 & P0 & Hf).
  apply bind_ok in Hf. destruct Hf as (topic & P & Hf).
  apply bind_ok in Hf. destruct Hf as (l0 & L0 & Hf).
  apply bind_ok in Hf. destruct Hf as (level & L & Hf).
  injection Hf as <-.
  apply py_get_field in N0, T0, C0, P0, L0, Hlu. subst n0 t0 c0 p0 l0 lu0.
  exists it, native, target, topic, level, (fst (or_now utcnow (field it "last_used") tk)).
  cbn [vf_native vf_target vf_topic vf_level vocab_entry].
  split; [exact Hin|]. split; [reflexivity|].
  split; [apply py_strip_trimmed, N|].
  split.
  { intros Ht. apply py_strip_trimmed. unfold py_or at 2 in T. rewrite Ht in T. exact T. }
  split.
  { intros Ht. apply py_strip_trimmed. unfold py_or at 2 in T. rewrite Ht in T. exact T. }
  split; [apply py_strip_trimmed, P|].
  split; [exact L|].
  split.
  { intros Hl. unfold py_or in L. rewrite Hl in L. injection L as <-. reflexivity. }
  split.
  { intros n Hn Hn0. rewrite Hn in L. unfold py_or in L. cbn [truthy] in L.
    apply Z.eqb_neq in Hn0. rewrite Hn0 in L. injection L as <-. reflexivity. }
  split; [apply or_now_truthy|].
  unfold or_now. split.
  - intros ->. reflexivity.
  - intros ->. exists tk. reflexivity.
Qed.

(** C10. Every vocabulary entry that survives [deduplicate_user] is a
    record with exactly the fields native, target, topic, level and
    last_used: the first three are the texts of the entry without the
    white space at their ends, the target is taken from correct_answer
    when target is missing or empty, the level is an integer and is 1
    when missing, and last_used is never empty: the old value when there
    is one, the current timestamp otherwise.  Any other field of the
    entry is dropped. *)
Theorem deduplicate_user_rebuilds_vocab
  (utcnow : nat -> string) (mem : json) (t : nat) (mem' : json) (t' : nat)
  (cv : list (string * json)) (lang : string) (vlist : list json) :
  deduplicate_user utcnow mem t = Ok (mem', t') ->
  well_formed mem = true ->
  py_getitem mem "custom_vocab" = Ok (JDict cv) ->
  dict_get lang cv = Some (JList vlist) ->
  exists cv' out,
    py_getitem mem' "custom_vocab" = Ok (JDict cv')
    /\ dict_get lang cv' = Some (JList out)
    /\ forall e, In e out -> rebuilt_record utcnow vlist e.
Proof.
  intros H Hwf Hcv Hl.
  destruct (deduplicate_user_vocab _ _ _ _ _ _ H Hwf Hcv) as (cv' & G & _ & T).
  destruct (T _ _ Hl) as (its & out & t1 & t2 & I & L & D).
  injection I as <-.
  destruct (vocab_loop_survivors _ _ _ _ _ _ _ L) as (news & -> & F2 & _).
  exists cv', news. split; [exact G|]. split; [exact D|].
  intros e He. cbn [app] in He.
  assert (Hsrc : exists it, In it (survivors_from [] vlist) /\ rebuilt_from utcnow it e).
  { clear - F2 He. induction F2 as [|a b la lb Hab F IH]; [destruct He|].
    destruct He as [<-|He].
    - exists a. split; [left; reflexivity | exact Hab].
    - destruct (IH He) as (it & Hin & Hr). exists it. split; [right; exact Hin | exact Hr]. }
  destruct Hsrc as (it & Hin & Hr).
  apply survivors_from_incl in Hin.
  exact (rebuilt_from_record _ _ _ _ Hin Hr).
Qed.

Lemma deduplicate_user_rebuilds_vocab_witness :
  deduplicate_user example_clock rebuild_example_user 0 = Ok (rebuild_example_after, 1%nat)
  /\ well_formed rebuild_example_user = true
  /\ exists cv' out,
       py_getitem rebuild_example_after "custom_vocab" = Ok (JDict cv')
       /\ dict_get "es" cv' = Some (JList out)
       /\ out = [ JDict [ ("native", JStr "Good night"); ("target", JStr "buenas noches");
                          ("topic", JStr "greet"); ("level", JInt 1);
                          ("last_used", JStr "2024-05-01T10:00:00Z") ];
                  JDict [ ("native", JStr "bye"); ("target", JStr "adios");
                          ("topic", JStr ""); ("level", JInt 2);
                          ("last_used", JStr "2023") ] ]
       /\ forall e, In e out ->
            rebuilt_record example_clock
              (elements (field (field rebuild_example_user "custom_vocab") "es")) e.
Proof.
  assert (H1 : deduplicate_user example_clock rebuild_example_user 0
               = Ok (rebuild_example_after, 1%nat)) by (vm_compute; reflexivity).
  assert (H2 : well_formed rebuild_example_user = true) by reflexivity.
  split; [exact H1|]. split; [exact H2|].
  destruct (deduplicate_user_rebuilds_vocab _ _ _ _ _ _ "es" _ H1 H2 eq_refl eq_refl)
    as (cv' & out & A & B & C).
  exists cv', out. split; [exact A|]. split; [exact B|]. split; [|exact C].
  vm_compute in A. injection A as <-. vm_compute in B. injection B as <-. reflexivity.
Defined.

(** ** A second pass over the output of the vocabulary loop *)

Lemma py_strip_or_str s : py_strip (py_or (JStr s) (JStr "")) = Ok (strip s).
Proof.
  unfold py_or. cbn [truthy]. destruct (String.eqb s "") eqn:E; simpl.
  - apply String.eqb_eq in E. subst. reflexivity.
  - reflexivity.
Qed.

Lemma py_strip_or_str_null s :
  py_strip (py_or (py_or (JStr s) JNull) (JStr "")) = Ok (strip s).
Proof.
  unfold py_or. cbn [truthy]. destruct (String.eqb s "") eqn:E; simpl.
  - apply String.eqb_eq in E. subst. reflexivity.
  - rewrite E. reflexivity.
Qed.

Lemma py_or_idem x d : py_or (py_or x d) d = py_or x d.
Proof.
  unfold py_or. destruct (truthy x) eqn:E; [rewrite E; reflexivity|].
  destruct (truthy d); reflexivity.
Qed.

Lemma vocab_fields_of_entry f lu :
  stripped_fields f -> vf_level f <> 0 ->
  vocab_fields_of (vocab_entry f lu) = Ok f.
Proof.
  destruct f as [n tg tp lv]. intros (Hn & Ht & Hp) Hl.
  cbn [vf_native vf_target vf_topic vf_level] in *.
  set (e := vocab_entry (mk_vocab_fields n tg tp lv) lu).
  assert (G1 : py_get e "native" = Ok (JStr n)) by reflexivity.
  assert (G2 : py_get e "target" = Ok (JStr tg)) by reflexivity.
  assert (G3 : py_get e "correct_answer" = Ok JNull) by reflexivity.
  assert (G4 : py_get e "topic" = Ok (JStr tp)) by reflexivity.
  assert (G5 : py_get e "level" = Ok (JInt lv)) by reflexivity.
  unfold vocab_fields_of. rewrite G1, G2, G3, G4, G5. cbn [bind].
  rewrite py_strip_or_str. cbn [bind]. rewrite py_strip_or_str_null. cbn [bind].
  rewrite py_strip_or_str. cbn [bind].
  unfold py_or. cbn [truthy]. apply Z.eqb_neq in Hl. rewrite Hl. cbn [negb py_int bind].
  rewrite Hn, Ht, Hp. reflexivity.
Qed.

Lemma vocab_loop_canonical utcnow vlist :
  forall seen unique t out t',
    vocab_loop utcnow vlist seen unique t = Ok (out, t') ->
    forallb nonzero_level vlist = true ->
    exists news, out = (unique ++ news)%list /\ canonical_vocab seen news.
Proof.
  induction vlist as [|it rest IH]; intros seen unique t out t' H Hnz; simpl in H.
  - injection H as <- <-. exists []. rewrite app_nil_r. split; [reflexivity | exact I].
  - cbn [forallb] in Hnz. apply andb_true_iff in Hnz as [Hz Hnz].
    bind_inv H. unfold nonzero_level in Hz. rewrite E in Hz.
    apply negb_true_iff, Z.eqb_neq in Hz.
    destruct (key_in vocab_key_eqb (key_of_fields x) seen) eqn:Es.
    + apply (IH _ _ _ _ _ H Hnz).
    + bind_inv H. destruct (or_now utcnow x0 t) as [lu t1] eqn:Eo.
      destruct (IH _ _ _ _ _ H Hnz) as (news & -> & C).
      exists (vocab_entry x lu :: news). split; [rewrite <- app_assoc; reflexivity|].
      cbn [canonical_vocab]. exists x, lu. split; [reflexivity|].
      split.
      { unfold vocab_fields_of in E. do 9 bind_inv E. injection E as <-.
        unfold stripped_fields. cbn [vf_native vf_target vf_topic].
        repeat split; eapply py_strip_stripped; eassumption. }
      split; [exact Hz|]. split.
      { replace lu with (fst (or_now utcnow x0 t)) by (rewrite Eo; reflexivity).
        apply or_now_truthy. }
      split; [exact Es | exact C].
Qed.

Lemma vocab_loop_on_canonical utcnow news :
  forall seen unique t,
    canonical_vocab seen news ->
    vocab_loop utcnow news seen unique t = Ok ((unique ++ news)%list, t).
Proof.
  induction news as [|e rest IH]; intros seen unique t C.
  - simpl. rewrite app_nil_r. reflexivity.
  - cbn [canonical_vocab] in C. destruct C as (f & lu & -> & Hs & Hl & Hlu & Hk & C).
    cbn [vocab_loop]. rewrite (vocab_fields_of_entry _ _ Hs Hl). cbn [bind].
    rewrite Hk.
    assert (G : py_get (vocab_entry f lu) "last_used" = Ok lu) by reflexivity.
    rewrite G. cbn [bind]. unfold or_now. rewrite Hlu.
    rewrite (IH _ _ _ C). rewrite <- app_assoc. reflexivity.
Qed.

(** ** A second pass over the output of the history loop *)

Lemma history_key_of_plain mem turn key u l1 :
  history_key_of mem turn = Ok (key, u) ->
  plain_turn turn = true ->
  py_get mem "lang" = Ok l1 ->
  key = (normalize u, "", py_or l1 (JStr ""))
  /\ strip u = u
  /\ py_hashable (py_or l1 (JStr "")) = Ok tt.
Proof.
  unfold history_key_of, plain_turn, falsy_field. intros H Hp Hl.
  do 6 bind_inv H.
  rewrite E2, E3 in Hp. bind_inv H. rewrite E5 in Hp.
  apply andb_true_iff in Hp as [Hp Hp3]. apply andb_true_iff in Hp as [Hp1 Hp2].
  apply negb_true_iff in Hp1, Hp2, Hp3.
  rewrite Hp3, Hl in H. cbn [bind] in H. bind_inv H.
  injection H as <- <-.
  unfold py_or in E4 at 2. rewrite Hp1 in E4. unfold py_or in E4. rewrite Hp2 in E4.
  cbn in E4. injection E4 as <-.
  split; [reflexivity|]. split; [eapply py_strip_stripped; eassumption|].
  destruct x6. exact E6.
Qed.

Lemma history_loop_canonical utcnow mem l1 turns :
  py_get mem "lang" = Ok l1 ->
  forall seen unique t out t',
    history_loop utcnow mem turns seen unique t = Ok (out, t') ->
    forallb plain_turn turns = true ->
    exists news,
      out = (unique ++ news)%list
      /\ canonical_history (py_or l1 (JStr "")) seen news.
Proof.
  intros Hl. induction turns as [|turn rest IH]; intros seen unique t out t' H Hp;
    cbn [history_loop] in H.
  - injection H as <- <-. exists []. rewrite app_nil_r. split; [reflexivity | exact I].
  - cbn [forallb] in Hp. apply andb_true_iff in Hp as [Hp1 Hp].
    bind_inv H. destruct x as [key u]. cbn beta iota in H.
    destruct (history_key_of_plain _ _ _ _ _ E Hp1 Hl) as (-> & Hu & Hh).
    destruct (key_in history_key_eqb _ seen) eqn:Es.
    + apply (IH _ _ _ _ _ H Hp).
    + bind_inv H. destruct (or_now utcnow x t) as [w t1] eqn:Eo.
      do 3 bind_inv H.
      destruct (IH _ _ _ _ _ H Hp) as (news & -> & C).
      eexists (_ :: news). split; [rewrite <- app_assoc; reflexivity|].
      cbn [canonical_history]. do 5 eexists. split; [reflexivity|].
      split.
      { replace w with (fst (or_now utcnow x t)) by (rewrite Eo; reflexivity).
        apply or_now_truthy. }
      split; [apply py_or_idem|]. split; [apply py_or_idem|].
      split; [exact Hu|]. split; [exact Hh|]. split; [exact Es | exact C].
Qed.

Lemma history_loop_on_canonical utcnow mem l1 news :
  py_get mem "lang" = Ok l1 ->
  forall seen unique t,
    canonical_history (py_or l1 (JStr "")) seen news ->
    history_loop utcnow mem news seen unique t = Ok ((unique ++ news)%list, t).
Proof.
  intros Hl. induction news as [|e rest IH]; intros seen unique t C.
  - simpl. rewrite app_nil_r. reflexivity.
  - cbn [canonical_history] in C.
    destruct C as (w & p & u & g & s & -> & Hw & Hp & Hg & Hu & Hh & Hk & C).
    cbn [history_loop]. rewrite history_key_of_entry, Hl. cbn [bind].
    rewrite Hh. cbn [bind]. rewrite Hu, Hk.
    assert (G1 : py_get (history_entry w p u g s) "when" = Ok w) by reflexivity.
    assert (G2 : py_get (history_entry w p u g s) "prompt" = Ok p) by reflexivity.
    assert (G3 : py_get (history_entry w p u g s) "target" = Ok g) by reflexivity.
    assert (G4 : py_get (history_entry w p u g s) "score" = Ok s) by reflexivity.
    rewrite G1. cbn [bind]. unfold or_now. rewrite Hw.
    rewrite G2. cbn [bind]. rewrite G3. cbn [bind]. rewrite G4. cbn [bind].
    rewrite Hp, Hg, (IH _ _ _ C), <- app_assoc. reflexivity.
Qed.

Lemma key_in_incl {K : Type} (eqb : K -> K -> bool) k (seen seen' : list K) :
  incl seen' seen -> key_in eqb k seen = false -> key_in eqb k seen' = false.
Proof.
  unfold key_in. intros Hi H.
  destruct (existsb (eqb k) seen') eqn:E; [|reflexivity].
  apply existsb_exists in E as (x & Hin & Hx).
  assert (existsb (eqb k) seen = true) by (apply existsb_exists; exists x; auto).
  congruence.
Qed.

Lemma canonical_history_mono l news :
  forall seen seen',
    incl seen' seen -> canonical_history l seen news -> canonical_history l seen' news.
Proof.
  induction news as [|e rest IH]; intros seen seen' Hi C; [exact I|].
  cbn [canonical_history] in *.
  destruct C as (w & p & u & g & s & -> & Hw & Hp & Hg & Hu & Hh & Hk & C).
  exists w, p, u, g, s. repeat (split; [assumption || reflexivity|]).
  split; [eapply key_in_incl; eassumption|].
  apply (IH ((normalize u, "", l) :: seen)); [|exact C].
  intros x [<-|Hx]; [left; reflexivity | right; apply Hi, Hx].
Qed.

Lemma canonical_history_suffix l a :
  forall seen b,
    canonical_history l seen (a ++ b) -> canonical_history l [] b.
Proof.
  induction a as [|e a IH]; intros seen b C.
  - apply (canonical_history_mono l b seen []); [intros ? [] | exact C].
  - cbn [app canonical_history] in C.
    destruct C as (w & p & u & g & s & _ & _ & _ & _ & _ & _ & _ & C).
    apply (IH _ _ C).
Qed.

(** ** Writes that change nothing *)

Lemma setitem_id m k x : py_getitem m k = Ok x -> py_setitem m k x = Ok m.
Proof.
  destruct m; simpl; try discriminate.
  destruct (dict_get k d) eqn:E; [|discriminate]. intros [= ->].
  rewrite (dict_set_get_id _ _ _ E). reflexivity.
Qed.

Lemma string_skipn_length k s :
  String.length (string_skipn k s) = (String.length s - k)%nat.
Proof.
  revert s. induction k as [|k IH]; intros s; simpl; [lia|].
  destruct s as [|c s]; simpl; [reflexivity | apply IH].
Qed.

Lemma slice_last_idem n v v' :
  py_slice_last n v = Ok v' -> py_slice_last n v' = Ok v'.
Proof.
  destruct v; simpl; try discriminate; intros [= <-]; simpl.
  - replace (String.length (string_skipn (String.length s - n) s) - n)%nat with 0%nat
      by (rewrite string_skipn_length; lia).
    reflexivity.
  - rewrite (last_n_short n (last_n n l)); [reflexivity | apply last_n_length].
Qed.

Lemma vocab_pass_on_canonical utcnow items :
  forall md cv t,
    dict_get "custom_vocab" md = Some (JDict cv) ->
    (forall lang vl, In (lang, vl) items ->
       dict_get lang cv = Some vl /\ exists out, vl = JList out /\ canonical_vocab [] out) ->
    vocab_pass utcnow items (JDict md) t = Ok (JDict md, t).
Proof.
  induction items as [|[lang vl] rest IH]; intros md cv t Hcv Hall; [reflexivity|].
  destruct (Hall lang vl (or_introl eq_refl)) as (Hg & out & -> & C).
  cbn [vocab_pass py_iter bind]. rewrite (vocab_loop_on_canonical _ _ _ _ _ C).
  cbn [bind app py_getitem]. rewrite Hcv. cbn [bind py_setitem].
  rewrite (dict_set_get_id _ _ _ Hg), (dict_set_get_id _ _ _ Hcv).
  apply (IH md cv t Hcv). intros l v Hin. apply Hall. right. exact Hin.
Qed.

(** ** A second run of [deduplicate_user] *)

Lemma plain_user_turns md h turns :
  plain_user (JDict md) = true ->
  py_get_default (JDict md) "conversation_history" (JList []) = Ok h ->
  py_iter h = Ok turns ->
  forallb plain_turn turns = true.
Proof.
  unfold plain_user, field_or, elements. intros Hp Hh Hi.
  apply andb_true_iff in Hp as [Hp _]. rewrite Hh, Hi in Hp. exact Hp.
Qed.

Lemma plain_user_levels md cv lang vl its :
  plain_user (JDict md) = true ->
  dict_get "custom_vocab" md = Some (JDict cv) ->
  In (lang, vl) cv ->
  py_iter vl = Ok its ->
  forallb nonzero_level its = true.
Proof.
  unfold plain_user, field_or, elements. intros Hp Hc Hin Hi.
  apply andb_true_iff in Hp as [_ Hp]. cbn [py_get_default] in Hp. rewrite Hc in Hp.
  cbn [dict_items] in Hp. rewrite forallb_forall in Hp.
  specialize (Hp _ Hin). cbn [snd] in Hp. rewrite Hi in Hp. exact Hp.
Qed.

Lemma vocab_second_pass utcnow utcnow2 md cvj items mem1 t t1 :
  well_formed (JDict md) = true ->
  plain_user (JDict md) = true ->
  py_get_default (JDict md) "custom_vocab" (JDict []) = Ok cvj ->
  py_items cvj = Ok items ->
  vocab_pass utcnow items (JDict md) t = Ok (mem1, t1) ->
  exists md1,
    mem1 = JDict md1
    /\ (forall k, k <> "custom_vocab" -> dict_get k md1 = dict_get k md)
    /\ (forall md2 t0,
          dict_get "custom_vocab" md2 = dict_get "custom_vocab" md1 ->
          exists cvj2 items2,
            py_get_default (JDict md2) "custom_vocab" (JDict []) = Ok cvj2
            /\ py_items cvj2 = Ok items2
            /\ vocab_pass utcnow2 items2 (JDict md2) t0 = Ok (JDict md2, t0)).
Proof.
  intros Hwf Hp S1 S2 S3.
  cbn [py_get_default] in S1. destruct (dict_get "custom_vocab" md) as [c|] eqn:Ec.
  - injection S1 as <-. destruct c as [| | | | | |cv]; try discriminate.
    injection S2 as <-.
    destruct (well_formed_dict _ Hwf) as (_ & Hsub).
    pose proof (Hsub _ _ (dict_get_In _ _ _ Ec)) as Hwfcv.
    destruct (well_formed_dict _ Hwfcv) as (Hnd & _).
    destruct (vocab_pass_lookup utcnow cv md cv t mem1 t1 Hnd S3 Ec) as (cv' & -> & K & _ & T).
    { intros k Hin. apply dict_get_keys, Hin. }
    exists (dict_set "custom_vocab" (JDict cv') md). split; [reflexivity|]. split.
    + intros k Hk. apply dict_get_set_ne, Hk.
    + intros md2 t0 Hmd2. rewrite dict_get_set_eq in Hmd2.
      exists (JDict cv'), cv'. cbn [py_get_default py_items]. rewrite Hmd2.
      split; [reflexivity|]. split; [reflexivity|].
      apply (vocab_pass_on_canonical utcnow2 cv' md2 cv' t0 Hmd2).
      intros lang vl' Hin.
      assert (Hnd' : NoDup (map fst cv')) by (rewrite K; exact Hnd).
      pose proof (In_dict_get _ _ _ Hnd' Hin) as D2.
      split; [exact D2|].
      assert (Hk : In lang (map fst cv)).
      { rewrite <- K. apply in_map_iff. exists (lang, vl'). split; [reflexivity | exact Hin]. }
      apply dict_get_keys in Hk.
      destruct (dict_get lang cv) as [vl|] eqn:Evl; [|congruence].
      pose proof (dict_get_In _ _ _ Evl) as Hin0.
      destruct (T lang vl Hin0) as (its & out & ta & tb & I1 & L1 & D1).
      rewrite D1 in D2. injection D2 as <-.
      exists out. split; [reflexivity|].
      destruct (vocab_loop_canonical _ _ _ _ _ _ _ L1) as (news & -> & C).
      { eapply plain_user_levels; eassumption. }
      exact C.
  - injection S1 as <-. injection S2 as <-. cbn [vocab_pass] in S3. injection S3 as <- <-.
    exists md. split; [reflexivity|]. split; [reflexivity|].
    intros md2 t0 Hmd2. rewrite Ec in Hmd2. exists (JDict []), [].
    cbn [py_get_default py_items]. rewrite Hmd2. repeat split; reflexivity.
Qed.

Lemma last_n_suffix {A : Type} (n : nat) (l : list A) :
  exists pre, l = (pre ++ last_n n l)%list.
Proof.
  exists (firstn (List.length l - n) l). unfold last_n.
  symmetry. apply firstn_skipn.
Qed.

Lemma deduplicate_user_fixpoint utcnow utcnow2 mem t mem' t' t2 :
  deduplicate_user utcnow mem t = Ok (mem', t') ->
  well_formed mem = true ->
  plain_user mem = true ->
  deduplicate_user utcnow2 mem' t2 = Ok (mem', t2).
Proof.
  intros H Hwf Hp.
  apply deduplicate_user_steps in H
    as (cvj & items & mem1 & t1 & h & turns & unique & mem2 & stats & recent
        & recent' & stats' & S1 & S2 & S3 & S4 & S5 & S6 & S7 & S8 & S9 & S10 & S11 & S12).
  destruct mem as [| | | | | |md]; try discriminate.
  destruct (vocab_second_pass utcnow utcnow2 _ _ _ _ _ _ Hwf Hp S1 S2 S3)
    as (md1 & -> & P1 & P2).
  (* the history of the first run *)
  assert (Hh : py_get_default (JDict md) "conversation_history" (JList []) = Ok h).
  { cbn [py_get_default] in *. rewrite <- P1 by discriminate. exact S4. }
  pose proof (plain_user_turns _ _ _ Hp Hh S5) as Hplain.
  set (l1 := match dict_get "lang" md1 with Some x => x | None => JNull end).
  assert (Hl1 : py_get (JDict md1) "lang" = Ok l1) by reflexivity.
  destruct (history_loop_canonical utcnow _ _ _ Hl1 _ _ _ _ _ S6 Hplain) as (news & -> & C).
  cbn [app] in S7.
  cbn [py_setitem] in S7. injection S7 as <-.
  cbn [py_getitem] in S8.
  destruct stats as [| | | | | |sd]; try discriminate.
  cbn [py_setitem] in S11. injection S11 as <-.
  cbn [py_setitem] in S12. injection S12 as <-.
  set (h' := last_n 500 news) in *.
  set (mdh := dict_set "conversation_history" (JList h') md1) in *.
  set (md' := dict_set "stats" (JDict (dict_set "recent" recent' sd)) mdh).
  (* the second run *)
  unfold deduplicate_user.
  destruct (P2 md' t2) as (cvj2 & items2 & Q1 & Q2 & Q3).
  { unfold md', mdh. rewrite !dict_get_set_ne by discriminate. reflexivity. }
  rewrite Q1. cbn [bind]. rewrite Q2. cbn [bind]. rewrite Q3. cbn [bind].
  assert (G1 : dict_get "conversation_history" md' = Some (JList h')).
  { unfold md', mdh. rewrite dict_get_set_ne by discriminate. apply dict_get_set_eq. }
  assert (G2 : dict_get "stats" md' = Some (JDict (dict_set "recent" recent' sd))).
  { unfold md'. apply dict_get_set_eq. }
  cbn [py_get_default]. rewrite G1. cbn [bind py_iter].
  assert (Hl' : py_get (JDict md') "lang" = Ok l1).
  { cbn [py_get]. unfold md', mdh. rewrite !dict_get_set_ne by discriminate. reflexivity. }
  assert (C' : canonical_history (py_or l1 (JStr "")) [] h').
  { destruct (last_n_suffix 500 news) as (pre & Hpre). fold h' in Hpre.
    rewrite Hpre in C. apply (canonical_history_suffix _ _ _ _ C). }
  rewrite (history_loop_on_canonical utcnow2 _ _ _ Hl' _ _ _ C').
  cbn [bind app].
  rewrite (last_n_short 500 h') by apply last_n_length.
  rewrite (setitem_id (JDict md') "conversation_history" (JList h'))
    by (cbn [py_getitem]; rewrite G1; reflexivity).
  cbn [bind py_getitem]. rewrite G2. cbn [bind py_get_default].
  rewrite dict_get_set_eq. cbn [bind].
  rewrite (slice_last_idem _ _ _ S10). cbn [bind py_setitem].
  rewrite dict_set_set.
  rewrite (dict_set_get_id "stats" _ md' G2). reflexivity.
Qed.

(** ** The pass over the users *)

Lemma dedup_users_lookup utcnow items :
  forall ud t users' t',
    NoDup (map fst items) ->
    dedup_users utcnow items (JDict ud) t = Ok (users', t') ->
    (forall k, In k (map fst items) -> dict_get k ud <> None) ->
    exists ud',
      users' = JDict ud'
      /\ map fst ud' = map fst ud
      /\ (forall u, ~ In u (map fst items) -> dict_get u ud' = dict_get u ud)
      /\ (forall u rec, In (u, rec) items ->
            exists rec' t1 t2,
              deduplicate_user utcnow rec t1 = Ok (rec', t2)
              /\ dict_get u ud' = Some rec').
Proof.
  induction items as [|[uname udata] rest IH]; intros ud t users' t' Hnd H Hkeys.
  - simpl in H. injection H as <- <-. exists ud.
    split; [reflexivity|]. split; [reflexivity|]. split; [reflexivity|]. intros ? ? [].
  - cbn [dedup_users] in H. bind_inv H. destruct x as [udata' t1].
    cbn beta iota in H. cbn [py_setitem bind] in H.
    inversion Hnd as [|? ? Hnot Hnd']; subst.
    assert (Hk : map fst (dict_set uname udata' ud) = map fst ud).
    { apply dict_set_keys, Hkeys. left. reflexivity. }
    destruct (IH _ _ _ _ Hnd' H) as (ud' & -> & K & U & T).
    { intros k Hin. apply dict_get_keys. rewrite Hk. apply dict_get_keys.
      apply Hkeys. right. exact Hin. }
    exists ud'. split; [reflexivity|]. split; [congruence|]. split.
    + intros u Hu. rewrite U by (intros Hin; apply Hu; right; exact Hin).
      apply dict_get_set_ne. intros ->. apply Hu. left. reflexivity.
    + intros u rec [Heq|Hin].
      * injection Heq as <- <-. exists udata', t, t1. split; [exact E|].
        rewrite U by exact Hnot. apply dict_get_set_eq.
      * apply T, Hin.
Qed.

Lemma dedup_users_on_fixpoints utcnow items :
  forall ud t,
    (forall u rec, In (u, rec) items ->
       dict_get u ud = Some rec
       /\ forall t0, deduplicate_user utcnow rec t0 = Ok (rec, t0)) ->
    dedup_users utcnow items (JDict ud) t = Ok (JDict ud, t).
Proof.
  induction items as [|[uname udata] rest IH]; intros ud t Hall; [reflexivity|].
  destruct (Hall uname udata (or_introl eq_refl)) as (Hg & Hfix).
  cbn [dedup_users]. rewrite Hfix. cbn [bind py_setitem].
  rewrite (dict_set_get_id _ _ _ Hg).
  apply IH. intros u rec Hin. apply Hall. right. exact Hin.
Qed.

Lemma plain_store_user dd ud u rec :
  plain_store (JDict dd) = true ->
  dict_get "users" dd = Some (JDict ud) ->
  In (u, rec) ud ->
  plain_user rec = true.
Proof.
  unfold plain_store, field_or. cbn [py_get_default]. intros Hp Hu Hin.
  rewrite Hu in Hp. cbn [dict_items] in Hp. rewrite forallb_forall in Hp.
  apply (Hp _ Hin).
Qed.

(** Where idempotence does hold: on the stores the app itself writes. *)
Lemma deduplicate_global_second_run
  (utcnow utcnow2 : nat -> string) (data : json) (t : nat)
  (data1 : json) (t1 t2 : nat) :
  deduplicate_global utcnow data t = Ok (data1, t1) ->
  well_formed data = true ->
  plain_store data = true ->
  deduplicate_global utcnow2 data1 t2 = Ok (data1, t2).
Proof.
  unfold deduplicate_global. intros H Hwf Hp.
  do 3 bind_inv H. destruct x1 as [users' t']. cbn beta iota in H.
  bind_inv H. injection H as <- <-.
  destruct data as [| | | | | |dd]; try discriminate.
  cbn [py_get_default] in E.
  cbn [py_setitem] in E2. injection E2 as <-.
  destruct (dict_get "users" dd) as [usersj|] eqn:Eu.
  - injection E as <-. destruct usersj as [| | | | | |ud]; try discriminate.
    injection E0 as <-.
    destruct (well_formed_dict _ Hwf) as (_ & Hsub).
    pose proof (Hsub _ _ (dict_get_In _ _ _ Eu)) as Hwfu.
    destruct (well_formed_dict _ Hwfu) as (Hnd & Hwfrec).
    destruct (dedup_users_lookup utcnow ud ud t users' t' Hnd E1) as (ud' & -> & K & _ & T).
    { intros k Hin. apply dict_get_keys, Hin. }
    cbn [py_get_default]. rewrite dict_get_set_eq. cbn [bind py_items].
    rewrite (dedup_users_on_fixpoints utcnow2 ud' ud' t2).
    + cbn [bind py_setitem]. rewrite dict_set_set. reflexivity.
    + intros u rec' Hin.
      assert (Hnd' : NoDup (map fst ud')) by (rewrite K; exact Hnd).
      pose proof (In_dict_get _ _ _ Hnd' Hin) as D2.
      split; [exact D2|].
      assert (Hk : In u (map fst ud)).
      { rewrite <- K. apply in_map_iff. exists (u, rec'). split; [reflexivity | exact Hin]. }
      apply dict_get_keys in Hk.
      destruct (dict_get u ud) as [rec|] eqn:Er; [|congruence].
      pose proof (dict_get_In _ _ _ Er) as Hin0.
      destruct (T u rec Hin0) as (rec'' & ta & tb & R & D1).
      rewrite D1 in D2. injection D2 as <-.
      intros t0. apply (deduplicate_user_fixpoint utcnow utcnow2 rec ta rec'' tb t0 R).
      * apply (Hwfrec _ _ Hin0).
      * apply (plain_store_user _ _ _ _ Hp Eu Hin0).
  - injection E as <-. injection E0 as <-. cbn [dedup_users] in E1.
    injection E1 as <- <-.
    cbn [py_get_default]. rewrite dict_get_set_eq. cbn [bind py_items dedup_users py_setitem].
    rewrite dict_set_set. reflexivity.
Qed.

(** C3. [deduplicate_global] is not idempotent.  The history key reads the
    ["ai"], ["reply"] and ["lang"] values of an entry, and the record
    built for the entry keeps none of them (the vocabulary loop, by
    contrast, writes back every field its key reads).  On [legacy_store]
    the first run keeps both entries, whose keys differ in the ["ai"]
    value; the second run finds their keys equal and drops one. *)
Theorem deduplicate_global_not_idempotent :
  exists s1 t1 s2 t2,
    deduplicate_global example_clock legacy_store 0 = Ok (s1, t1)
    /\ deduplicate_global example_clock s1 t1 = Ok (s2, t2)
    /\ history_length s1 "ana" = Ok 2%nat
    /\ history_length s2 "ana" = Ok 1%nat
    /\ s2 <> s1.
Proof.
  do 4 eexists.
  split; [vm_compute; reflexivity|].
  split; [vm_compute; reflexivity|].
  split; [reflexivity|]. split; [reflexivity|].
  intros Heq.
  assert (Hl : forall a b, a = b -> history_length a "ana" = history_length b "ana")
    by (intros a b ->; reflexivity).
  apply Hl in Heq. vm_compute in Heq. discriminate Heq.
Qed.

(** The same happens in the vocabulary when a level is read as 0: the
    record is written with level 0 and read back, by [level or 1], as
    level 1. *)
Lemma deduplicate_global_level_zero_collapses :
  exists s1 t1 s2 t2,
    deduplicate_global example_clock level_zero_store 0 = Ok (s1, t1)
    /\ deduplicate_global example_clock s1 t1 = Ok (s2, t2)
    /\ vocab_length s1 "ana" "es" = Ok 2%nat
    /\ vocab_length s2 "ana" "es" = Ok 1%nat.
Proof.
  do 4 eexists.
  split; [vm_compute; reflexivity|].
  split; [vm_compute; reflexivity|].
  split; reflexivity.
Qed.

(** ** Bounds after a save *)

(** What [deduplicate_user] does bound: the history to 500 entries, the
    recent window to 200 marks. *)
Lemma deduplicate_user_bounds utcnow mem t mem' t' :
  deduplicate_user utcnow mem t = Ok (mem', t') ->
  (exists h, py_getitem mem' "conversation_history" = Ok (JList h)
             /\ (List.length h <= 500)%nat)
  /\ (forall r, recent_of mem' = Ok (JList r) -> (List.length r <= 200)%nat).
Proof.
  intros H.
  apply deduplicate_user_steps in H
    as (cvj & items & mem1 & t1 & h & turns & unique & mem2 & stats & recent
        & recent' & stats' & S1 & S2 & S3 & S4 & S5 & S6 & S7 & S8 & S9 & S10 & S11 & S12).
  split.
  - exists (last_n 500 unique). split; [|apply last_n_length].
    rewrite (getitem_setitem_ne _ _ _ _ _ S12) by discriminate.
    apply (getitem_setitem_eq _ _ _ _ S7).
  - intros r Hr. unfold recent_of in Hr.
    rewrite (getitem_setitem_eq _ _ _ _ S12) in Hr. cbn [bind] in Hr.
    rewrite (getitem_setitem_eq _ _ _ _ S11) in Hr. injection Hr as ->.
    destruct recent; try discriminate. injection S10 as <-. apply last_n_length.
Qed.

(** C1. The recent window is not cut to 20 by a save: [deduplicate_user]
    keeps the last 200 marks, where the practice handler keeps the last
    20.  A store whose user has 21 marks is saved with all 21. *)
Theorem save_global_keeps_21_recent_marks (dump : json -> string) :
  recent_length long_recent_store "ana" = Ok 21%nat
  /\ exists data' t',
       save_global example_clock dump long_recent_store 0 = Ok (data', dump data', t')
       /\ deduplicate_global example_clock long_recent_store 0 = Ok (data', t')
       /\ recent_length data' "ana" = Ok 21%nat.
Proof.
  split; [reflexivity|].
  unfold save_global.
  assert (H : exists data' t',
             deduplicate_global example_clock long_recent_store 0 = Ok (data', t')
             /\ recent_length data' "ana" = Ok 21%nat).
  { do 2 eexists. split; [vm_compute; reflexivity | reflexivity]. }
  destruct H as (data' & t' & H1 & H2).
  exists data', t'. rewrite H1. cbn [bind]. auto.
Qed.

(** After a save of [legacy_store] the history of the user holds two
    entries whose keys, computed as [deduplicate_user] computes them, are
    equal. *)
Lemma save_leaves_equal_history_keys :
  exists data t1 users u e1 e2 k1 y1 k2 y2,
    deduplicate_global example_clock legacy_store 0 = Ok (data, t1)
    /\ py_getitem data "users" = Ok users
    /\ py_getitem users "ana" = Ok u
    /\ py_getitem u "conversation_history" = Ok (JList [e1; e2])
    /\ history_key_of u e1 = Ok (k1, y1)
    /\ history_key_of u e2 = Ok (k2, y2)
    /\ history_key_eqb k1 k2 = true.
Proof.
  do 10 eexists.
  split; [vm_compute; reflexivity|].
  split; [reflexivity|]. split; [reflexivity|]. split; [reflexivity|].
  split; [vm_compute; reflexivity|]. split; [vm_compute; reflexivity|].
  reflexivity.
Qed.

(** ** The admin merge *)

Lemma get_default_of_getitem m k x dflt :
  py_getitem m k = Ok x -> py_get_default m k dflt = Ok x.
Proof.
  destruct m; simpl; try discriminate.
  destruct (dict_get k d); [intros [= ->]; reflexivity | discriminate].
Qed.

Lemma merge_vocab_effect items :
  forall existing existing' cv,
    NoDup (map fst items) ->
    merge_vocab items existing = Ok existing' ->
    py_get_default existing "custom_vocab" (JDict []) = Ok (JDict cv) ->
    (forall f, f <> "custom_vocab" -> py_getitem existing' f = py_getitem existing f)
    /\ exists cv',
         py_get_default existing' "custom_vocab" (JDict []) = Ok (JDict cv')
         /\ (forall lang, ~ In lang (map fst items) -> dict_get lang cv' = dict_get lang cv)
         /\ (forall lang vv, In (lang, vv) items ->
               exists old new,
                 py_get_default (JDict cv) lang (JList []) = Ok (JList old)
                 /\ py_iter vv = Ok new
                 /\ dict_get lang cv' = Some (JList (old ++ new))).
Proof.
  induction items as [|[lang vv] rest IH]; intros existing existing' cv Hnd H Hcv.
  - simpl in H. injection H as <-. split; [reflexivity|].
    exists cv. split; [exact Hcv|]. split; [reflexivity|]. intros ? ? [].
  - cbn [merge_vocab] in H.
    apply bind_ok in H. destruct H as ([cvv existing1] & E & H). cbn beta iota in H.
    apply bind_ok in H. destruct H as ([vl cv1] & E0 & H). cbn beta iota in H.
    apply bind_ok in H. destruct H as (l & E1 & H).
    apply bind_ok in H. destruct H as (xs & E2 & H).
    apply bind_ok in H. destruct H as (cv2 & E3 & H).
    apply bind_ok in H. destruct H as (existing2 & E4 & H).
    inversion Hnd as [|? ? Hnot Hnd']; subst.
    apply setdefault_effect in E as (G & _ & F1 & _).
    rewrite Hcv in G. injection G as <-.
    apply setdefault_effect in E0 as (Gl & Gl1 & Fl & _).
    destruct vl as [| | | | |l0|]; try discriminate. injection E1 as <-.
    destruct cv1 as [| | | | | |cv1d]; try discriminate.
    cbn [py_setitem] in E3. injection E3 as <-.
    assert (Hcv2 : py_get_default existing2 "custom_vocab" (JDict [])
                   = Ok (JDict (dict_set lang (JList (l0 ++ xs)) cv1d))).
    { apply get_default_of_getitem. apply (getitem_setitem_eq _ _ _ _ E4). }
    destruct (IH _ _ _ Hnd' H Hcv2) as (F & cv' & C1 & C2 & C3).
    assert (Hother : forall l', l' <> lang ->
              dict_get l' (dict_set lang (JList (l0 ++ xs)) cv1d) = dict_get l' cv).
    { intros l' Hl'. rewrite dict_get_set_ne by exact Hl'.
      specialize (Fl l' Hl'). cbn [py_getitem] in Fl.
      destruct (dict_get l' cv1d), (dict_get l' cv); congruence. }
    split.
    + intros f Hf. rewrite F by exact Hf.
      rewrite (getitem_setitem_ne _ _ _ _ _ E4 Hf). apply F1, Hf.
    + exists cv'. split; [exact C1|]. split.
      * intros l' Hl'. rewrite C2 by (intros Hin; apply Hl'; right; exact Hin).
        apply Hother. intros ->. apply Hl'. left. reflexivity.
      * intros l' vv' [Heq|Hin].
        -- injection Heq as <- <-. exists l0, xs. split; [exact Gl|]. split; [exact E2|].
           rewrite C2 by exact Hnot. apply dict_get_set_eq.
        -- destruct (C3 _ _ Hin) as (old & new & O1 & O2 & O3).
           exists old, new. split; [|split; assumption].
           assert (Hne : l' <> lang).
           { intros ->. apply Hnot. apply in_map_iff. exists (lang, vv'). auto. }
           cbn [py_get_default] in *. rewrite <- (Hother l' Hne). exact O1.
Qed.

Lemma merge_existing_effect existing v existing' :
  merge_existing existing v = Ok existing' ->
  well_formed v = true ->
  (forall f, f <> "conversation_history" -> f <> "custom_vocab" ->
     py_getitem existing' f = py_getitem existing f)
  /\ (exists old more new,
        py_get_default existing "conversation_history" (JList []) = Ok (JList old)
        /\ py_get_default v "conversation_history" (JList []) = Ok more
        /\ py_iter more = Ok new
        /\ py_getitem existing' "conversation_history" = Ok (JList (old ++ new)))
  /\ (forall cv,
        py_get_default existing "custom_vocab" (JDict []) = Ok (JDict cv) ->
        exists vcv cv',
          py_get_default v "custom_vocab" (JDict []) = Ok (JDict vcv)
          /\ py_get_default existing' "custom_vocab" (JDict []) = Ok (JDict cv')
          /\ (forall lang, dict_get lang vcv = None -> dict_get lang cv' = dict_get lang cv)
          /\ (forall lang vv, dict_get lang vcv = Some vv ->
                exists old new,
                  py_get_default (JDict cv) lang (JList []) = Ok (JList old)
                  /\ py_iter vv = Ok new
                  /\ dict_get lang cv' = Some (JList (old ++ new)))).
Proof.
  unfold merge_existing. intros H Hwf.
  apply bind_ok in H. destruct H as ([h existing1] & E & H). cbn beta iota in H.
  apply bind_ok in H. destruct H as (l & E0 & H).
  apply bind_ok in H. destruct H as (more & E1 & H).
  apply bind_ok in H. destruct H as (xs & E2 & H).
  apply bind_ok in H. destruct H as (existing2 & E3 & H).
  apply bind_ok in H. destruct H as (vocab & E4 & H).
  apply bind_ok in H. destruct H as (items & E5 & H).
  apply setdefault_effect in E as (G & _ & F1 & F1').
  destruct h as [| | | | |l0|]; try discriminate. injection E0 as <-.
  destruct vocab as [| | | | | |vcv]; try discriminate. injection E5 as <-.
  assert (Hnd : NoDup (map fst vcv)).
  { destruct v as [| | | | | |vd]; try discriminate.
    cbn [py_get_default] in E4. destruct (dict_get "custom_vocab" vd) eqn:Ev.
    - injection E4 as ->. destruct (well_formed_dict _ Hwf) as (_ & Hsub).
      apply (well_formed_dict _ (Hsub _ _ (dict_get_In _ _ _ Ev))).
    - injection E4 as <-. constructor. }
  assert (Hframe : forall f, f <> "custom_vocab" ->
            py_getitem existing' f = py_getitem existing2 f).
  { destruct vcv as [|kv vcv'].
    - simpl in H. injection H as <-. reflexivity.
    - destruct kv as [lang vv]. cbn [merge_vocab] in H.
      apply bind_ok in H. destruct H as ([cvv e1] & B & H).
      assert (Hc : exists cv0, cvv = JDict cv0).
      { cbn beta iota in H. apply bind_ok in H. destruct H as ([vl c1] & B0 & _).
        destruct cvv; try discriminate. eauto. }
      destruct Hc as (cv0 & ->).
      assert (Hm : merge_vocab ((lang, vv) :: vcv') existing2 = Ok existing').
      { cbn [merge_vocab]. rewrite B. exact H. }
      apply setdefault_effect in B as (B1 & _).
      apply (merge_vocab_effect _ _ _ _ Hnd Hm B1). }
  split; [|split].
  - intros f Hf1 Hf2. rewrite Hframe by exact Hf2.
    rewrite (getitem_setitem_ne _ _ _ _ _ E3 Hf1). apply F1, Hf1.
  - exists l0, more, xs. split; [exact G|]. split; [exact E1|]. split; [exact E2|].
    rewrite Hframe by discriminate. apply (getitem_setitem_eq _ _ _ _ E3).
  - intros cv Hcv.
    assert (Hcv2 : py_get_default existing2 "custom_vocab" (JDict []) = Ok (JDict cv)).
    { rewrite (get_default_setitem_ne _ _ _ _ _ _ E3) by discriminate.
      rewrite F1' by discriminate. exact Hcv. }
    destruct (merge_vocab_effect _ _ _ _ Hnd H Hcv2) as (_ & cv' & C1 & C2 & C3).
    exists vcv, cv'. split; [exact E4|]. split; [exact C1|]. split.
    + intros lang Hl. apply C2. intros Hin. apply dict_get_keys in Hin. congruence.
    + intros lang vv Hl. apply C3, dict_get_In, Hl.
Qed.

Lemma merge_user_effect global_data k v global_data' ud :
  merge_user global_data k v = Ok global_data' ->
  py_get_default global_data "users" (JDict []) = Ok (JDict ud) ->
  exists ud',
    py_getitem global_data' "users" = Ok (JDict ud')
    /\ (forall k', k' <> k -> dict_get k' ud' = dict_get k' ud)
    /\ match dict_get k ud with
       | None => dict_get k ud' = Some v
       | Some existing =>
           exists existing',
             merge_existing existing v = Ok existing' /\ dict_get k ud' = Some existing'
       end.
Proof.
  unfold merge_user. intros H Hu. rewrite Hu in H. cbn [bind py_contains] in H.
  unfold dict_has in H. destruct (dict_get k ud) as [existing|] eqn:Ek; cbn [negb] in H.
  - apply bind_ok in H. destruct H as (us & E & H).
    assert (us = JDict ud) as ->.
    { pose proof (get_default_of_getitem _ _ _ (JDict []) E) as E'. congruence. }
    cbn [py_getitem] in H. rewrite Ek in H. cbn [bind] in H.
    apply bind_ok in H. destruct H as (existing' & E1 & H).
    cbn [py_setitem bind] in H.
    exists (dict_set k existing' ud). split; [apply (getitem_setitem_eq _ _ _ _ H)|].
    split; [intros k' Hk'; apply dict_get_set_ne, Hk'|].
    exists existing'. split; [exact E1 | apply dict_get_set_eq].
  - apply bind_ok in H. destruct H as ([us gd1] & E & H). cbn beta iota in H.
    apply setdefault_effect in E as (G & _).
    rewrite Hu in G. injection G as <-.
    cbn [py_setitem bind] in H.
    exists (dict_set k v ud). split; [apply (getitem_setitem_eq _ _ _ _ H)|].
    split; [intros k' Hk'; apply dict_get_set_ne, Hk' | apply dict_get_set_eq].
Qed.

Lemma merge_loop_effect items :
  forall global_data global_data' ud,
    NoDup (map fst items) ->
    merge_loop items global_data = Ok global_data' ->
    py_get_default global_data "users" (JDict []) = Ok (JDict ud) ->
    exists ud',
      py_get_default global_data' "users" (JDict []) = Ok (JDict ud')
      /\ (forall k, ~ In k (map fst items) -> dict_get k ud' = dict_get k ud)
      /\ (forall k v, In (k, v) items ->
            match dict_get k ud with
            | None => dict_get k ud' = Some v
            | Some existing =>
                exists existing',
                  merge_existing existing v = Ok existing' /\ dict_get k ud' = Some existing'
            end).
Proof.
  induction items as [|[k v] rest IH]; intros gd gd' ud Hnd H Hu.
  - simpl in H. injection H as <-. exists ud.
    split; [exact Hu|]. split; [reflexivity|]. intros ? ? [].
  - cbn [merge_loop] in H. apply bind_ok in H. destruct H as (gd1 & E & H).
    inversion Hnd as [|? ? Hnot Hnd']; subst.
    destruct (merge_user_effect _ _ _ _ _ E Hu) as (ud1 & U1 & U2 & U3).
    apply (get_default_of_getitem _ _ _ (JDict [])) in U1.
    destruct (IH _ _ _ Hnd' H U1) as (ud' & V1 & V2 & V3).
    exists ud'. split; [exact V1|]. split.
    + intros k' Hk'. rewrite V2 by (intros Hin; apply Hk'; right; exact Hin).
      apply U2. intros ->. apply Hk'. left. reflexivity.
    + intros k' v' [Heq|Hin].
      * injection Heq as <- <-. rewrite (V2 k Hnot). exact U3.
      * assert (Hne : k' <> k).
        { intros ->. apply Hnot. apply in_map_iff. exists (k, v'). auto. }
        specialize (V3 _ _ Hin). rewrite (U2 k' Hne) in V3. exact V3.
Qed.

(** C8. The merge of an uploaded document: a user of the document who is
    not in the store is inserted as uploaded; for a user who is, the
    uploaded history entries and the uploaded vocabulary entries of each
    language are appended to the lists of the existing record (a plain
    concatenation), and every other field of the existing record, level,
    stats, name and lang among them, is left as it was.  Users the
    document does not name are untouched. *)
Theorem merge_appends
  (global_data rd global_data' : json) (ud : list (string * json)) :
  merge global_data rd = Ok global_data' ->
  well_formed rd = true ->
  py_get_default global_data "users" (JDict []) = Ok (JDict ud) ->
  exists inc ud',
    py_get_default rd "users" rd = Ok (JDict inc)
    /\ py_get_default global_data' "users" (JDict []) = Ok (JDict ud')
    /\ (forall k, dict_get k inc = None -> dict_get k ud' = dict_get k ud)
    /\ (forall k v, dict_get k inc = Some v ->
          match dict_get k ud with
          | None => dict_get k ud' = Some v
          | Some existing =>
              exists existing',
                dict_get k ud' = Some existing'
                /\ (forall f, f <> "conversation_history" -> f <> "custom_vocab" ->
                      py_getitem existing' f = py_getitem existing f)
                /\ py_getitem existing' "level" = py_getitem existing "level"
                /\ py_getitem existing' "stats" = py_getitem existing "stats"
                /\ py_getitem existing' "name" = py_getitem existing "name"
                /\ py_getitem existing' "lang" = py_getitem existing "lang"
                /\ (forall old new,
                      py_get_default existing "conversation_history" (JList [])
                        = Ok (JList old) ->
                      py_get_default v "conversation_history" (JList []) = Ok (JList new) ->
                      py_getitem existing' "conversation_history" = Ok (JList (old ++ new)))
                /\ (forall cv vcv lang new,
                      py_get_default existing "custom_vocab" (JDict []) = Ok (JDict cv) ->
                      py_get_default v "custom_vocab" (JDict []) = Ok (JDict vcv) ->
                      dict_get lang vcv = Some (JList new) ->
                      exists cv' old,
                        py_get_default existing' "custom_vocab" (JDict []) = Ok (JDict cv')
                        /\ py_get_default (JDict cv) lang (JList []) = Ok (JList old)
                        /\ dict_get lang cv' = Some (JList (old ++ new)))
          end).
Proof.
  unfold merge. intros H Hwf Hu.
  apply bind_ok in H. destruct H as (incoming & E & H).
  apply bind_ok in H. destruct H as (items & E0 & H).
  destruct incoming as [| | | | | |inc]; try discriminate. injection E0 as <-.
  assert (Hwfi : well_formed (JDict inc) = true).
  { destruct rd as [| | | | | |rdd]; try discriminate.
    cbn [py_get_default] in E. destruct (dict_get "users" rdd) eqn:Er.
    - injection E as ->. destruct (well_formed_dict _ Hwf) as (_ & Hsub).
      apply (Hsub _ _ (dict_get_In _ _ _ Er)).
    - injection E as <-. exact Hwf. }
  destruct (well_formed_dict _ Hwfi) as (Hnd & Hwfv).
  destruct (merge_loop_effect _ _ _ _ Hnd H Hu) as (ud' & V1 & V2 & V3).
  exists inc, ud'. split; [exact E|]. split; [exact V1|]. split.
  - intros k Hk. apply V2. intros Hin. apply dict_get_keys in Hin. congruence.
  - intros k v Hk. pose proof (dict_get_In _ _ _ Hk) as Hin.
    specialize (V3 _ _ Hin). destruct (dict_get k ud) as [existing|]; [|exact V3].
    destruct V3 as (existing' & M & D).
    destruct (merge_existing_effect _ _ _ M (Hwfv _ _ Hin))
      as (F & (old0 & more & new0 & H1 & H2 & H3 & H4) & W).
    exists existing'. split; [exact D|]. split; [exact F|].
    do 4 (split; [apply F; discriminate|]).
    split.
    + intros old new Ho Hn. rewrite H1 in Ho. injection Ho as <-.
      rewrite H2 in Hn. injection Hn as ->. injection H3 as <-. exact H4.
    + intros cv vcv lang new Hcv Hvcv Hl.
      destruct (W cv Hcv) as (vcv0 & cv' & W1 & W2 & _ & W4).
      rewrite W1 in Hvcv. injection Hvcv as ->.
      destruct (W4 _ _ Hl) as (old & new0' & O1 & O2 & O3).
      injection O2 as <-. exists cv', old. auto.
Qed.

Lemma merge_appends_witness :
  merge merge_example_store merge_example_upload = Ok merge_example_after
  /\ well_formed merge_example_upload = true
  /\ exists inc ud',
       py_get_default merge_example_upload "users" merge_example_upload = Ok (JDict inc)
       /\ py_get_default merge_example_after "users" (JDict []) = Ok (JDict ud').
Proof.
  assert (H1 : merge merge_example_store merge_example_upload = Ok merge_example_after)
    by (vm_compute; reflexivity).
  assert (H2 : well_formed merge_example_upload = true) by reflexivity.
  split; [exact H1|]. split; [exact H2|].
  destruct (merge_appends _ _ _ _ H1 H2 eq_refl) as (inc & ud' & A & B & _).
  exists inc, ud'. auto.
Defined.

(* ================================================================== *)
(** * Part III: further properties of the code *)
(* ================================================================== *)

(** ** More on [normalize] *)

(** X1. Whatever the text, [normalize] returns a string that [lower]
    leaves unchanged and that neither starts nor ends with white space,
    and the result does not depend on the white space around the text. *)
Theorem normalize_lowercase_stripped (s : string) :
  lower (normalize s) = normalize s
  /\ starts_space (normalize s) = false
  /\ ends_space (normalize s) = false
  /\ normalize (strip s) = normalize s.
Proof.
  split; [apply normalize_lowercase|].
  destruct (normalize_stripped s) as (A & B).
  split; [exact A|]. split; [exact B | apply normalize_strip].
Qed.

(** The table on one character. *)
Lemma repl_get_lower c : lower_char c = c -> lower_char (repl_get c) = repl_get c.
Proof.
  destruct c as [b0 b1 b2 b3 b4 b5 b6 b7].
  destruct b0, b1, b2, b3, b4, b5, b6, b7; vm_compute; intros H;
    first [reflexivity | discriminate H].
Qed.

Lemma repl_get_idem c : repl_get (repl_get c) = repl_get c.
Proof.
  destruct c as [b0 b1 b2 b3 b4 b5 b6 b7].
  destruct b0, b1, b2, b3, b4, b5, b6, b7; reflexivity.
Qed.

Lemma repl_get_plain c : accented (repl_get c) = false.
Proof.
  destruct c as [b0 b1 b2 b3 b4 b5 b6 b7].
  destruct b0, b1, b2, b3, b4, b5, b6, b7; reflexivity.
Qed.

Lemma map_repl_lower s :
  lower s = s -> lower (map_chars repl_get s) = map_chars repl_get s.
Proof.
  unfold lower. induction s as [|c s IH]; cbn [map_chars]; [reflexivity|].
  intros H. injection H as Hc Hs. rewrite (repl_get_lower _ Hc), (IH Hs). reflexivity.
Qed.

Lemma map_repl_plain s : has_char accented (map_chars repl_get s) = false.
Proof.
  induction s as [|c s IH]; simpl; [reflexivity|].
  rewrite repl_get_plain, IH. reflexivity.
Qed.

Lemma map_repl_idem s :
  map_chars repl_get (map_chars repl_get s) = map_chars repl_get s.
Proof.
  induction s as [|c s IH]; simpl; [reflexivity|].
  rewrite repl_get_idem, IH. reflexivity.
Qed.

(** On a lowercase, stripped string [normalize] is the folding alone. *)
Lemma normalize_of_clean s :
  lower s = s -> strip s = s -> normalize s = map_chars repl_get s.
Proof.
  intros Hl Hs. rewrite normalize_unfold, (map_repl_lower _ Hl).
  rewrite <- (map_chars_strip _ isspace_repl_get), Hs. reflexivity.
Qed.

(** X2. A second pass of [normalize] completes the folding the first one
    may leave undone: the result of two passes holds no accented letter
    of the table, and no further pass changes it. *)
Theorem normalize_twice_is_fixed (s : string) :
  has_char accented (normalize (normalize s)) = false
  /\ normalize (normalize (normalize s)) = normalize (normalize s).
Proof.
  assert (H1 : normalize (normalize s) = map_chars repl_get (normalize s)).
  { apply normalize_of_clean; [apply normalize_lowercase | apply normalize_strip_fix]. }
  split.
  - rewrite H1. apply map_repl_plain.
  - rewrite (normalize_of_clean (normalize (normalize s)));
      [| apply normalize_lowercase | apply normalize_strip_fix].
    rewrite H1. apply map_repl_idem.
Qed.

(** ** The bookkeeping of a scored attempt *)

Lemma setitem_is_dict m k x m' : py_setitem m k x = Ok m' -> exists d, m' = JDict d.
Proof. destruct m; simpl; try discriminate. intros [= <-]. eauto. Qed.

Lemma getitem_is_dict m k x : py_getitem m k = Ok x -> exists d, m = JDict d.
Proof. destruct m; simpl; try discriminate. eauto. Qed.

Lemma get_default_frame m m' k dflt :
  py_getitem m' k = py_getitem m k ->
  (exists d, m = JDict d) -> (exists d, m' = JDict d) ->
  py_get_default m' k dflt = py_get_default m k dflt.
Proof.
  intros H [d ->] [d' ->]. simpl in *.
  destruct (dict_get k d'), (dict_get k d); congruence.
Qed.

Lemma incr_stat_counts m c m' :
  incr_stat m c = Ok m' ->
  (exists v v', stat_of m c = Ok v /\ py_add1 v = Ok v' /\ stat_of m' c = Ok v')
  /\ (forall k, k <> c -> stat_of m' k = stat_of m k)
  /\ (forall k, k <> "stats" -> py_getitem m' k = py_getitem m k)
  /\ (exists d, m = JDict d) /\ (exists d, m' = JDict d).
Proof.
  unfold incr_stat, stat_of. intros H.
  apply bind_ok in H. destruct H as (st & E1 & H).
  apply bind_ok in H. destruct H as (v & E2 & H).
  apply bind_ok in H. destruct H as (v' & E3 & H).
  apply bind_ok in H. destruct H as (st' & E4 & H).
  rewrite E1, (getitem_setitem_eq _ _ _ _ H). cbn [bind].
  split; [|split; [|split; [|split]]].
  - exists v, v'. split; [exact E2|]. split; [exact E3|].
    apply (getitem_setitem_eq _ _ _ _ E4).
  - intros k Hk. apply (getitem_setitem_ne _ _ _ _ _ E4 Hk).
  - intros k Hk. apply (getitem_setitem_ne _ _ _ _ _ H Hk).
  - apply (getitem_is_dict _ _ _ E1).
  - apply (setitem_is_dict _ _ _ _ H).
Qed.

Lemma add_attempt_detail clk m lang ua ca topic level t m' t' :
  add_attempt_to_vocab clk m lang ua ca topic level t = Ok (m', t') ->
  exists s cv old cv',
    lang = JStr s
    /\ py_get_default m "custom_vocab" (JDict []) = Ok (JDict cv)
    /\ py_get_default (JDict cv) s (JList []) = Ok (JList old)
    /\ py_getitem m' "custom_vocab" = Ok (JDict cv')
    /\ dict_get s cv'
       = Some (JList (old ++ [attempt_entry ua ca topic level (JStr (now_iso clk t))]))
    /\ (forall l, l <> s -> dict_get l cv' = dict_get l cv)
    /\ (exists d, m' = JDict d).
Proof.
  unfold add_attempt_to_vocab. intros H.
  apply bind_ok in H. destruct H as ([cv m1] & E1 & H).
  apply bind_ok in H. destruct H as (key & E2 & H).
  apply bind_ok in H. destruct H as ([vlist cv1] & E3 & H).
  apply bind_ok in H. destruct H as (vlist1 & E4 & H).
  apply bind_ok in H. destruct H as (cv2 & E5 & H).
  apply bind_ok in H. destruct H as (m2 & E6 & H).
  injection H as <- <-.
  destruct lang; try discriminate. injection E2 as <-.
  apply setdefault_effect in E1 as (G1 & _ & _ & _).
  pose proof E3 as E3'.
  apply setdefault_effect in E3 as (G3 & _ & F3 & _).
  destruct cv as [| | | | | |cvd]; try discriminate.
  destruct vlist; try discriminate. injection E4 as <-.
  destruct cv1 as [| | | | | |cv1d]; try discriminate.
  injection E5 as <-.
  exists s, cvd, l, (dict_set s (JList (l ++ [attempt_entry ua ca topic level (JStr (now_iso clk t))])) cv1d).
  split; [reflexivity|]. split; [exact G1|]. split; [exact G3|].
  split; [apply (getitem_setitem_eq _ _ _ _ E6)|].
  split; [apply dict_get_set_eq|]. split.
  - intros l0 Hl. rewrite dict_get_set_ne by exact Hl.
    specialize (F3 l0 Hl). simpl in F3.
    destruct (dict_get l0 cv1d), (dict_get l0 cvd); congruence.
  - apply (setitem_is_dict _ _ _ _ E6).
Qed.

Lemma push_recent_frame m c m' :
  push_recent m c = Ok m' ->
  (forall k, k <> "recent" -> stat_of m' k = stat_of m k)
  /\ (forall k, k <> "stats" -> py_getitem m' k = py_getitem m k)
  /\ (exists d, m = JDict d) /\ (exists d, m' = JDict d).
Proof.
  unfold push_recent, stat_of. intros H.
  apply bind_ok in H. destruct H as (st & E1 & H).
  apply bind_ok in H. destruct H as ([recent st1] & E2 & H).
  apply bind_ok in H. destruct H as (recent1 & E3 & H).
  apply bind_ok in H. destruct H as (st2 & E4 & H).
  apply bind_ok in H. destruct H as (recent2 & E5 & H).
  apply bind_ok in H. destruct H as (st3 & E6 & H).
  apply setdefault_effect in E2 as (_ & _ & F2 & _).
  split; [|split; [|split]].
  - intros k Hk. rewrite E1, (getitem_setitem_eq _ _ _ _ H). cbn [bind].
    rewrite (getitem_setitem_ne _ _ _ _ _ E6 Hk), (getitem_setitem_ne _ _ _ _ _ E4 Hk).
    apply F2, Hk.
  - intros k Hk. apply (getitem_setitem_ne _ _ _ _ _ H Hk).
  - apply (getitem_is_dict _ _ _ E1).
  - apply (setitem_is_dict _ _ _ _ H).
Qed.

Lemma adjust_level_frame m m' :
  adjust_level m = Ok m' ->
  (forall k, k <> "level" -> py_getitem m' k = py_getitem m k)
  /\ (exists d, m = JDict d) /\ (exists d, m' = JDict d).
Proof.
  unfold adjust_level. intros H.
  apply bind_ok in H. destruct H as (st & E1 & H).
  pose proof (getitem_is_dict _ _ _ E1) as Hd.
  assert (Hset : forall v m2, py_setitem m "level" v = Ok m2 ->
            (forall k, k <> "level" -> py_getitem m2 k = py_getitem m k)
            /\ (exists d, m = JDict d) /\ (exists d, m2 = JDict d)).
  { intros v m2 Hs. split; [|split; [exact Hd | apply (setitem_is_dict _ _ _ _ Hs)]].
    intros k Hk. apply (getitem_setitem_ne _ _ _ _ _ Hs Hk). }
  assert (Hid : (forall k, k <> "level" -> py_getitem m k = py_getitem m k)
                /\ (exists d, m = JDict d) /\ (exists d, m = JDict d)) by auto.
  apply bind_ok in H. destruct H as (recent & E2 & H).
  apply bind_ok in H. destruct H as (n & E3 & H).
  destruct (6 <=? n)%nat; [|injection H as <-; exact Hid].
  apply bind_ok in H. destruct H as (items & E4 & H).
  apply bind_ok in H. destruct H as (s & E5 & H).
  apply bind_ok in H. destruct H as (rate & E6 & H).
  apply bind_ok in H. destruct H as (up & E7 & H).
  destruct up.
  - apply bind_ok in H. destruct H as (lv & E8 & H).
    apply bind_ok in H. destruct H as (lv' & E9 & H).
    apply (Hset _ _ H).
  - apply bind_ok in H. destruct H as (down & E8 & H).
    destruct down; [|injection H as <-; exact Hid].
    apply bind_ok in H. destruct H as (lv & E9 & H).
    apply bind_ok in H. destruct H as (l & E10 & H).
    apply (Hset _ _ H).
Qed.

Lemma record_history_detail m e m' :
  record_history m e = Ok m' ->
  (forall k, k <> "conversation_history" -> py_getitem m' k = py_getitem m k)
  /\ (exists old,
        py_get_default m "conversation_history" (JList []) = Ok (JList old)
        /\ py_getitem m' "conversation_history" = Ok (JList (old ++ [e])))
  /\ (exists d, m = JDict d) /\ (exists d, m' = JDict d).
Proof.
  intros H. destruct (record_history_effect _ _ _ H) as (F & G).
  split; [exact F|]. split; [exact G|].
  unfold record_history in H.
  apply bind_ok in H. destruct H as ([h m1] & E1 & H).
  apply bind_ok in H. destruct H as (h1 & E2 & H).
  split; [|apply (setitem_is_dict _ _ _ _ H)].
  destruct m; try discriminate. eauto.
Qed.

Lemma stat_of_frame m m' k :
  py_getitem m' "stats" = py_getitem m "stats" -> stat_of m' k = stat_of m k.
Proof. unfold stat_of. intros ->. reflexivity. Qed.

(** The steps of a run of [score_attempt] that returns. *)
Lemma score_attempt_steps utcnow user_mem text item t m' t' :
  score_attempt utcnow user_mem text item t = Ok (m', t') ->
  exists tgt score m1 t1 m2 m3 prompt target rounded,
    py_get_default item "target" (JStr "") = Ok tgt
    /\ score_answer (JStr text) tgt = Ok score
    /\ (if is_correct score then m <- incr_stat user_mem "correct" ;; Ok (m, t)
        else
          m <- incr_stat user_mem "wrong" ;;
          lang <- py_get_default m "lang" (JStr "es") ;;
          topic <- py_get_default item "topic" (JStr "misc") ;;
          level <- py_get_default m "level" (JInt 1) ;;
          add_attempt_to_vocab utcnow m lang (JStr text) tgt topic level t) = Ok (m1, t1)
    /\ push_recent m1 (is_correct score) = Ok m2
    /\ adjust_level m2 = Ok m3
    /\ py_get item "native" = Ok prompt
    /\ py_get item "target" = Ok target
    /\ py_round2 score = Ok rounded
    /\ record_history m3
         (history_entry (JStr (now_iso utcnow t1)) prompt text target (JFloat rounded)) = Ok m'
    /\ t' = S t1.
Proof.
  unfold score_attempt. intros H.
  apply bind_ok in H. destruct H as (tgt & E1 & H).
  apply bind_ok in H. destruct H as (score & E2 & H).
  apply bind_ok in H. destruct H as ([m1 t1] & E3 & H).
  apply bind_ok in H. destruct H as (m2 & E4 & H).
  apply bind_ok in H. destruct H as (m3 & E5 & H).
  apply bind_ok in H. destruct H as (prompt & E6 & H).
  apply bind_ok in H. destruct H as (target & E7 & H).
  apply bind_ok in H. destruct H as (rounded & E8 & H).
  apply bind_ok in H. destruct H as (m4 & E9 & H).
  injection H as <- <-.
  exists tgt, score, m1, t1, m2, m3, prompt, target, rounded.
  repeat (split; [assumption|]). reflexivity.
Qed.

(** X3. A scored attempt counts the answer once: the counter [correct]
    goes up by one when the score reaches 0.65 and the counter [wrong]
    when it does not; the other counter, the name and the language of the
    record stay as they were. *)
Theorem score_attempt_counts_once
  (utcnow : nat -> string) (user_mem : json) (text : string) (item : json)
  (t : nat) (m' : json) (t' : nat) :
  score_attempt utcnow user_mem text item t = Ok (m', t') ->
  exists tgt score,
    py_get_default item "target" (JStr "") = Ok tgt
    /\ score_answer (JStr text) tgt = Ok score
    /\ let counted := if is_correct score then "correct" else "wrong" in
       (exists v v',
          stat_of user_mem counted = Ok v /\ py_add1 v = Ok v'
          /\ stat_of m' counted = Ok v')
       /\ (forall k, k <> counted -> k <> "recent" -> stat_of m' k = stat_of user_mem k)
       /\ (forall k, k <> "stats" -> k <> "level" -> k <> "custom_vocab" ->
             k <> "conversation_history" -> py_getitem m' k = py_getitem user_mem k).
Proof.
  intros H.
  destruct (score_attempt_steps _ _ _ _ _ _ _ H)
    as (tgt & score & m1 & t1 & m2 & m3 & prompt & target & rounded
        & S1 & S2 & S3 & S4 & S5 & S6 & S7 & S8 & S9 & S10).
  exists tgt, score. split; [exact S1|]. split; [exact S2|]. cbv zeta.
  destruct (push_recent_frame _ _ _ S4) as (P1 & P2 & _).
  destruct (adjust_level_frame _ _ S5) as (A1 & _).
  destruct (record_history_detail _ _ _ S9) as (R1 & _).
  assert (Late : forall k, k <> "recent" -> stat_of m' k = stat_of m1 k).
  { intros k Hk. rewrite (stat_of_frame m3 m') by (apply R1; discriminate).
    rewrite (stat_of_frame m2 m3) by (apply A1; discriminate). apply P1, Hk. }
  assert (LateF : forall k, k <> "stats" -> k <> "level" -> k <> "conversation_history" ->
                    py_getitem m' k = py_getitem m1 k).
  { intros k K1 K2 K3. rewrite R1, A1, P2 by assumption. reflexivity. }
  destruct (is_correct score).
  - apply bind_ok in S3. destruct S3 as (m & I & S3). injection S3 as <- <-.
    destruct (incr_stat_counts _ _ _ I) as ((v & v' & C1 & C2 & C3) & C4 & C5 & _).
    split; [|split].
    + exists v, v'. split; [exact C1|]. split; [exact C2|].
      rewrite Late by discriminate. exact C3.
    + intros k K1 K2. rewrite Late by exact K2. apply C4, K1.
    + intros k K1 K2 K3 K4. rewrite LateF by assumption. apply C5, K1.
  - apply bind_ok in S3. destruct S3 as (m & I & S3).
    apply bind_ok in S3. destruct S3 as (lang & L1 & S3).
    apply bind_ok in S3. destruct S3 as (topic & L2 & S3).
    apply bind_ok in S3. destruct S3 as (level & L3 & S3).
    destruct (incr_stat_counts _ _ _ I) as ((v & v' & C1 & C2 & C3) & C4 & C5 & _).
    apply add_attempt_effect in S3 as (_ & F & _).
    split; [|split].
    + exists v, v'. split; [exact C1|]. split; [exact C2|].
      rewrite Late by discriminate.
      rewrite (stat_of_frame m m1) by (apply F; discriminate). exact C3.
    + intros k K1 K2. rewrite Late by exact K2.
      rewrite (stat_of_frame m m1) by (apply F; discriminate). apply C4, K1.
    + intros k K1 K2 K3 K4. rewrite LateF by assumption.
      rewrite F by exact K3. apply C5, K1.
Qed.

Lemma score_attempt_counts_once_witness :
  exists m' t',
    score_attempt example_clock (user_with [] 1) "adios" seed_hola 0 = Ok (m', t')
    /\ stat_of m' "wrong" = Ok (JInt 1)
    /\ stat_of m' "correct" = Ok (JInt 0).
Proof.
  assert (H : exists m' t',
            score_attempt example_clock (user_with [] 1) "adios" seed_hola 0 = Ok (m', t')).
  { do 2 eexists. vm_compute. reflexivity. }
  destruct H as (m' & t' & H). exists m', t'. split; [exact H|].
  destruct (score_attempt_counts_once _ _ _ _ _ _ _ H)
    as (tgt & score & T & S & (v & v' & C1 & C2 & C3) & F & _).
  injection T as <-.
  assert (Sc : is_correct score = false).
  { vm_compute in S. injection S as <-. reflexivity. }
  rewrite Sc in *.
  split.
  - rewrite C3. vm_compute in C1. injection C1 as <-. simpl in C2. symmetry. exact C2.
  - rewrite F by discriminate. reflexivity.
Defined.

(** X4. A wrong answer is recorded for review, a right one is not: when
    the score is below 0.65 the record [{native: answer, target: target
    of the prompt, topic: topic of the prompt or "misc", level: level of
    the user before any adjustment, last_used: now}] is appended to the
    vocabulary list of the user's language (created when missing), and
    the lists of the other languages are untouched; when the score
    reaches 0.65 the vocabulary is left as it was. *)
Theorem score_attempt_records_mistakes_only
  (utcnow : nat -> string) (user_mem : json) (text : string) (item : json)
  (t : nat) (m' : json) (t' : nat) :
  score_attempt utcnow user_mem text item t = Ok (m', t') ->
  exists tgt score,
    py_get_default item "target" (JStr "") = Ok tgt
    /\ score_answer (JStr text) tgt = Ok score
    /\ if is_correct score
       then py_getitem m' "custom_vocab" = py_getitem user_mem "custom_vocab"
       else exists lang cv old topic level cv',
              py_get_default user_mem "lang" (JStr "es") = Ok (JStr lang)
              /\ py_get_default user_mem "custom_vocab" (JDict []) = Ok (JDict cv)
              /\ py_get_default (JDict cv) lang (JList []) = Ok (JList old)
              /\ py_get_default item "topic" (JStr "misc") = Ok topic
              /\ py_get_default user_mem "level" (JInt 1) = Ok level
              /\ py_getitem m' "custom_vocab" = Ok (JDict cv')
              /\ dict_get lang cv'
                 = Some (JList (old ++ [attempt_entry (JStr text) tgt topic level
                                          (JStr (now_iso utcnow t))]))
              /\ (forall l, l <> lang -> dict_get l cv' = dict_get l cv).
Proof.
  intros H.
  destruct (score_attempt_steps _ _ _ _ _ _ _ H)
    as (tgt & score & m1 & t1 & m2 & m3 & prompt & target & rounded
        & S1 & S2 & S3 & S4 & S5 & S6 & S7 & S8 & S9 & S10).
  exists tgt, score. split; [exact S1|]. split; [exact S2|].
  destruct (push_recent_frame _ _ _ S4) as (_ & P2 & _).
  destruct (adjust_level_frame _ _ S5) as (A1 & _).
  destruct (record_history_detail _ _ _ S9) as (R1 & _).
  assert (Late : py_getitem m' "custom_vocab" = py_getitem m1 "custom_vocab").
  { rewrite R1, A1, P2 by discriminate. reflexivity. }
  destruct (is_correct score).
  - apply bind_ok in S3. destruct S3 as (m & I & S3). injection S3 as <- <-.
    destruct (incr_stat_counts _ _ _ I) as (_ & _ & C5 & _).
    rewrite Late. apply C5. discriminate.
  - apply bind_ok in S3. destruct S3 as (m & I & S3).
    apply bind_ok in S3. destruct S3 as (lang & L1 & S3).
    apply bind_ok in S3. destruct S3 as (topic & L2 & S3).
    apply bind_ok in S3. destruct S3 as (level & L3 & S3).
    destruct (incr_stat_counts _ _ _ I) as (_ & _ & C5 & D0 & D1).
    assert (G : forall k d, k <> "stats" ->
              py_get_default m k d = py_get_default user_mem k d).
    { intros k d Hk. apply get_default_frame; [apply C5, Hk | exact D0 | exact D1]. }
    destruct (add_attempt_detail _ _ _ _ _ _ _ _ _ _ S3)
      as (s & cv & old & cv' & -> & V1 & V2 & V3 & V4 & V5 & _).
    exists s, cv, old, topic, level, cv'.
    split; [rewrite <- G by discriminate; exact L1|].
    split; [rewrite <- G by discriminate; exact V1|].
    split; [exact V2|]. split; [exact L2|].
    split; [rewrite <- G by discriminate; exact L3|].
    split; [rewrite Late; exact V3|]. split; [exact V4 | exact V5].
Qed.

Lemma score_attempt_records_mistakes_only_witness :
  exists m' t',
    score_attempt example_clock (user_with [] 1) "adios" seed_hola 0 = Ok (m', t')
    /\ exists cv' e, py_getitem m' "custom_vocab" = Ok (JDict cv')
                     /\ dict_get "es" cv' = Some (JList [e]).
Proof.
  assert (H : exists m' t',
            score_attempt example_clock (user_with [] 1) "adios" seed_hola 0 = Ok (m', t')).
  { do 2 eexists. vm_compute. reflexivity. }
  destruct H as (m' & t' & H). exists m', t'. split; [exact H|].
  destruct (score_attempt_records_mistakes_only _ _ _ _ _ _ _ H)
    as (tgt & score & T & S & R).
  injection T as <-.
  assert (Sc : is_correct score = false).
  { vm_compute in S. injection S as <-. reflexivity. }
  rewrite Sc in R.
  destruct R as (lang & cv & old & topic & level & cv' & R1 & R2 & R3 & R4 & R5 & R6 & R7 & _).
  injection R1 as <-. injection R2 as <-. injection R3 as <-.
  exists cv'. eexists. split; [exact R6 | exact R7].
Defined.

(** The history after an attempt, from the history before it. *)
Lemma score_attempt_history
  (utcnow : nat -> string) (user_mem : json) (text : string) (item : json)
  (t : nat) (m' : json) (t' : nat) :
  score_attempt utcnow user_mem text item t = Ok (m', t') ->
  exists tgt score rounded prompt target old,
    py_get_default item "target" (JStr "") = Ok tgt
    /\ score_answer (JStr text) tgt = Ok score
    /\ py_round2 score = Ok rounded
    /\ py_get item "native" = Ok prompt
    /\ py_get item "target" = Ok target
    /\ py_get_default user_mem "conversation_history" (JList []) = Ok (JList old)
    /\ let t1 := if is_correct score then t else S t in
       t' = S t1
       /\ py_getitem m' "conversation_history"
          = Ok (JList (old ++ [history_entry (JStr (now_iso utcnow t1))
                                 prompt text target (JFloat rounded)])).
Proof.
  intros H.
  destruct (score_attempt_steps _ _ _ _ _ _ _ H)
    as (tgt & score & m1 & t1 & m2 & m3 & prompt & target & rounded
        & S1 & S2 & S3 & S4 & S5 & S6 & S7 & S8 & S9 & S10).
  destruct (push_recent_frame _ _ _ S4) as (_ & P2 & D1 & D2).
  destruct (adjust_level_frame _ _ S5) as (A1 & _ & D3).
  destruct (record_history_detail _ _ _ S9) as (_ & (old & R1 & R2) & _).
  exists tgt, score, rounded, prompt, target, old.
  split; [exact S1|]. split; [exact S2|]. split; [exact S8|].
  split; [exact S6|]. split; [exact S7|].
  assert (G3 : py_get_default m1 "conversation_history" (JList []) = Ok (JList old)).
  { rewrite <- R1. symmetry.
    rewrite (get_default_frame m2 m3) by (try apply A1; try discriminate; assumption).
    apply get_default_frame; [apply P2; discriminate | exact D1 | exact D2]. }
  subst t'.
  assert (G : py_get_default user_mem "conversation_history" (JList []) = Ok (JList old)
              /\ t1 = (if is_correct score then t else S t)).
  { destruct (is_correct score).
    - apply bind_ok in S3. destruct S3 as (m & I & S3). injection S3 as <- <-.
      destruct (incr_stat_counts _ _ _ I) as (_ & _ & C5 & D0 & D0').
      split; [|reflexivity]. rewrite <- G3. symmetry.
      apply get_default_frame; [apply C5; discriminate | exact D0 | exact D0'].
    - apply bind_ok in S3. destruct S3 as (m & I & S3).
      apply bind_ok in S3. destruct S3 as (lang & L1 & S3).
      apply bind_ok in S3. destruct S3 as (topic & L2 & S3).
      apply bind_ok in S3. destruct S3 as (level & L3 & S3).
      destruct (incr_stat_counts _ _ _ I) as (_ & _ & C5 & D0 & D0').
      destruct (add_attempt_effect _ _ _ _ _ _ _ _ _ _ S3) as (-> & _ & F).
      split; [|reflexivity]. rewrite <- G3, (F _ _) by discriminate. symmetry.
      apply get_default_frame; [apply C5; discriminate | exact D0 | exact D0']. }
  destruct G as (G1 & ->).
  split; [exact G1|]. cbv zeta. split; [reflexivity | exact R2].
Qed.

(** X5. A scored attempt appends one record to the history of the user:
    [{when: now, prompt: native text of the prompt, your: the answer,
    target: target of the prompt as stored, score: round(score, 2)}].
    The timestamp is read after that of a recorded mistake, so the clock
    is read once for a right answer and twice for a wrong one. *)
Theorem score_attempt_appends_history
  (utcnow : nat -> string) (user_mem : json) (text : string) (item : json)
  (t : nat) (m' : json) (t' : nat) :
  score_attempt utcnow user_mem text item t = Ok (m', t') ->
  exists tgt score rounded prompt target old,
    py_get_default item "target" (JStr "") = Ok tgt
    /\ score_answer (JStr text) tgt = Ok score
    /\ py_round2 score = Ok rounded
    /\ py_get item "native" = Ok prompt
    /\ py_get item "target" = Ok target
    /\ py_get_default user_mem "conversation_history" (JList []) = Ok (JList old)
    /\ let t1 := if is_correct score then t else S t in
       t' = S t1
       /\ py_getitem m' "conversation_history"
          = Ok (JList (old ++ [history_entry (JStr (now_iso utcnow t1))
                                 prompt text target (JFloat rounded)])).
Proof. exact (score_attempt_history utcnow user_mem text item t m' t'). Qed.

Lemma score_attempt_appends_history_witness :
  exists m' t',
    score_attempt example_clock (user_with [] 1) "adios" seed_hola 0 = Ok (m', t')
    /\ t' = 2%nat
    /\ exists e, py_getitem m' "conversation_history" = Ok (JList [e]).
Proof.
  assert (H : exists m' t',
            score_attempt example_clock (user_with [] 1) "adios" seed_hola 0 = Ok (m', t')).
  { do 2 eexists. vm_compute. reflexivity. }
  destruct H as (m' & t' & H). exists m', t'. split; [exact H|].
  destruct (score_attempt_appends_history _ _ _ _ _ _ _ H)
    as (tgt & score & rounded & prompt & target & old & T & S & _ & _ & _ & O & R).
  injection T as <-.
  assert (Sc : is_correct score = false).
  { vm_compute in S. injection S as <-. reflexivity. }
  rewrite Sc in R. cbv zeta in R. destruct R as (Ht & R). injection O as <-.
  split; [exact Ht|]. eexists. exact R.
Defined.

(** ** What [deduplicate_user] touches *)

Lemma get_setitem_ne m k k' x m' :
  py_setitem m k' x = Ok m' -> k <> k' -> py_get m' k = py_get m k.
Proof.
  destruct m; simpl; try discriminate. intros [= <-] Hne. simpl.
  rewrite dict_get_set_ne by exact Hne. reflexivity.
Qed.

Lemma vocab_pass_frame utcnow items :
  forall mem t mem' t',
    vocab_pass utcnow items mem t = Ok (mem', t') ->
    (forall k, k <> "custom_vocab" -> py_getitem mem' k = py_getitem mem k)
    /\ (forall k, k <> "custom_vocab" -> py_get mem' k = py_get mem k)
    /\ (forall k d, k <> "custom_vocab" ->
          py_get_default mem' k d = py_get_default mem k d).
Proof.
  induction items as [|[lang vlist] rest IH]; intros mem t mem' t' H.
  - simpl in H. injection H as <- <-. auto.
  - cbn [vocab_pass] in H.
    apply bind_ok in H. destruct H as (its & E1 & H).
    apply bind_ok in H. destruct H as ([unique t1] & E2 & H).
    apply bind_ok in H. destruct H as (cv & E3 & H).
    apply bind_ok in H. destruct H as (cv' & E4 & H).
    apply bind_ok in H. destruct H as (mem1 & E5 & H).
    destruct (IH _ _ _ _ H) as (F1 & F2 & F3).
    split; [|split].
    + intros k Hk. rewrite F1 by exact Hk. apply (getitem_setitem_ne _ _ _ _ _ E5 Hk).
    + intros k Hk. rewrite F2 by exact Hk. apply (get_setitem_ne _ _ _ _ _ E5 Hk).
    + intros k d Hk. rewrite F3 by exact Hk.
      apply (get_default_setitem_ne _ _ _ _ _ _ E5 Hk).
Qed.

(** X6. [deduplicate_user] rewrites the vocabulary, the history and the
    recent window of a record and nothing else: every other field of the
    record (name, language, level among them) and every other entry of
    its [stats] (the counters [correct] and [wrong] among them) is
    returned as it was. *)
Theorem deduplicate_user_keeps_other_fields
  (utcnow : nat -> string) (mem : json) (t : nat) (mem' : json) (t' : nat) :
  deduplicate_user utcnow mem t = Ok (mem', t') ->
  (forall k, k <> "custom_vocab" -> k <> "conversation_history" -> k <> "stats" ->
     py_getitem mem' k = py_getitem mem k)
  /\ (forall c, c <> "recent" -> stat_of mem' c = stat_of mem c).
Proof.
  intros H.
  apply deduplicate_user_steps in H
    as (cvj & items & mem1 & t1 & h & turns & unique & mem2 & stats & recent
        & recent' & stats' & S1 & S2 & S3 & S4 & S5 & S6 & S7 & S8 & S9 & S10 & S11 & S12).
  destruct (vocab_pass_frame _ _ _ _ _ _ S3) as (F1 & _ & _).
  split.
  - intros k K1 K2 K3.
    rewrite (getitem_setitem_ne _ _ _ _ _ S12 K3), (getitem_setitem_ne _ _ _ _ _ S7 K2).
    apply F1, K1.
  - intros c Hc. unfold stat_of.
    rewrite (getitem_setitem_eq _ _ _ _ S12). cbn [bind].
    rewrite (getitem_setitem_ne _ _ _ _ _ S11 Hc).
    rewrite <- F1 by discriminate.
    rewrite <- (getitem_setitem_ne _ "stats" _ _ _ S7) by discriminate.
    rewrite S8. reflexivity.
Qed.

Lemma deduplicate_user_keeps_other_fields_witness :
  exists mem' t',
    deduplicate_user example_clock (user_with [JInt 1; JInt 0] 2) 0 = Ok (mem', t')
    /\ py_getitem mem' "level" = Ok (JInt 2)
    /\ stat_of mem' "correct" = Ok (JInt 0).
Proof.
  assert (H : exists mem' t',
            deduplicate_user example_clock (user_with [JInt 1; JInt 0] 2) 0 = Ok (mem', t')).
  { do 2 eexists. vm_compute. reflexivity. }
  destruct H as (mem' & t' & H). exists mem', t'. split; [exact H|].
  destruct (deduplicate_user_keeps_other_fields _ _ _ _ _ H) as (F1 & F2).
  split; [rewrite F1 by discriminate | rewrite F2 by discriminate]; reflexivity.
Defined.

(** ** A record without [stats] *)

Lemma deduplicate_user_reads_stats utcnow mem t mem' t' :
  deduplicate_user utcnow mem t = Ok (mem', t') ->
  exists st, py_getitem mem "stats" = Ok (JDict st).
Proof.
  intros H.
  apply deduplicate_user_steps in H
    as (cvj & items & mem1 & t1 & h & turns & unique & mem2 & stats & recent
        & recent' & stats' & S1 & S2 & S3 & S4 & S5 & S6 & S7 & S8 & S9 & S10 & S11 & S12).
  destruct (vocab_pass_frame _ _ _ _ _ _ S3) as (F1 & _ & _).
  destruct stats as [| | | | | |st]; try discriminate.
  exists st. rewrite <- F1 by discriminate.
  rewrite <- (getitem_setitem_ne _ "stats" _ _ _ S7) by discriminate. exact S8.
Qed.

Lemma dedup_users_all_ok utcnow items :
  forall users t users' t',
    dedup_users utcnow items users t = Ok (users', t') ->
    forall u rec, In (u, rec) items ->
      exists t1 rec' t2, deduplicate_user utcnow rec t1 = Ok (rec', t2).
Proof.
  induction items as [|[uname udata] rest IH]; intros users t users' t' H u rec Hin.
  - destruct Hin.
  - cbn [dedup_users] in H.
    apply bind_ok in H. destruct H as ([udata' t1] & E1 & H).
    apply bind_ok in H. destruct H as (users1 & E2 & H).
    destruct Hin as [Heq|Hin].
    + injection Heq as <- <-. eauto.
    + apply (IH _ _ _ _ H _ _ Hin).
Qed.

(** X7. A record without a [stats] object stops both paths that write
    it: [save_global] raises whenever some user of the store has such a
    record, whatever the other records are, and [score_attempt] raises on
    such a record.  (A user imported by the merge, or a document of an
    older shape that [load_global] has wrapped, can be of this kind.) *)
Theorem record_without_stats_cannot_be_saved
  (utcnow : nat -> string) (dump : json -> string)
  (dd ud rd : list (string * json)) (u : string) (t : nat) :
  dict_get "users" dd = Some (JDict ud) ->
  In (u, JDict rd) ud ->
  dict_get "stats" rd = None ->
  is_ok (save_global utcnow dump (JDict dd) t) = false
  /\ forall text item, is_ok (score_attempt utcnow (JDict rd) text item t) = false.
Proof.
  intros Hu Hin Hs. split.
  - destruct (save_global utcnow dump (JDict dd) t) as [[[data' file] t']|e] eqn:E;
      [|reflexivity].
    exfalso. unfold save_global in E.
    apply bind_ok in E. destruct E as ([data1 t1] & D & _).
    unfold deduplicate_global in D. cbn [py_get_default] in D. rewrite Hu in D.
    cbn [bind py_items] in D.
    apply bind_ok in D. destruct D as ([users' t2] & D & _).
    destruct (dedup_users_all_ok _ _ _ _ _ _ D _ _ Hin) as (ta & rec' & tb & R).
    apply deduplicate_user_reads_stats in R as (st & R).
    cbn [py_getitem] in R. rewrite Hs in R. discriminate.
  - intros text item.
    destruct (score_attempt utcnow (JDict rd) text item t) as [[m' t']|e] eqn:E;
      [|reflexivity].
    exfalso.
    destruct (score_attempt_steps _ _ _ _ _ _ _ E)
      as (tgt & score & m1 & t1 & m2 & m3 & prompt & target & rounded
          & S1 & S2 & S3 & _).
    assert (I : exists c m, incr_stat (JDict rd) c = Ok m).
    { destruct (is_correct score);
        apply bind_ok in S3; destruct S3 as (m & I & _); eauto. }
    destruct I as (c & m & I). unfold incr_stat in I. cbn [py_getitem] in I.
    rewrite Hs in I. discriminate.
Qed.

Lemma record_without_stats_cannot_be_saved_witness :
  is_ok (save_global example_clock one_document_dump wrapped_legacy_store 0) = false.
Proof.
  apply (record_without_stats_cannot_be_saved example_clock one_document_dump
           [("users", JDict [("x", JDict [])])] [("x", JDict [])] [] "x" 0%nat).
  - reflexivity.
  - left. reflexivity.
  - reflexivity.
Defined.

(** ** The history loop *)

Lemma history_key_of_frame mem mem' turn :
  py_get mem' "lang" = py_get mem "lang" ->
  history_key_of mem' turn = history_key_of mem turn.
Proof. intros H. unfold history_key_of. rewrite H. reflexivity. Qed.

Lemma same_history_key_frame mem mem' a b :
  py_get mem' "lang" = py_get mem "lang" ->
  same_history_key mem' a b = same_history_key mem a b.
Proof.
  intros H. unfold same_history_key, history_key_at.
  rewrite !(history_key_of_frame _ _ _ H). reflexivity.
Qed.

Lemma history_survivors_frame mem mem' turns :
  py_get mem' "lang" = py_get mem "lang" ->
  forall kept, history_survivors mem' kept turns = history_survivors mem kept turns.
Proof.
  intros H. induction turns as [|turn rest IH]; intros kept; simpl; [reflexivity|].
  assert (E : existsb (same_history_key mem' turn) kept
              = existsb (same_history_key mem turn) kept).
  { clear IH. induction kept as [|e kept IHk]; simpl; [reflexivity|].
    rewrite IHk, (same_history_key_frame _ _ _ _ H). reflexivity. }
  rewrite E, !IH. reflexivity.
Qed.

Lemma key_in_kept mem turn key u seen kept :
  history_key_of mem turn = Ok (key, u) ->
  Forall2 (fun k e => history_key_at mem e = Some k) seen kept ->
  key_in history_key_eqb key seen = existsb (same_history_key mem turn) kept.
Proof.
  intros Hk F. unfold key_in. induction F as [|k e seen kept Hke F IH]; [reflexivity|].
  cbn [existsb]. rewrite IH. f_equal.
  unfold same_history_key, history_key_at at 1. rewrite Hk, Hke. reflexivity.
Qed.

Lemma history_loop_survivors utcnow mem turns :
  forall seen kept unique t out t',
    history_loop utcnow mem turns seen unique t = Ok (out, t') ->
    Forall2 (fun k e => history_key_at mem e = Some k) seen kept ->
    exists news,
      out = (unique ++ news)%list
      /\ Forall2 (history_rebuilt_from utcnow) (history_survivors mem kept turns) news.
Proof.
  induction turns as [|turn rest IH]; intros seen kept unique t out t' H F.
  - simpl in H. injection H as <- <-. exists []. rewrite app_nil_r. split; constructor.
  - cbn [history_loop] in H.
    apply bind_ok in H. destruct H as ([key u] & E & H).
    cbn [history_survivors]. rewrite <- (key_in_kept _ _ _ _ _ _ E F).
    destruct (key_in history_key_eqb key seen).
    + apply (IH _ _ _ _ _ _ H F).
    + apply bind_ok in H. destruct H as (w0 & W & H).
      destruct (or_now utcnow w0 t) as [w t1] eqn:Eo.
      apply bind_ok in H. destruct H as (p0 & P & H).
      apply bind_ok in H. destruct H as (g0 & G & H).
      apply bind_ok in H. destruct H as (s0 & S & H).
      assert (F' : Forall2 (fun k e => history_key_at mem e = Some k)
                     (key :: seen) (turn :: kept)).
      { constructor; [|exact F]. unfold history_key_at. rewrite E. reflexivity. }
      destruct (IH _ _ _ _ _ _ H F') as (news & -> & R).
      eexists. split; [rewrite <- app_assoc; reflexivity|].
      constructor; [|exact R].
      unfold history_key_of in E.
      apply bind_ok in E. destruct E as (u0 & U0 & E).
      apply bind_ok in E. destruct E as (u1 & U1 & E).
      apply bind_ok in E. destruct E as (u' & U & E).
      apply bind_ok in E. destruct E as (a0 & A0 & E).
      apply bind_ok in E. destruct E as (a1 & A1 & E).
      apply bind_ok in E. destruct E as (a & A & E).
      apply bind_ok in E. destruct E as (l0 & L0 & E).
      apply bind_ok in E. destruct E as (l & L & E).
      apply bind_ok in E. destruct E as (un & Hh & E).
      injection E as _ <-.
      exists u0, u1, u', w0, p0, g0, s0, t.
      rewrite Eo. cbn [fst]. repeat (split; [assumption|]). reflexivity.
Qed.

Lemma history_survivors_subseq mem turns :
  forall kept, subseq (history_survivors mem kept turns) turns.
Proof.
  induction turns as [|turn rest IH]; intros kept; simpl; [constructor|].
  destruct (existsb (same_history_key mem turn) kept); constructor; apply IH.
Qed.

Lemma history_survivors_fresh mem turns :
  forall kept s,
    In s (history_survivors mem kept turns) ->
    existsb (same_history_key mem s) kept = false.
Proof.
  induction turns as [|turn rest IH]; intros kept s Hin; simpl in Hin; [destruct Hin|].
  destruct (existsb (same_history_key mem turn) kept) eqn:E.
  - apply (IH _ _ Hin).
  - destruct Hin as [<-|Hin]; [exact E|].
    specialize (IH _ _ Hin). cbn [existsb] in IH.
    apply orb_false_iff in IH. apply IH.
Qed.

Lemma history_survivors_distinct mem turns :
  forall kept,
    ForallOrdPairs (fun old new => same_history_key mem new old = false)
      (history_survivors mem kept turns).
Proof.
  induction turns as [|turn rest IH]; intros kept; simpl; [constructor|].
  destruct (existsb (same_history_key mem turn) kept); [apply IH|].
  constructor; [|apply IH].
  apply Forall_forall. intros s Hin.
  pose proof (history_survivors_fresh _ _ _ _ Hin) as Hf. cbn [existsb] in Hf.
  apply orb_false_iff in Hf. apply Hf.
Qed.

Lemma history_survivors_cover mem turns :
  forall kept turn,
    In turn turns ->
    In turn (history_survivors mem kept turns)
    \/ exists s, In s (kept ++ history_survivors mem kept turns)%list
                 /\ same_history_key mem turn s = true.
Proof.
  induction turns as [|turn0 rest IH]; intros kept turn Hin; [destruct Hin|].
  cbn [history_survivors].
  destruct (existsb (same_history_key mem turn0) kept) eqn:E.
  - destruct Hin as [<-|Hin].
    + right. apply existsb_exists in E as (s & Hs & Hk).
      exists s. split; [apply in_or_app; left; exact Hs | exact Hk].
    + apply (IH kept _ Hin).
  - destruct Hin as [<-|Hin]; [left; left; reflexivity|].
    destruct (IH (turn0 :: kept) _ Hin) as [H|(s & Hs & Hk)].
    + left. right. exact H.
    + right. exists s. split; [|exact Hk].
      apply in_or_app. cbn [app] in Hs. destruct Hs as [<-|Hs].
      * right. left. reflexivity.
      * apply in_app_or in Hs as [Hs|Hs]; [left; exact Hs | right; right; exact Hs].
Qed.

(** The history of a deduplicated record, from the history it had. *)
Lemma deduplicate_user_history utcnow mem t mem' t' turns :
  deduplicate_user utcnow mem t = Ok (mem', t') ->
  py_get_default mem "conversation_history" (JList []) = Ok (JList turns) ->
  exists news,
    py_getitem mem' "conversation_history" = Ok (JList (last_n 500 news))
    /\ Forall2 (history_rebuilt_from utcnow) (history_survivors mem [] turns) news.
Proof.
  intros H Hh.
  apply deduplicate_user_steps in H
    as (cvj & items & mem1 & t1 & h & turns0 & unique & mem2 & stats & recent
        & recent' & stats' & S1 & S2 & S3 & S4 & S5 & S6 & S7 & S8 & S9 & S10 & S11 & S12).
  destruct (vocab_pass_frame _ _ _ _ _ _ S3) as (_ & F2 & F3).
  rewrite F3, Hh in S4 by discriminate. injection S4 as <-.
  cbn [py_iter] in S5. injection S5 as <-.
  assert (Hl : py_get mem1 "lang" = py_get mem "lang") by (apply F2; discriminate).
  destruct (history_loop_survivors _ _ _ _ _ _ _ _ _ S6 (Forall2_nil _))
    as (news & -> & R).
  rewrite (history_survivors_frame _ _ _ Hl) in R. cbn [app].
  exists news. split; [|exact R].
  rewrite (getitem_setitem_ne _ _ _ _ _ S12) by discriminate.
  apply (getitem_setitem_eq _ _ _ _ S7).
Qed.

(** X8. The history of a deduplicated record is the last 500 of the
    records rebuilt, in order, from the entries the loop keeps.  No two
    kept entries have keys the loop finds equal; every entry of the
    original history is kept or has a key equal to that of a kept entry;
    the kept entries stand in their original order.  The loop compares
    keys as [key in seen] does, so that two entries in the NaN language
    of a document have equal keys. *)
Theorem deduplicate_user_history_one_per_key
  (utcnow : nat -> string) (mem : json) (t : nat) (mem' : json) (t' : nat)
  (turns : list json) :
  deduplicate_user utcnow mem t = Ok (mem', t') ->
  py_get_default mem "conversation_history" (JList []) = Ok (JList turns) ->
  exists survivors news,
    py_getitem mem' "conversation_history" = Ok (JList (last_n 500 news))
    /\ Forall2 (history_rebuilt_from utcnow) survivors news
    /\ subseq survivors turns
    /\ ForallOrdPairs (fun old new => same_history_key mem new old = false) survivors
    /\ (forall turn, In turn turns ->
          In turn survivors
          \/ exists s, In s survivors /\ same_history_key mem turn s = true).
Proof.
  intros H Hh.
  destruct (deduplicate_user_history _ _ _ _ _ _ H Hh) as (news & G & R).
  exists (history_survivors mem [] turns), news.
  split; [exact G|]. split; [exact R|]. split; [apply history_survivors_subseq|].
  split; [apply history_survivors_distinct|].
  intros turn Hin. destruct (history_survivors_cover mem turns [] turn Hin) as [K|K];
    [left; exact K | right; exact K].
Qed.

Lemma deduplicate_user_history_one_per_key_witness :
  let turn := JDict [ ("your", JStr "hola") ] in
  exists mem' t' kept news,
    deduplicate_user example_clock nan_language_user 0 = Ok (mem', t')
    /\ same_history_key nan_language_user turn turn = true
    /\ py_getitem mem' "conversation_history" = Ok (JList (last_n 500 news))
    /\ Forall2 (history_rebuilt_from example_clock) [kept] news
    /\ kept = turn.
Proof.
  intros turn.
  assert (H : exists mem' t',
            deduplicate_user example_clock nan_language_user 0 = Ok (mem', t')).
  { do 2 eexists. vm_compute. reflexivity. }
  destruct H as (mem' & t' & H).
  assert (K : same_history_key nan_language_user turn turn = true) by reflexivity.
  destruct (deduplicate_user_history_one_per_key _ _ _ _ _ _ H eq_refl)
    as (survivors & news & G & R & Sub & Dis & Cov).
  exists mem', t', turn, news. split; [exact H|]. split; [exact K|]. split; [exact G|].
  split; [|reflexivity].
  assert (Hs : survivors = [turn]).
  { inversion Sub as [|x l l' Sub1|x l l' Sub1]; subst.
    - inversion Sub1 as [|x l l' Sub2|x l l' Sub2]; subst.
      + inversion Sub2; subst.
        destruct (Cov turn (or_introl eq_refl)) as [[]|(s & [] & _)].
      + inversion Sub2; subst. reflexivity.
    - inversion Sub1 as [|x l0 l' Sub2|x l0 l' Sub2]; subst.
      + inversion Sub2; subst. reflexivity.
      + exfalso. inversion Dis as [|a l1 Hd _]; subst.
        inversion Hd as [|b l2 Hb _]; subst.
        fold turn in Hb. rewrite K in Hb. discriminate Hb. }
  rewrite Hs in R. exact R.
Defined.

(** ** The history the practice handler writes *)

(** A value that can be hashed is found equal to itself. *)
Lemma py_scalar_eqb_refl l : py_hashable l = Ok tt -> py_scalar_eqb l l = true.
Proof.
  destruct l as [|b|n|f|s|l|d]; simpl; try discriminate; intros _.
  - reflexivity.
  - apply Z.eqb_refl.
  - apply Z.eqb_refl.
  - destruct (float_integral f); [apply Z.eqb_refl|].
    unfold PrimFloat.is_nan. destruct (PrimFloat.eqb f f); reflexivity.
  - apply String.eqb_refl.
Qed.

Lemma clock_text_truthy s : truthy (JStr (s ++ "Z")) = true.
Proof. destruct s; reflexivity. Qed.

Lemma history_key_of_written mem l0 a :
  py_get mem "lang" = Ok l0 ->
  py_hashable (py_or l0 (JStr "")) = Ok tt ->
  history_key_of mem (written a)
  = Ok ((normalize (at_your a), "", py_or l0 (JStr "")), strip (at_your a)).
Proof.
  intros Hl Hh. unfold written. rewrite history_key_of_entry, Hl. cbn [bind].
  rewrite Hh. reflexivity.
Qed.

Lemma key_in_answers l answer seen :
  py_scalar_eqb l l = true ->
  key_in history_key_eqb (answer, "", l) (map (fun s => (s, "", l)) seen)
  = existsb (String.eqb answer) seen.
Proof.
  intros Hl. unfold key_in. induction seen as [|s seen IH]; [reflexivity|].
  cbn [map existsb]. rewrite IH. f_equal.
  unfold history_key_eqb. rewrite Hl. cbn [String.eqb]. rewrite !andb_true_r. reflexivity.
Qed.

(** The history loop on entries the handler wrote: the language of the
    key is that of the record for every entry, so an entry is dropped
    exactly when its normalized answer has been seen. *)
Lemma history_loop_written utcnow mem l0 :
  py_get mem "lang" = Ok l0 ->
  forall entries seen unique t out t',
    history_loop utcnow mem (map written entries)
      (map (fun s => (s, "", py_or l0 (JStr ""))) seen) unique t = Ok (out, t') ->
    out = (unique ++ map rewritten (first_answers seen entries))%list
    /\ (entries <> [] -> py_hashable (py_or l0 (JStr "")) = Ok tt).
Proof.
  intros Hl. induction entries as [|a rest IH]; intros seen unique t out t' H.
  - cbn [map history_loop] in H. injection H as <- _.
    cbn [first_answers map]. rewrite app_nil_r. split; [reflexivity | congruence].
  - cbn [map history_loop] in H.
    destruct (py_hashable (py_or l0 (JStr ""))) as [[]|e] eqn:Hh.
    2:{ unfold written in H. rewrite history_key_of_entry, Hl in H.
        cbn [bind] in H. rewrite Hh in H. discriminate H. }
    rewrite (history_key_of_written _ _ _ Hl Hh) in H. cbn [bind] in H.
    rewrite (key_in_answers _ _ _ (py_scalar_eqb_refl _ Hh)) in H.
    cbn [first_answers]. cbv zeta.
    destruct (existsb (String.eqb (normalize (at_your a))) seen).
    + destruct (IH _ _ _ _ _ H) as (-> & _). split; [reflexivity | intros _; reflexivity].
    + unfold written at 1 2 3 4 in H. unfold history_entry at 1 2 3 4 in H.
      cbn [py_get dict_get String.eqb Ascii.eqb Bool.eqb bind] in H.
      unfold or_now in H. rewrite clock_text_truthy in H.
      change ((normalize (at_your a), "", py_or l0 (JStr ""))
              :: map (fun s => (s, "", py_or l0 (JStr ""))) seen)
        with (map (fun s => (s, "", py_or l0 (JStr ""))) (normalize (at_your a) :: seen)) in H.
      destruct (IH _ _ _ _ _ H) as (-> & _).
      split; [|intros _; reflexivity].
      rewrite <- app_assoc. reflexivity.
Qed.

(** C2. The entry the practice handler appends to the history has no
    ["ai"] and no ["reply"] field, so the key [deduplicate_user] computes
    for it has the empty string as its second component and the language
    of the record as its third.  For a history the app wrote, the
    deduplication that follows therefore treats two entries as
    duplicates exactly when their normalized answers are equal, whatever
    their targets: it keeps the first entry of every normalized answer. *)
Theorem practice_history_key_ignores_target
  (utcnow : nat -> string) (user_mem : json) (text : string) (item : json) (t : nat)
  (earlier : list attempt) (m1 : json) (t1 : nat) (m2 : json) (t2 : nat) :
  py_get_default user_mem "conversation_history" (JList [])
    = Ok (JList (map written earlier)) ->
  score_attempt utcnow user_mem text item t = Ok (m1, t1) ->
  deduplicate_user utcnow m1 t1 = Ok (m2, t2) ->
  exists a l0,
    let l := py_or l0 (JStr "") in
    at_your a = text
    /\ py_getitem m1 "conversation_history" = Ok (JList (map written (earlier ++ [a])))
    /\ py_contains "ai" (written a) = Ok false
    /\ py_contains "reply" (written a) = Ok false
    /\ py_get m1 "lang" = Ok l0
    /\ (forall b, In b (earlier ++ [a]) ->
          history_key_of m1 (written b)
          = Ok ((normalize (at_your b), "", l), strip (at_your b)))
    /\ (forall b c,
          history_key_eqb (normalize (at_your b), "", l) (normalize (at_your c), "", l)
          = String.eqb (normalize (at_your b)) (normalize (at_your c)))
    /\ py_getitem m2 "conversation_history"
       = Ok (JList (last_n 500 (map rewritten (first_answers [] (earlier ++ [a]))))).
Proof.
  intros Hold Hs Hd.
  destruct (score_attempt_history _ _ _ _ _ _ _ Hs)
    as (tgt & score & rounded & prompt & target & old & _ & _ & _ & _ & _ & O & R).
  cbv zeta in R. destruct R as (_ & R).
  rewrite Hold in O. injection O as <-.
  set (t0 := if is_correct score then t else S t) in R.
  set (a := mk_attempt (utcnow t0) prompt text target rounded).
  assert (Hh1 : py_getitem m1 "conversation_history"
                = Ok (JList (map written (earlier ++ [a])))).
  { rewrite R, map_app. reflexivity. }
  destruct (getitem_is_dict _ _ _ Hh1) as (d1 & ->).
  set (l0 := match dict_get "lang" d1 with Some x => x | None => JNull end).
  assert (Hl1 : py_get (JDict d1) "lang" = Ok l0) by reflexivity.
  apply deduplicate_user_steps in Hd
    as (cvj & items & mem1 & ta & h & turns & unique & mem2 & stats & recent
        & recent' & stats' & S1 & S2 & S3 & S4 & S5 & S6 & S7 & S8 & S9 & S10 & S11 & S12).
  destruct (vocab_pass_frame _ _ _ _ _ _ S3) as (_ & F2 & F3).
  rewrite F3, (get_default_of_getitem _ _ _ _ Hh1) in S4 by discriminate.
  injection S4 as <-. cbn [py_iter] in S5. injection S5 as <-.
  assert (Hl : py_get mem1 "lang" = Ok l0) by (rewrite F2 by discriminate; exact Hl1).
  destruct (history_loop_written utcnow mem1 l0 Hl _ [] _ _ _ _ S6) as (-> & Hhash).
  assert (Hh : py_hashable (py_or l0 (JStr "")) = Ok tt).
  { apply Hhash. destruct earlier; discriminate. }
  exists a, l0. cbv zeta.
  split; [reflexivity|]. split; [exact Hh1|].
  split; [reflexivity|]. split; [reflexivity|]. split; [exact Hl1|].
  split; [intros b _; apply (history_key_of_written _ _ _ Hl1 Hh)|].
  split.
  { intros b c. unfold history_key_eqb.
    rewrite (py_scalar_eqb_refl _ Hh). cbn [String.eqb]. rewrite !andb_true_r. reflexivity. }
  rewrite (getitem_setitem_ne _ _ _ _ _ S12) by discriminate.
  apply (getitem_setitem_eq _ _ _ _ S7).
Qed.

Lemma practice_history_key_ignores_target_witness :
  py_get_default user_after_hola "conversation_history" (JList [])
    = Ok (JList (map written [hola_attempt]))
  /\ score_attempt example_clock user_after_hola "Hola" seed_como_estas 1
     = Ok (user_after_second_hola, 3%nat)
  /\ deduplicate_user example_clock user_after_second_hola 3
     = Ok (user_after_second_hola_saved, 3%nat)
  /\ exists a,
       at_your a = "Hola"
       /\ at_target a = field seed_como_estas "target"
       /\ py_getitem user_after_second_hola "conversation_history"
          = Ok (JList [written hola_attempt; written a])
       /\ py_getitem user_after_second_hola_saved "conversation_history"
          = Ok (JList [rewritten hola_attempt]).
Proof.
  assert (H0 : py_get_default user_after_hola "conversation_history" (JList [])
               = Ok (JList (map written [hola_attempt]))) by reflexivity.
  assert (H1 : score_attempt example_clock user_after_hola "Hola" seed_como_estas 1
               = Ok (user_after_second_hola, 3%nat)) by (vm_compute; reflexivity).
  assert (H2 : deduplicate_user example_clock user_after_second_hola 3
               = Ok (user_after_second_hola_saved, 3%nat)) by (vm_compute; reflexivity).
  split; [exact H0|]. split; [exact H1|]. split; [exact H2|].
  destruct (practice_history_key_ignores_target _ _ _ _ _ _ _ _ _ _ H0 H1 H2)
    as (a & l0 & A & B & _ & _ & _ & _ & _ & C).
  exists a. split; [exact A|].
  assert (Ht : at_target a = field seed_como_estas "target").
  { destruct a as [ck pr yr tg sc]. vm_compute in B. injection B as _ _ _ <- _.
    reflexivity. }
  split; [exact Ht|]. split; [exact B|].
  rewrite C. cbn [app first_answers existsb]. rewrite A.
  reflexivity.
Defined.

(** ** What a save leaves in the store *)

Lemma dedup_users_values utcnow items :
  forall ud t users' t',
    dedup_users utcnow items (JDict ud) t = Ok (users', t') ->
    exists ud',
      users' = JDict ud'
      /\ forall u rec', dict_get u ud' = Some rec' ->
           (dict_get u ud = Some rec' /\ ~ In u (map fst items))
           \/ exists rec t1 t2,
                In (u, rec) items /\ deduplicate_user utcnow rec t1 = Ok (rec', t2).
Proof.
  induction items as [|[uname udata] rest IH]; intros ud t users' t' H.
  - simpl in H. injection H as <- <-. exists ud. split; [reflexivity|].
    intros u rec' Hg. left. split; [exact Hg | intros []].
  - cbn [dedup_users] in H.
    apply bind_ok in H. destruct H as ([udata' t1] & E1 & H).
    cbn [bind py_setitem] in H.
    destruct (IH _ _ _ _ H) as (ud' & -> & V).
    exists ud'. split; [reflexivity|].
    intros u rec' Hg. destruct (V _ _ Hg) as [(G & Hn)|(rec & ta & tb & Hin & R)].
    + destruct (String.eqb u uname) eqn:Eu.
      * apply String.eqb_eq in Eu. subst u. rewrite dict_get_set_eq in G.
        injection G as <-. right. exists udata, t, t1. split; [left; reflexivity | exact E1].
      * apply String.eqb_neq in Eu. rewrite dict_get_set_ne in G by exact Eu.
        left. split; [exact G|]. cbn [map fst]. intros [Heq|Hin]; [congruence | auto].
    + right. exists rec, ta, tb. split; [right; exact Hin | exact R].
Qed.

Lemma dedup_users_keys utcnow items :
  forall ud t users' t',
    dedup_users utcnow items (JDict ud) t = Ok (users', t') ->
    (forall k, In k (map fst items) -> dict_get k ud <> None) ->
    exists ud', users' = JDict ud' /\ map fst ud' = map fst ud.
Proof.
  induction items as [|[uname udata] rest IH]; intros ud t users' t' H Hk.
  - simpl in H. injection H as <- <-. eauto.
  - cbn [dedup_users] in H.
    apply bind_ok in H. destruct H as ([udata' t1] & E1 & H).
    cbn [bind py_setitem] in H.
    assert (K : map fst (dict_set uname udata' ud) = map fst ud).
    { apply dict_set_keys, Hk. left. reflexivity. }
    destruct (IH _ _ _ _ H) as (ud' & -> & K').
    + intros k Hin. apply dict_get_keys. rewrite K. apply dict_get_keys, Hk.
      right. exact Hin.
    + exists ud'. split; [reflexivity | congruence].
Qed.

(** The steps of a run of [deduplicate_global] that returns. *)
Lemma deduplicate_global_steps utcnow data t data' t' :
  deduplicate_global utcnow data t = Ok (data', t') ->
  exists dd ud users',
    data = JDict dd
    /\ py_get_default data "users" (JDict []) = Ok (JDict ud)
    /\ dedup_users utcnow ud (JDict ud) t = Ok (users', t')
    /\ data' = JDict (dict_set "users" users' dd).
Proof.
  unfold deduplicate_global. intros H.
  apply bind_ok in H. destruct H as (users & E1 & H).
  apply bind_ok in H. destruct H as (items & E2 & H).
  apply bind_ok in H. destruct H as ([users' t1] & E3 & H).
  apply bind_ok in H. destruct H as (data1 & E4 & H).
  injection H as <- <-.
  destruct data as [| | | | | |dd]; try discriminate.
  destruct users as [| | | | | |ud]; try discriminate.
  injection E2 as <-. injection E4 as <-.
  exists dd, ud, users'. auto.
Qed.

(** X9. After a save every record of the store has a history of at most
    500 entries and a recent window of at most 200 marks, and the text
    written is the serialization of the store as it is returned. *)
Theorem save_global_bounds_every_user
  (utcnow : nat -> string) (dump : json -> string) (data : json) (t : nat)
  (data' : json) (file : string) (t' : nat) :
  save_global utcnow dump data t = Ok (data', file, t') ->
  file = dump data'
  /\ exists ud',
       py_getitem data' "users" = Ok (JDict ud')
       /\ forall u rec', dict_get u ud' = Some rec' ->
            (exists h, py_getitem rec' "conversation_history" = Ok (JList h)
                       /\ (List.length h <= 500)%nat)
            /\ (forall r, recent_of rec' = Ok (JList r) -> (List.length r <= 200)%nat).
Proof.
  unfold save_global. intros H.
  apply bind_ok in H. destruct H as ([data1 t1] & D & H). injection H as <- <- <-.
  split; [reflexivity|].
  destruct (deduplicate_global_steps _ _ _ _ _ D) as (dd & ud & users' & -> & U & L & ->).
  destruct (dedup_users_values _ _ _ _ _ _ L) as (ud' & -> & V).
  exists ud'. split; [cbn [py_getitem]; rewrite dict_get_set_eq; reflexivity|].
  intros u rec' Hg. destruct (V _ _ Hg) as [(G & Hn)|(rec & ta & tb & _ & R)].
  - exfalso. apply Hn. apply dict_get_keys. congruence.
  - apply (deduplicate_user_bounds _ _ _ _ _ R).
Qed.

Lemma save_global_bounds_every_user_witness :
  exists data' file t' ud',
    save_global example_clock one_document_dump long_recent_store 0 = Ok (data', file, t')
    /\ py_getitem data' "users" = Ok (JDict ud')
    /\ file = "(the store)".
Proof.
  assert (H : exists data' file t',
            save_global example_clock one_document_dump long_recent_store 0
            = Ok (data', file, t')).
  { do 3 eexists. vm_compute. reflexivity. }
  destruct H as (data' & file & t' & H).
  destruct (save_global_bounds_every_user _ _ _ _ _ _ _ H) as (F & ud' & G & _).
  exists data', file, t', ud'. split; [exact H|]. split; [exact G|].
  rewrite F. reflexivity.
Defined.

(** X10. [deduplicate_global] neither adds nor drops nor reorders users:
    the user names of the result are those of the store, in the same
    order, and every other top-level entry of the document is returned
    as it was.  A document without a users entry gets an empty one. *)
Theorem deduplicate_global_keeps_user_names
  (utcnow : nat -> string) (data : json) (t : nat) (data' : json) (t' : nat) :
  deduplicate_global utcnow data t = Ok (data', t') ->
  exists ud ud',
    py_get_default data "users" (JDict []) = Ok (JDict ud)
    /\ py_getitem data' "users" = Ok (JDict ud')
    /\ map fst ud' = map fst ud
    /\ (forall k, k <> "users" -> py_getitem data' k = py_getitem data k).
Proof.
  intros H.
  destruct (deduplicate_global_steps _ _ _ _ _ H) as (dd & ud & users' & -> & U & L & ->).
  destruct (dedup_users_keys _ _ _ _ _ _ L) as (ud' & -> & K).
  { intros k Hin. apply dict_get_keys, Hin. }
  exists ud, ud'. split; [exact U|].
  split; [cbn [py_getitem]; rewrite dict_get_set_eq; reflexivity|].
  split; [exact K|].
  intros k Hk. cbn [py_getitem]. rewrite dict_get_set_ne by exact Hk. reflexivity.
Qed.

Lemma deduplicate_global_keeps_user_names_witness :
  exists data' t' ud',
    deduplicate_global example_clock plain_example_store 0 = Ok (data', t')
    /\ py_getitem data' "users" = Ok (JDict ud')
    /\ map fst ud' = ["ana"; "ben"].
Proof.
  assert (H : exists data' t',
            deduplicate_global example_clock plain_example_store 0 = Ok (data', t')).
  { do 2 eexists. vm_compute. reflexivity. }
  destruct H as (data' & t' & H).
  destruct (deduplicate_global_keeps_user_names _ _ _ _ _ H) as (ud & ud' & U & G & K & _).
  injection U as <-.
  exists data', t', ud'. split; [exact H|]. split; [exact G | exact K].
Defined.

(** X11. On the stores the app itself writes [deduplicate_global] is
    idempotent.  When the history entries of a store carry no ai, reply
    or lang value and its vocabulary levels are not read as 0 (and its
    objects have unique keys, as every Python dict has), a second
    [deduplicate_global] returns the result of the first unchanged, at
    any time and without reading the clock. *)
Theorem deduplicate_global_idempotent_on_plain_stores
  (utcnow utcnow2 : nat -> string) (data : json) (t : nat)
  (data1 : json) (t1 t2 : nat) :
  deduplicate_global utcnow data t = Ok (data1, t1) ->
  well_formed data = true ->
  plain_store data = true ->
  deduplicate_global utcnow2 data1 t2 = Ok (data1, t2).
Proof. apply deduplicate_global_second_run. Qed.

Lemma deduplicate_global_idempotent_example :
  deduplicate_global example_clock plain_example_store 0 = Ok (plain_example_after, 2%nat)
  /\ well_formed plain_example_store = true
  /\ plain_store plain_example_store = true
  /\ deduplicate_global example_clock plain_example_after 7 = Ok (plain_example_after, 7%nat).
Proof.
  assert (H1 : deduplicate_global example_clock plain_example_store 0
               = Ok (plain_example_after, 2%nat)) by (vm_compute; reflexivity).
  assert (H2 : well_formed plain_example_store = true) by reflexivity.
  assert (H3 : plain_store plain_example_store = true) by reflexivity.
  split; [exact H1|]. split; [exact H2|]. split; [exact H3|].
  exact (deduplicate_global_idempotent_on_plain_stores
           example_clock example_clock _ _ _ _ 7%nat H1 H2 H3).
Defined.

(** X12. Saving, loading and saving again is stable on the stores the
    app writes.  With a parser that reads back what the serializer wrote,
    [load_global] returns the saved store itself (it is neither wrapped
    nor replaced by the empty store), and a second [save_global], on what
    was loaded, returns the same store and writes the same text. *)
Theorem save_load_save_is_stable
  (utcnow utcnow2 : nat -> string) (dump : json -> string)
  (json_load : string -> result json) (data : json) (t : nat)
  (data1 : json) (file1 : string) (t1 t2 : nat) :
  save_global utcnow dump data t = Ok (data1, file1, t1) ->
  well_formed data = true ->
  plain_store data = true ->
  json_load file1 = Ok data1 ->
  load_global json_load (File (Ok file1)) = Ok data1
  /\ (loaded <- load_global json_load (File (Ok file1)) ;;
      save_global utcnow2 dump loaded t2)
     = Ok (data1, file1, t2).
Proof.
  unfold save_global. intros H Hwf Hp Hload.
  apply bind_ok in H. destruct H as ([d1 ta] & D & H). injection H as <- <- <-.
  assert (L : load_global json_load (File (Ok (dump d1))) = Ok d1).
  { destruct (deduplicate_global_steps _ _ _ _ _ D) as (dd & ud & users' & -> & _ & _ & E).
    unfold load_global, load_body. cbn [path_exists read_file bind].
    rewrite Hload. cbn [bind].
    rewrite E. cbn [py_contains bind]. unfold dict_has.
    rewrite dict_get_set_eq. reflexivity. }
  split; [exact L|]. rewrite L. cbn [bind].
  rewrite (deduplicate_global_second_run utcnow utcnow2 _ _ _ _ t2 D Hwf Hp).
  reflexivity.
Qed.

Lemma save_load_save_is_stable_witness :
  save_global example_clock one_document_dump plain_example_store 0
    = Ok (plain_example_after, "(the store)", 2%nat)
  /\ load_global one_document_load (File (Ok "(the store)")) = Ok plain_example_after.
Proof.
  assert (H1 : save_global example_clock one_document_dump plain_example_store 0
               = Ok (plain_example_after, "(the store)", 2%nat))
    by (vm_compute; reflexivity).
  split; [exact H1|].
  apply (save_load_save_is_stable example_clock example_clock one_document_dump
           one_document_load plain_example_store 0%nat _ _ _ 0%nat H1);
    reflexivity.
Defined.

(** ** The merge into a store without users *)

Lemma dict_set_fresh k v d :
  ~ In k (map fst d) -> dict_set k v d = (d ++ [(k, v)])%list.
Proof.
  induction d as [|[k' w] d IH]; simpl; intros H; [reflexivity|].
  destruct (String.eqb k k') eqn:E.
  - apply String.eqb_eq in E. subst k'. exfalso. apply H. left. reflexivity.
  - rewrite IH; [reflexivity|]. intros Hin. apply H. right. exact Hin.
Qed.

Lemma dict_get_fresh k d : ~ In k (map fst d) -> dict_get k d = None.
Proof.
  intros H. destruct (dict_get k d) eqn:E; [|reflexivity].
  exfalso. apply H, dict_get_keys. congruence.
Qed.

Lemma merge_loop_fresh items :
  forall pre,
    NoDup (map fst (pre ++ items)) ->
    merge_loop items (JDict [("users", JDict pre)])
    = Ok (JDict [("users", JDict (pre ++ items))]).
Proof.
  induction items as [|[k v] rest IH]; intros pre Hnd.
  - rewrite app_nil_r. reflexivity.
  - assert (Hk : ~ In k (map fst pre)).
    { rewrite map_app in Hnd. cbn [map fst] in Hnd.
      apply NoDup_remove_2 in Hnd. intros Hin. apply Hnd, in_or_app. left. exact Hin. }
    cbn [merge_loop]. unfold merge_user.
    cbn [py_get_default dict_get String.eqb Ascii.eqb Bool.eqb bind py_contains].
    unfold dict_has. rewrite (dict_get_fresh _ _ Hk).
    cbn [negb py_setdefault dict_get String.eqb Ascii.eqb Bool.eqb bind py_setitem dict_set].
    rewrite (dict_set_fresh _ _ _ Hk).
    rewrite (IH (pre ++ [(k, v)])%list); rewrite <- app_assoc; [reflexivity | exact Hnd].
Qed.

(** X13. Importing a document into the empty store restores it: the
    merge of an upload into [{"users": {}}] (what [load_global] returns
    when there is no file) is the store whose users are exactly those of
    the upload, in the order of the upload, each record as uploaded. *)
Theorem merge_into_empty_store_restores_upload
  (rd : json) (inc : list (string * json)) :
  well_formed rd = true ->
  py_get_default rd "users" rd = Ok (JDict inc) ->
  merge empty_store rd = Ok (JDict [("users", JDict inc)]).
Proof.
  intros Hwf Hu. unfold merge. rewrite Hu. cbn [bind py_items].
  apply (merge_loop_fresh inc []). cbn [app].
  assert (Hwfi : well_formed (JDict inc) = true).
  { destruct rd as [| | | | | |rdd]; try discriminate.
    cbn [py_get_default] in Hu. destruct (dict_get "users" rdd) eqn:Er.
    - injection Hu as ->. destruct (well_formed_dict _ Hwf) as (_ & Hsub).
      apply (Hsub _ _ (dict_get_In _ _ _ Er)).
    - injection Hu as <-. exact Hwf. }
  apply (well_formed_dict _ Hwfi).
Qed.

Lemma merge_into_empty_store_restores_upload_witness :
  merge empty_store merge_example_upload
  = Ok (JDict [("users",
                JDict [ ("ana",
                         JDict [ ("level", JInt 5);
                                 ("custom_vocab", JDict [("es", JList [seed_hola]);
                                                         ("fr", JList [seed_hola])]);
                                 ("conversation_history",
                                  JList [history_entry (JStr "t0") (JStr "hello") "hola"
                                           (JStr "hola") (JFloat 1)]) ]);
                        ("ben", user_with [] 1) ])]).
Proof.
  apply (merge_into_empty_store_restores_upload merge_example_upload); reflexivity.
Defined.

(** ** The choice of a prompt *)

Lemma choose_prompt_steps user_mem r item :
  choose_prompt_for_user user_mem r = Ok item ->
  exists level prompts,
    py_get_default user_mem "level" (JInt 1) = Ok level
    /\ candidate_prompts user_mem = Ok prompts
    /\ match prompts with
       | [] => item = JNull
       | _ :: _ =>
           exists pool,
             pool_of prompts level = Ok pool
             /\ random_choice r (match pool with [] => prompts | _ :: _ => pool end)
                = Ok item
       end.
Proof.
  unfold choose_prompt_for_user, candidate_prompts. intros H.
  apply bind_ok in H. destruct H as (lang & E1 & H).
  apply bind_ok in H. destruct H as (level & E2 & H).
  apply bind_ok in H. destruct H as (seeds & E3 & H).
  apply bind_ok in H. destruct H as (cv & E4 & H).
  apply bind_ok in H. destruct H as (ents & E5 & H).
  apply bind_ok in H. destruct H as (its & E6 & H).
  apply bind_ok in H. destruct H as (customs & E7 & H).
  exists level, (seeds ++ customs)%list.
  split; [exact E2|].
  rewrite E1. cbn [bind]. rewrite E3. cbn [bind]. rewrite E4. cbn [bind].
  rewrite E5. cbn [bind]. rewrite E6. cbn [bind]. rewrite E7. cbn [bind].
  split; [reflexivity|].
  destruct (seeds ++ customs)%list as [|p ps].
  - injection H as <-. reflexivity.
  - apply bind_ok in H. destruct H as (pool & E8 & H). exists pool. auto.
Qed.

Lemma pool_of_spec prompts level :
  forall pool,
    pool_of prompts level = Ok pool ->
    forall p, In p pool <-> In p prompts /\ within_level level p.
Proof.
  induction prompts as [|q rest IH]; intros pool H p.
  - simpl in H. injection H as <-. simpl. tauto.
  - cbn [pool_of] in H.
    apply bind_ok in H. destruct H as (lv & E1 & H).
    apply bind_ok in H. destruct H as (keep & E2 & H).
    apply bind_ok in H. destruct H as (pool' & E3 & H).
    injection H as <-. specialize (IH _ E3 p).
    destruct keep; cbn [In]; rewrite ?IH; split.
    + intros [<-|[Hin Hw]]; [|auto].
      split; [left; reflexivity | exists lv; auto].
    + intros [[<-|Hin] Hw]; [left; reflexivity | right; auto].
    + intros [Hin Hw]. auto.
    + intros [[<-|Hin] Hw]; [|auto].
      destruct Hw as (l & L1 & L2). rewrite E1 in L1. injection L1 as <-.
      rewrite E2 in L2. discriminate.
Qed.

Lemma random_choice_In r l item : random_choice r l = Ok item -> In item l.
Proof.
  unfold random_choice. destruct (nth_error l (r mod List.length l)) eqn:E; [|discriminate].
  intros [= <-]. apply (nth_error_In _ _ E).
Qed.

Lemma random_choice_reaches l p :
  In p l -> exists r, random_choice r l = Ok p.
Proof.
  intros Hin. apply In_nth_error in Hin as (r & Hr). exists r.
  unfold random_choice.
  assert (r < List.length l)%nat by (apply nth_error_Some; congruence).
  rewrite Nat.mod_small by assumption. rewrite Hr. reflexivity.
Qed.

Lemma mapM_prompt_truthy its :
  forall customs, mapM prompt_of_entry its = Ok customs ->
  Forall (fun p => truthy p = true) customs.
Proof.
  induction its as [|it rest IH]; intros customs H.
  - simpl in H. injection H as <-. constructor.
  - cbn [mapM] in H.
    apply bind_ok in H. destruct H as (p & E1 & H).
    apply bind_ok in H. destruct H as (ps & E2 & H). injection H as <-.
    constructor; [|apply (IH _ E2)].
    unfold prompt_of_entry in E1.
    apply bind_ok in E1. destruct E1 as (a & _ & E1).
    apply bind_ok in E1. destruct E1 as (b & _ & E1).
    apply bind_ok in E1. destruct E1 as (c & _ & E1).
    apply bind_ok in E1. destruct E1 as (d & _ & E1).
    injection E1 as <-. reflexivity.
Qed.

Lemma seed_get_truthy lang seeds :
  seed_get lang = Ok seeds -> Forall (fun p => truthy p = true) seeds.
Proof.
  unfold seed_get. intros H.
  assert (G : forall s, Forall (fun p => truthy p = true)
                (match find (fun kv => String.eqb (fst kv) s) SEED with
                 | Some kv => snd kv
                 | None => []
                 end)).
  { intros s.
    destruct (find (fun kv => String.eqb (fst kv) s) SEED) as [kv|] eqn:E; [|constructor].
    apply find_some in E as (Hin & _).
    unfold SEED in Hin. cbn [In] in Hin.
    destruct Hin as [<-|[<-|[<-|[]]]]; cbn [snd]; repeat constructor. }
  destruct lang; try discriminate; injection H as <-; first [apply G | constructor].
Qed.

(** X14. [choose_prompt_for_user] returns [None] exactly when there is
    nothing to draw from: no seed prompt for the user's language and no
    custom phrase in it.  Otherwise it returns one of the candidates, the
    seed prompts of the language followed by the custom phrases; it
    draws among the candidates within the user's level when there is one
    and among all candidates when there is none, and every candidate it
    may draw is drawn for some number of the generator. *)
Theorem choose_prompt_draws_a_candidate (user_mem : json) (r : nat) (item : json) :
  choose_prompt_for_user user_mem r = Ok item ->
  exists level prompts,
    py_get_default user_mem "level" (JInt 1) = Ok level
    /\ candidate_prompts user_mem = Ok prompts
    /\ (prompts = [] <-> item = JNull)
    /\ (prompts <> [] ->
          truthy item = true
          /\ In item prompts
          /\ ((exists p, In p prompts /\ within_level level p) -> within_level level item)
          /\ (forall p, In p prompts ->
                within_level level p
                \/ ~ (exists q, In q prompts /\ within_level level q) ->
                exists r', choose_prompt_for_user user_mem r' = Ok p)).
Proof.
  intros H.
  destruct (choose_prompt_steps _ _ _ H) as (level & prompts & L & C & M).
  exists level, prompts. split; [exact L|]. split; [exact C|].
  assert (T : Forall (fun p => truthy p = true) prompts).
  { unfold candidate_prompts in C.
    apply bind_ok in C. destruct C as (lang & E1 & C).
    apply bind_ok in C. destruct C as (seeds & E3 & C).
    apply bind_ok in C. destruct C as (cv & E4 & C).
    apply bind_ok in C. destruct C as (ents & E5 & C).
    apply bind_ok in C. destruct C as (its & E6 & C).
    apply bind_ok in C. destruct C as (customs & E7 & C).
    injection C as <-. apply Forall_app. split.
    - apply (seed_get_truthy _ _ E3).
    - apply (mapM_prompt_truthy _ _ E7). }
  destruct prompts as [|p0 ps].
  - subst item. split; [tauto|]. intros Hne. congruence.
  - destruct M as (pool & P & R).
    pose proof (pool_of_spec _ _ _ P) as Spec.
    assert (Hin : In item (p0 :: ps)).
    { apply random_choice_In in R. destruct pool; [exact R|].
      apply Spec in R. apply R. }
    assert (Ht : truthy item = true).
    { rewrite Forall_forall in T. apply T, Hin. }
    split.
    { split; [discriminate|]. intros ->. discriminate. }
    intros _. split; [exact Ht|]. split; [exact Hin|]. split.
    + intros (p & Hp & Hw).
      assert (Hpool : In p pool) by (apply Spec; auto).
      destruct pool as [|q qs]; [destruct Hpool|].
      apply random_choice_In in R. apply Spec in R. apply R.
    + intros p Hp Hcase.
      assert (Hsrc : In p (match pool with [] => p0 :: ps | _ :: _ => pool end)).
      { destruct pool as [|q qs] eqn:Ep.
        - exact Hp.
        - destruct Hcase as [Hw|Hn].
          + apply Spec. auto.
          + exfalso. apply Hn. exists q.
            apply (Spec q). left. reflexivity. }
      destruct (random_choice_reaches _ _ Hsrc) as (r' & Hr').
      exists r'. unfold choose_prompt_for_user.
      unfold candidate_prompts in C.
      apply bind_ok in C. destruct C as (lang & E1 & C).
      apply bind_ok in C. destruct C as (seeds & E3 & C).
      apply bind_ok in C. destruct C as (cv & E4 & C).
      apply bind_ok in C. destruct C as (ents & E5 & C).
      apply bind_ok in C. destruct C as (its & E6 & C).
      apply bind_ok in C. destruct C as (customs & E7 & C).
      injection C as C.
      rewrite E1. cbn [bind]. rewrite L. cbn [bind]. rewrite E3. cbn [bind].
      rewrite E4. cbn [bind]. rewrite E5. cbn [bind]. rewrite E6. cbn [bind].
      rewrite E7. cbn [bind]. rewrite C. rewrite P. cbn [bind]. exact Hr'.
Qed.

Lemma choose_prompt_draws_a_candidate_witness :
  exists item,
    choose_prompt_for_user italian_user 7 = Ok item
    /\ truthy item = true.
Proof.
  assert (H : exists item, choose_prompt_for_user italian_user 7 = Ok item).
  { eexists. vm_compute. reflexivity. }
  destruct H as (item & H). exists item. split; [exact H|].
  destruct (choose_prompt_draws_a_candidate _ _ _ H) as (level & prompts & _ & C & _ & F).
  vm_compute in C. injection C as <-.
  apply F. discriminate.
Defined.

(** X15. For a user of one of the three seeded languages whose level is
    an integer of 1 or more, a prompt is always found and it is within
    the level: its level, 1 when it has none, is at most the level of
    the user.  (The first seed prompt of each language has level 1.) *)
Theorem choose_prompt_within_level_for_seeded_language
  (user_mem : json) (r : nat) (item : json) (lang : string) (lv : Z) :
  choose_prompt_for_user user_mem r = Ok item ->
  py_get_default user_mem "lang" (JStr "es") = Ok (JStr lang) ->
  lang = "es" \/ lang = "fr" \/ lang = "de" ->
  py_get_default user_mem "level" (JInt 1) = Ok (JInt lv) ->
  1 <= lv ->
  item <> JNull /\ within_level (JInt lv) item.
Proof.
  intros H Hl Hseed Hlv Hpos.
  destruct (choose_prompt_steps _ _ _ H) as (level & prompts & L & C & M).
  rewrite Hlv in L. injection L as <-.
  assert (Hfirst : exists p ps, prompts = p :: ps /\ within_level (JInt lv) p).
  { unfold candidate_prompts in C. rewrite Hl in C. cbn [bind] in C.
    apply bind_ok in C. destruct C as (seeds & E3 & C).
    apply bind_ok in C. destruct C as (cv & E4 & C).
    apply bind_ok in C. destruct C as (ents & E5 & C).
    apply bind_ok in C. destruct C as (its & E6 & C).
    apply bind_ok in C. destruct C as (customs & E7 & C).
    injection C as <-.
    assert (W : forall n t p, within_level (JInt lv) (seed_prompt n t p 1)).
    { intros n t p. exists (JInt 1). split; [reflexivity|].
      cbn. f_equal. apply Z.leb_le. exact Hpos. }
    destruct Hseed as [-> | [-> | ->]]; cbn in E3; injection E3 as <-;
      cbn [app]; do 2 eexists; (split; [reflexivity | apply W]). }
  destruct Hfirst as (p & ps & -> & Hw).
  destruct M as (pool & P & R).
  pose proof (pool_of_spec _ _ _ P) as Spec.
  assert (Hpool : In p pool) by (apply Spec; split; [left; reflexivity | exact Hw]).
  destruct pool as [|q qs]; [destruct Hpool|].
  apply random_choice_In in R. apply Spec in R. destruct R as (_ & Hwi).
  split; [|exact Hwi].
  intros ->. destruct Hwi as (l & G & _). discriminate.
Qed.

Lemma choose_prompt_within_level_for_seeded_language_witness :
  exists item,
    choose_prompt_for_user default_user 3 = Ok item
    /\ within_level (JInt 1) item.
Proof.
  assert (H : exists item, choose_prompt_for_user default_user 3 = Ok item).
  { eexists. vm_compute. reflexivity. }
  destruct H as (item & H). exists item. split; [exact H|].
  apply (choose_prompt_within_level_for_seeded_language default_user 3%nat item "es" 1 H).
  - reflexivity.
  - left. reflexivity.
  - reflexivity.
  - lia.
Defined.

(** X16. The practice languages the sidebar offers beyond the seeded
    three have no seed prompt: for a user whose language is not es, fr or
    de and who has no custom phrase in it, [choose_prompt_for_user]
    returns [None] whatever the generator draws, and the action has
    nothing to ask. *)
Theorem choose_prompt_none_without_seed_or_phrase
  (user_mem : json) (r : nat) (lang : string) (cv : list (string * json)) :
  py_get_default user_mem "lang" (JStr "es") = Ok (JStr lang) ->
  lang <> "es" -> lang <> "fr" -> lang <> "de" ->
  py_get_default user_mem "custom_vocab" (JDict []) = Ok (JDict cv) ->
  dict_get lang cv = None \/ dict_get lang cv = Some (JList []) ->
  choose_prompt_for_user user_mem r = Ok JNull.
Proof.
  intros Hl N1 N2 N3 Hcv Hnone.
  unfold choose_prompt_for_user. rewrite Hl. cbn [bind].
  destruct user_mem as [| | | | | |md]; try discriminate.
  cbn [py_get_default bind].
  assert (Hs : seed_get (JStr lang) = Ok []).
  { unfold seed_get, SEED. cbn [find fst].
    apply String.eqb_neq in N1, N2, N3.
    rewrite String.eqb_sym in N1. rewrite String.eqb_sym in N2.
    rewrite String.eqb_sym in N3. rewrite N1, N2, N3. reflexivity. }
  rewrite Hs. cbn [bind]. cbn [py_get_default] in Hcv.
  destruct (dict_get "custom_vocab" md) as [c|]; injection Hcv as Hc; subst.
  - cbn [py_get_by]. destruct Hnone as [->| ->]; reflexivity.
  - cbn [py_get_by]. destruct Hnone as [->| ->]; reflexivity.
Qed.

Lemma choose_prompt_none_without_seed_or_phrase_witness :
  choose_prompt_for_user
    (JDict [("lang", JStr "ja"); ("level", JInt 2); ("custom_vocab", JDict [])]) 5
  = Ok JNull.
Proof.
  apply (choose_prompt_none_without_seed_or_phrase _ 5%nat "ja" []);
    first [reflexivity | discriminate | left; reflexivity].
Defined.

(** ** The separator of a custom phrase *)

Lemma prefix_bars s :
  String.prefix "||" s = true <-> exists r, s = "||" ++ r.
Proof.
  split.
  - destruct s as [|c [|c' s']]; cbn [prefix]; try discriminate.
    + destruct (ascii_dec "|" c); discriminate.
    + destruct (ascii_dec "|" c) as [<-|]; [|discriminate].
      destruct (ascii_dec "|" c') as [<-|]; [|discriminate].
      intros _. exists s'. reflexivity.
  - intros [r ->]. cbn [append prefix].
    destruct (ascii_dec "|" "|") as [_|n]; [destruct r; reflexivity | congruence].
Qed.

Lemma prefix_bars_head c s :
  is_bar c = false -> String.prefix "||" (String c s) = false.
Proof.
  unfold is_bar. intros H. cbn [prefix].
  destruct (ascii_dec "|" c) as [<-|]; [discriminate | reflexivity].
Qed.

Lemma split_once_joins text :
  forall a b, split_once "||" text = Some (a, b) ->
              text = a ++ "||" ++ b /\ is_infix "||" a = false.
Proof.
  induction text as [|c s IH]; intros a b H.
  - simpl in H. discriminate.
  - cbn [split_once] in H.
    destruct (String.prefix "||" (String c s)) eqn:P.
    + apply prefix_bars in P as [r Hr]. cbn [append] in Hr. injection Hr as -> ->.
      cbn in H. injection H as <- <-. split; reflexivity.
    + destruct (split_once "||" s) as [[a' b']|] eqn:E; [|discriminate].
      injection H as <- <-. destruct (IH _ _ eq_refl) as (-> & Hn).
      split; [reflexivity|].
      cbn [is_infix]. rewrite Hn, orb_false_r.
      destruct (String.prefix "||" (String c a')) eqn:P'; [|reflexivity].
      apply prefix_bars in P' as [r Hr]. injection Hr as -> ->.
      assert (String.prefix "||" ("||" ++ (r ++ "||" ++ b')) = true)
        by (apply prefix_bars; eauto).
      cbn [append] in H. cbn [append] in P. congruence.
Qed.

Lemma split_once_none text :
  split_once "||" text = None <-> is_infix "||" text = false.
Proof.
  induction text as [|c s IH].
  - simpl. tauto.
  - cbn [split_once is_infix].
    destruct (String.prefix "||" (String c s)); cbn [orb]; [split; discriminate|].
    rewrite <- IH. destruct (split_once "||" s) as [[a b]|]; split; congruence.
Qed.

Lemma split_once_of_join a :
  forall b, has_char is_bar a = false -> split_once "||" (a ++ "||" ++ b) = Some (a, b).
Proof.
  induction a as [|c a IH]; intros b H.
  - change ("" ++ "||" ++ b) with (String "|" (String "|" b)).
    cbn [split_once].
    assert (P : String.prefix "||" (String "|" (String "|" b)) = true)
      by (apply prefix_bars; exists b; reflexivity).
    rewrite P. reflexivity.
  - cbn [has_char] in H. apply orb_false_iff in H as [Hc Ha].
    change (String c a ++ "||" ++ b) with (String c (a ++ "||" ++ b)).
    cbn [split_once]. rewrite (prefix_bars_head _ _ Hc), (IH _ Ha). reflexivity.
Qed.

(** X17. The line [native || target] is split at its first separator:
    when [split] finds one, the line is the first part, the separator and
    the second part, and the first part holds no separator; it finds none
    exactly when the line holds none, the case the action rejects; and a
    line composed of a first part without a bar, the separator and any
    second part is split back into the two. *)
Theorem custom_phrase_line_splits_at_first_separator :
  (forall text a b,
     split_once "||" text = Some (a, b) ->
     text = a ++ "||" ++ b /\ is_infix "||" a = false)
  /\ (forall text, split_once "||" text = None <-> is_infix "||" text = false)
  /\ (forall a b, has_char is_bar a = false ->
        split_once "||" (a ++ "||" ++ b) = Some (a, b)).
Proof.
  split; [exact split_once_joins|]. split; [exact split_once_none|].
  intros a b. apply split_once_of_join.
Qed.

Lemma custom_phrase_line_splits_at_first_separator_witness :
  split_once "||" ("good morning " ++ "||" ++ " buenos dias || buen dia")
  = Some ("good morning ", " buenos dias || buen dia").
Proof.
  apply custom_phrase_line_splits_at_first_separator. reflexivity.
Defined.

(** ** An action that stores a record and saves *)

Lemma dict_set_NoDup k v d :
  NoDup (map fst d) -> NoDup (map fst (dict_set k v d)).
Proof.
  intros H. destruct (in_dec string_dec k (map fst d)) as [Hin|Hn].
  - rewrite dict_set_keys; [exact H | apply dict_get_keys, Hin].
  - rewrite (dict_set_fresh _ _ _ Hn), map_app. cbn [map fst].
    apply NoDup_app; [exact H | repeat constructor; intros [] |].
    intros x Hx [<-|[]]. exact (Hn Hx).
Qed.

Lemma store_user_effect g uname m g1 :
  store_user g uname m = Ok g1 ->
  exists dd ud,
    g = JDict dd
    /\ dict_get "users" dd = Some (JDict ud)
    /\ g1 = JDict (dict_set "users" (JDict (dict_set uname m ud)) dd).
Proof.
  unfold store_user. intros H.
  apply bind_ok in H. destruct H as (users & E1 & H).
  apply bind_ok in H. destruct H as (users' & E2 & H).
  destruct g as [| | | | | |dd]; try discriminate.
  cbn [py_getitem] in E1. destruct (dict_get "users" dd) as [u|] eqn:Eu; [|discriminate].
  injection E1 as ->. destruct users as [| | | | | |ud]; try discriminate.
  injection E2 as <-. injection H as <-. exists dd, ud. auto.
Qed.

(** After [global_data["users"][uname] = m] and a save, the record of
    [uname] in the store is [deduplicate_user(m)]. *)
Lemma save_after_store utcnow dump g uname m g1 t g' file t' :
  store_user g uname m = Ok g1 ->
  save_global utcnow dump g1 t = Ok (g', file, t') ->
  well_formed g = true ->
  exists rec' t1 t2,
    user_of g' uname = Ok rec'
    /\ deduplicate_user utcnow m t1 = Ok (rec', t2)
    /\ file = dump g'.
Proof.
  intros Hs Hsave Hwf.
  destruct (store_user_effect _ _ _ _ Hs) as (dd & ud & -> & Hu & ->).
  unfold save_global in Hsave.
  apply bind_ok in Hsave. destruct Hsave as ([d1 ta] & D & Hsave).
  injection Hsave as <- <- <-.
  destruct (deduplicate_global_steps _ _ _ _ _ D) as (dd1 & ud1 & users' & Ed & U & L & ->).
  injection Ed as <-. cbn [py_get_default] in U. rewrite dict_get_set_eq in U.
  injection U as <-.
  destruct (well_formed_dict _ Hwf) as (_ & Hsub).
  pose proof (Hsub _ _ (dict_get_In _ _ _ Hu)) as Hwfu.
  destruct (well_formed_dict _ Hwfu) as (Hnd & _).
  destruct (dedup_users_lookup utcnow _ _ _ _ _ (dict_set_NoDup uname m _ Hnd) L)
    as (ud' & -> & _ & _ & T).
  { intros k Hin. apply dict_get_keys, Hin. }
  destruct (T uname m) as (rec' & t1 & t2 & R & G).
  { apply dict_get_In, dict_get_set_eq. }
  exists rec', t1, t2. split; [|split; [exact R | reflexivity]].
  unfold user_of. cbn [py_getitem]. rewrite dict_get_set_eq. cbn [bind py_getitem].
  rewrite G. reflexivity.
Qed.

(** ** The recent window after a practice action *)

Lemma score_attempt_recent utcnow user_mem text item t m' t' :
  score_attempt utcnow user_mem text item t = Ok (m', t') ->
  exists rr, recent_of m' = Ok (JList rr) /\ (List.length rr <= 20)%nat.
Proof.
  intros H.
  destruct (score_attempt_steps _ _ _ _ _ _ _ H)
    as (tgt & score & m1 & t1 & m2 & m3 & prompt & target & rounded
        & S1 & S2 & S3 & S4 & S5 & S6 & S7 & S8 & S9 & S10).
  destruct (push_recent_effect _ _ _ S4) as (_ & st & r0 & _ & _ & P).
  destruct (adjust_level_frame _ _ S5) as (A1 & _).
  destruct (record_history_detail _ _ _ S9) as (R1 & _).
  eexists. split; [|apply (last_n_length 20)].
  rewrite (recent_of_frame m3 m') by (apply R1; discriminate).
  rewrite (recent_of_frame m2 m3) by (apply A1; discriminate).
  exact P.
Qed.

Lemma deduplicate_user_recent utcnow mem t mem' t' rr :
  deduplicate_user utcnow mem t = Ok (mem', t') ->
  recent_of mem = Ok (JList rr) ->
  recent_of mem' = Ok (JList (last_n 200 rr)).
Proof.
  intros H Hr.
  apply deduplicate_user_steps in H
    as (cvj & items & mem1 & t1 & h & turns & unique & mem2 & stats & recent
        & recent' & stats' & S1 & S2 & S3 & S4 & S5 & S6 & S7 & S8 & S9 & S10 & S11 & S12).
  destruct (vocab_pass_frame _ _ _ _ _ _ S3) as (F1 & _ & _).
  assert (Hst : py_getitem mem "stats" = Ok stats).
  { rewrite <- F1 by discriminate.
    rewrite <- (getitem_setitem_ne _ "stats" _ _ _ S7) by discriminate. exact S8. }
  unfold recent_of in Hr. rewrite Hst in Hr. cbn [bind] in Hr.
  rewrite (get_default_of_getitem _ _ _ _ Hr) in S9. injection S9 as <-.
  cbn [py_slice_last] in S10. injection S10 as <-.
  unfold recent_of. rewrite (getitem_setitem_eq _ _ _ _ S12). cbn [bind].
  apply (getitem_setitem_eq _ _ _ _ S11).
Qed.

(** X18. The bound the practice action keeps: after a "Practice prompt"
    that scores an answer and saves, the recent window of the user, as
    it stands in the saved store, holds at most 20 marks, however many it
    held before. *)
Theorem practice_prompt_saves_at_most_20_recent_marks
  (utcnow : nat -> string) (dump : json -> string)
  (global_data : json) (uname : string) (user_mem : json) (text : string)
  (r t : nat) (item g' : json) (file : string) (t' : nat) :
  practice_prompt utcnow dump global_data uname user_mem text r t = Ok (g', file, t') ->
  well_formed global_data = true ->
  choose_prompt_for_user user_mem r = Ok item ->
  truthy item = true ->
  text <> "" ->
  exists rec' rr,
    user_of g' uname = Ok rec'
    /\ recent_of rec' = Ok (JList rr)
    /\ (List.length rr <= 20)%nat
    /\ file = dump g'.
Proof.
  unfold practice_prompt. intros H Hwf Hc Ht Htext.
  rewrite Hc in H. cbn [bind] in H. rewrite Ht in H. cbn [negb] in H.
  apply String.eqb_neq in Htext. rewrite Htext in H.
  apply bind_ok in H. destruct H as ([m' t1] & Sc & H).
  apply bind_ok in H. destruct H as (g1 & St & H).
  destruct (save_after_store _ _ _ _ _ _ _ _ _ _ St H Hwf) as (rec' & ta & tb & U & D & F).
  destruct (score_attempt_recent _ _ _ _ _ _ _ Sc) as (rr & R & Hlen).
  exists rec', rr. split; [exact U|]. split; [|split; [exact Hlen | exact F]].
  rewrite (deduplicate_user_recent _ _ _ _ _ _ D R).
  rewrite last_n_short by lia. reflexivity.
Qed.

Lemma practice_prompt_saves_at_most_20_recent_marks_witness :
  exists g' file t' rec' rr,
    practice_prompt example_clock one_document_dump long_recent_store "ana"
      (user_with (repeat (JInt 1) 21) 3) "hola" 0 0 = Ok (g', file, t')
    /\ user_of g' "ana" = Ok rec'
    /\ recent_of rec' = Ok (JList rr)
    /\ (List.length rr <= 20)%nat.
Proof.
  assert (H : exists g' file t',
            practice_prompt example_clock one_document_dump long_recent_store "ana"
              (user_with (repeat (JInt 1) 21) 3) "hola" 0 0 = Ok (g', file, t')).
  { do 3 eexists. vm_compute. reflexivity. }
  destruct H as (g' & file & t' & H).
  destruct (practice_prompt_saves_at_most_20_recent_marks _ _ _ _ _ _ _ _ seed_hola _ _ _ H)
    as (rec' & rr & U & R & L & _);
    [reflexivity | reflexivity | reflexivity | discriminate |].
  exists g', file, t', rec', rr. auto.
Defined.

(** ** Signing in *)

Lemma In_app_fresh (k : string) (v x : json) d :
  dict_get k d = None -> In (k, x) (d ++ [(k, v)])%list -> x = v.
Proof.
  intros Hn Hin. apply in_app_or in Hin as [Hin|[Heq|[]]].
  - exfalso. assert (dict_get k d <> None); [|congruence].
    apply dict_get_keys, in_map_iff. exists (k, x). auto.
  - congruence.
Qed.

(** X19. "Load user" with a name that is blank once stripped changes
    nothing.  With any other name it signs the stripped name in; a user
    of that name who is in the store is left untouched and nothing is
    written; a name that is not in the store is added after the users
    there are, with the default record (Spanish, level 1, empty counters,
    vocabulary and history) under that name, and the store is saved. *)
Theorem load_user_creates_default_record_once
  (utcnow : nat -> string) (dump : json -> string)
  (global_data : json) (username : string) (t : nat)
  (ud : list (string * json))
  (g' : json) (cur w : option string) (t' : nat) :
  load_user utcnow dump global_data username t = Ok (g', cur, w, t') ->
  py_getitem global_data "users" = Ok (JDict ud) ->
  if String.eqb (strip username) ""
  then g' = global_data /\ cur = None /\ w = None /\ t' = t
  else
    cur = Some (strip username)
    /\ match dict_get (strip username) ud with
       | Some _ => g' = global_data /\ w = None /\ t' = t
       | None =>
           w = Some (dump g')
           /\ user_of g' (strip username) = Ok (new_user (strip username))
           /\ exists ud',
                py_getitem g' "users" = Ok (JDict ud')
                /\ map fst ud' = (map fst ud ++ [strip username])%list
       end.
Proof.
  unfold load_user. intros H Hu.
  destruct (String.eqb (strip username) "") eqn:Eb.
  - injection H as <- <- <- <-. auto.
  - set (uname := strip username) in *.
    destruct global_data as [| | | | | |dd]; try discriminate.
    cbn [py_getitem] in Hu.
    destruct (dict_get "users" dd) as [u|] eqn:Eu; [|discriminate].
    injection Hu as ->.
    cbn [py_contains bind] in H. unfold dict_has in H at 1. rewrite Eu in H.
    cbn [negb bind py_getitem] in H. rewrite Eu in H.
    cbn [bind py_contains] in H. unfold dict_has in H.
    destruct (dict_get uname ud) as [rec|] eqn:Er; cbn [negb] in H.
    + injection H as <- <- <- <-. auto.
    + cbn [py_setitem bind] in H.
      cbn [py_getitem] in H. rewrite dict_get_set_eq in H. cbn [bind] in H.
      change (py_setitem default_user "name" (JStr uname)) with (Ok (new_user uname)) in H.
      cbn [bind py_setitem] in H. rewrite dict_set_set in H.
      apply bind_ok in H. destruct H as ([[g3 file] t3] & Sv & H).
      injection H as <- <- <- <-.
      split; [reflexivity|].
      unfold save_global in Sv.
      apply bind_ok in Sv. destruct Sv as ([d1 ta] & D & Sv). injection Sv as <- <- <-.
      split; [reflexivity|].
      destruct (deduplicate_global_steps _ _ _ _ _ D)
        as (dd1 & ud1 & users' & Ed & U & L & ->).
      injection Ed as <-. cbn [py_get_default] in U. rewrite dict_get_set_eq in U.
      injection U as <-.
      assert (Hfresh : ~ In uname (map fst ud)).
      { intros Hin. apply dict_get_keys in Hin. congruence. }
      rewrite (dict_set_fresh _ _ _ Hfresh) in L.
      destruct (dedup_users_keys _ _ _ _ _ _ L) as (ud' & -> & K).
      { intros k Hin. apply dict_get_keys, Hin. }
      destruct (dedup_users_values _ _ _ _ _ _ L) as (ud'' & Eq & V).
      injection Eq as <-.
      assert (Hk : In uname (map fst ud')).
      { rewrite K, map_app. apply in_or_app. right. left. reflexivity. }
      apply dict_get_keys in Hk.
      destruct (dict_get uname ud') as [rec'|] eqn:Eg; [|congruence].
      split.
      * unfold user_of. cbn [py_getitem]. rewrite dict_get_set_eq. cbn [bind py_getitem].
        rewrite Eg. f_equal.
        destruct (V _ _ Eg) as [(_ & Hn)|(rec & t1 & t2 & Hin & R)].
        -- exfalso. apply Hn. rewrite map_app. apply in_or_app. right. left. reflexivity.
        -- apply (In_app_fresh _ _ _ _ Er) in Hin. subst rec.
           change (deduplicate_user utcnow (new_user uname) t1)
             with (Ok (new_user uname, t1)) in R.
           congruence.
      * exists ud'. split.
        -- cbn [py_getitem]. rewrite dict_get_set_eq. reflexivity.
        -- rewrite K, map_app. reflexivity.
Qed.

Lemma load_user_creates_default_record_once_witness :
  exists g' t',
    load_user example_clock one_document_dump plain_example_after "  carla " 0
    = Ok (g', Some "carla", Some "(the store)", t')
    /\ user_of g' "carla" = Ok (new_user "carla").
Proof.
  assert (H : exists g' t',
            load_user example_clock one_document_dump plain_example_after "  carla " 0
            = Ok (g', Some "carla", Some "(the store)", t')).
  { do 2 eexists. vm_compute. reflexivity. }
  destruct H as (g' & t' & H). exists g', t'. split; [exact H|].
  pose proof (fun ud => load_user_creates_default_record_once _ _ _ _ _ ud _ _ _ _ H) as T.
  destruct (T _ eq_refl) as (_ & _ & U & _). exact U.
Defined.

(** ** A custom phrase, from the line to the saved store *)

(** The chain [m.setdefault("custom_vocab", {}).setdefault(key, []).append(ent)]. *)
Lemma append_to_vocab_steps user_mem cv m1 key vlist cv1 ent vlist1 cv2 m2 :
  py_setdefault user_mem "custom_vocab" (JDict []) = Ok (cv, m1) ->
  py_setdefault cv key (JList []) = Ok (vlist, cv1) ->
  py_append vlist ent = Ok vlist1 ->
  py_setitem cv1 key vlist1 = Ok cv2 ->
  py_setitem m1 "custom_vocab" cv2 = Ok m2 ->
  exists md2 cvd old cv2d,
    m2 = JDict md2
    /\ py_get_default user_mem "custom_vocab" (JDict []) = Ok (JDict cvd)
    /\ py_get_default (JDict cvd) key (JList []) = Ok (JList old)
    /\ dict_get "custom_vocab" md2 = Some (JDict cv2d)
    /\ dict_get key cv2d = Some (JList (old ++ [ent]))
    /\ (NoDup (map fst cvd) -> NoDup (map fst cv2d)).
Proof.
  intros E1 E3 E4 E5 E6.
  pose proof (setdefault_effect _ _ _ _ _ E1) as (G1 & _ & _ & _).
  pose proof (setdefault_effect _ _ _ _ _ E3) as (G3 & _ & _ & _).
  destruct cv as [| | | | | |cvd]; try discriminate.
  destruct vlist; try discriminate. injection E4 as <-.
  destruct cv1 as [| | | | | |cv1d]; try discriminate. injection E5 as <-.
  destruct m1 as [| | | | | |m1d]; try discriminate. injection E6 as <-.
  eexists _, cvd, l, _. split; [reflexivity|]. split; [exact G1|]. split; [exact G3|].
  split; [apply dict_get_set_eq|]. split; [apply dict_get_set_eq|].
  intros Hnd. apply dict_set_NoDup.
  cbn [py_setdefault] in E3. destruct (dict_get key cvd).
  - injection E3 as _ <-. exact Hnd.
  - injection E3 as _ <-. apply dict_set_NoDup, Hnd.
Qed.

(** The vocabulary of a deduplicated record, for a record whose
    vocabulary has pairwise different languages. *)
Lemma deduplicate_user_vocab_of utcnow md t mem' t' cv :
  deduplicate_user utcnow (JDict md) t = Ok (mem', t') ->
  dict_get "custom_vocab" md = Some (JDict cv) ->
  NoDup (map fst cv) ->
  exists cv',
    py_getitem mem' "custom_vocab" = Ok (JDict cv')
    /\ (forall lang vl, dict_get lang cv = Some vl ->
          exists its out t1 t2,
            py_iter vl = Ok its
            /\ vocab_loop utcnow its [] [] t1 = Ok (out, t2)
            /\ dict_get lang cv' = Some (JList out)).
Proof.
  intros H Ec Hnd.
  apply deduplicate_user_steps in H
    as (cvj & items & mem1 & t1 & h & turns & unique & mem2 & stats & recent
        & recent' & stats' & S1 & S2 & S3 & S4 & S5 & S6 & S7 & S8 & S9 & S10 & S11 & S12).
  cbn [py_get_default] in S1. rewrite Ec in S1. injection S1 as <-.
  cbn [py_items] in S2. injection S2 as <-.
  destruct (vocab_pass_lookup utcnow cv md cv t mem1 t1 Hnd S3 Ec) as (cv' & -> & K & _ & T).
  { intros k Hin. apply dict_get_keys, Hin. }
  exists cv'. split.
  - rewrite (getitem_setitem_ne _ _ _ _ _ S12) by discriminate.
    rewrite (getitem_setitem_ne _ _ _ _ _ S7) by discriminate.
    cbn [py_getitem]. rewrite dict_get_set_eq. reflexivity.
  - intros lang vl Hl. apply T, dict_get_In, Hl.
Qed.

Lemma find_app_last {A : Type} (p : A -> bool) (l : list A) (x : A) :
  p x = true ->
  exists first, find p (l ++ [x]) = Some first /\ (first = x \/ In first l).
Proof.
  intros Hp. induction l as [|y l IH]; cbn [app find].
  - rewrite Hp. eauto.
  - destruct (p y) eqn:E.
    + exists y. split; [reflexivity | right; left; reflexivity].
    + destruct IH as (first & F & [Heq|Hin]); exists first; (split; [exact F|]).
      * left. exact Heq.
      * right. right. exact Hin.
Qed.

Lemma has_own_key it f :
  vocab_fields_of it = Ok f -> has_vocab_key (key_of_fields f) it = true.
Proof.
  intros H. unfold has_vocab_key. rewrite H. apply vocab_key_eqb_eq. reflexivity.
Qed.

(** The vocabulary entries of a well-formed record have pairwise
    different languages. *)
Lemma well_formed_vocab user_mem cvd :
  well_formed user_mem = true ->
  py_get_default user_mem "custom_vocab" (JDict []) = Ok (JDict cvd) ->
  NoDup (map fst cvd).
Proof.
  intros Hwf H. destruct user_mem as [| | | | | |md]; try discriminate.
  cbn [py_get_default] in H.
  destruct (dict_get "custom_vocab" md) as [c|] eqn:E; injection H as H; subst.
  - destruct (well_formed_dict _ Hwf) as (_ & Hsub).
    apply (well_formed_dict _ (Hsub _ _ (dict_get_In _ _ _ E))).
  - constructor.
Qed.

(** X20. "Add custom phrase" on a line with a separator strips the two
    parts and stores them as native and target of an entry of topic
    "user" at the user's level, appended to the list of the user's
    language.  The save that follows keeps, of the entries with the
    identity key of the phrase, exactly one: the first entry of the list
    with that key, which is an earlier entry when there is one and the
    new entry otherwise.  A phrase entered twice is stored once. *)
Theorem add_custom_phrase_stores_phrase_once
  (utcnow : nat -> string) (dump : json -> string)
  (global_data : json) (uname : string) (user_mem : json) (text : string) (t : nat)
  (g' : json) (w : option string) (t' : nat) :
  add_custom_phrase utcnow dump global_data uname user_mem text t = Ok (g', w, t') ->
  is_infix "||" text = true ->
  well_formed global_data = true ->
  well_formed user_mem = true ->
  exists a b level lang cv old rec' cv' out survivors first,
    split_once "||" text = Some (a, b)
    /\ py_get_default user_mem "level" (JInt 1) = Ok level
    /\ py_get_default user_mem "lang" (JStr "es") = Ok (JStr lang)
    /\ py_get_default user_mem "custom_vocab" (JDict []) = Ok (JDict cv)
    /\ py_get_default (JDict cv) lang (JList []) = Ok (JList old)
    /\ let ent := phrase_entry (strip a) (strip b) level (JStr (now_iso utcnow t)) in
       user_of g' uname = Ok rec'
       /\ py_getitem rec' "custom_vocab" = Ok (JDict cv')
       /\ dict_get lang cv' = Some (JList out)
       /\ subseq survivors (old ++ [ent])
       /\ Forall2 (rebuilt_from utcnow) survivors out
       /\ find (same_identity ent) (old ++ [ent]) = Some first
       /\ filter (same_identity ent) survivors = [first]
       /\ w = Some (dump g').
Proof.
  intros H Hsep Hwf Hwfm.
  unfold add_custom_phrase in H. rewrite Hsep in H.
  apply bind_ok in H. destruct H as ([a b] & E0 & H).
  apply bind_ok in H. destruct H as (level & E1 & H).
  apply bind_ok in H. destruct H as ([cv m1] & E2 & H).
  apply bind_ok in H. destruct H as (un & E3 & H).
  apply bind_ok in H. destruct H as (lang & E4 & H).
  apply bind_ok in H. destruct H as (key & E5 & H).
  apply bind_ok in H. destruct H as ([vlist cv1] & E6 & H).
  apply bind_ok in H. destruct H as (vlist1 & E7 & H).
  apply bind_ok in H. destruct H as (cv2 & E8 & H).
  apply bind_ok in H. destruct H as (m2 & E9 & H).
  apply bind_ok in H. destruct H as (g1 & E10 & H).
  apply bind_ok in H. destruct H as ([[g file] t2] & E11 & H).
  injection H as <- <- <-.
  destruct (split_once "||" text) as [[a0 b0]|] eqn:Es; [|discriminate].
  injection E0 as <- <-.
  destruct lang as [| | | |lang| |]; try discriminate. injection E5 as <-.
  fold (phrase_entry (strip a0) (strip b0) level (JStr (now_iso utcnow t))) in E7.
  set (ent := phrase_entry (strip a0) (strip b0) level (JStr (now_iso utcnow t))) in *.
  destruct (append_to_vocab_steps _ _ _ _ _ _ _ _ _ _ E2 E6 E7 E8 E9)
    as (md2 & cvd & old & cv2d & -> & V1 & V2 & V3 & V4 & V5).
  pose proof (V5 (well_formed_vocab _ _ Hwfm V1)) as Hnd.
  assert (Hlang : py_get_default user_mem "lang" (JStr "es") = Ok (JStr lang)).
  { rewrite <- E4. symmetry.
    apply (proj2 (proj2 (proj2 (setdefault_effect _ _ _ _ _ E2)))). discriminate. }
  destruct (save_after_store _ _ _ _ _ _ _ _ _ _ E10 E11 Hwf)
    as (rec' & ta & tb & U & D & F).
  destruct (deduplicate_user_vocab_of _ _ _ _ _ _ D V3 Hnd) as (cv' & C1 & C2).
  destruct (C2 _ _ V4) as (its & out & tc & td & I & L & G).
  injection I as <-.
  destruct (vocab_loop_survivors _ _ _ _ _ _ _ L) as (news & -> & F2 & Fa).
  assert (Hf : exists f, vocab_fields_of ent = Ok f).
  { rewrite Forall_forall in Fa. specialize (Fa ent).
    destruct (vocab_fields_of ent) as [f|e]; [eauto|].
    exfalso. assert (is_ok (@Raise vocab_fields e) = true); [|discriminate].
    apply Fa, in_or_app. right. left. reflexivity. }
  destruct Hf as (f & Hf).
  pose proof (same_identity_key ent f) as Hk. specialize (fun x => Hk x Hf).
  destruct (find_app_last (has_vocab_key (key_of_fields f)) old ent (has_own_key _ _ Hf))
    as (first & Ff & _).
  exists a0, b0, level, lang, cvd, old, rec', cv', news,
    (survivors_from [] (old ++ [ent])), first.
  split; [reflexivity|]. split; [exact E1|]. split; [exact Hlang|].
  split; [exact V1|]. split; [exact V2|]. cbv zeta.
  split; [exact U|]. split; [exact C1|]. split; [exact G|].
  split; [apply survivors_from_subseq|]. split; [exact F2|].
  split; [rewrite (find_same _ _ _ Hk); exact Ff|].
  split; [|rewrite F; reflexivity].
  rewrite (filter_same _ _ _ Hk), survivors_from_first. cbn [key_in existsb].
  rewrite Ff. reflexivity.
Qed.

Lemma add_custom_phrase_stores_phrase_once_witness :
  let earlier := phrase_entry "hello" "hola" (JInt 1) (JStr "2023") in
  let u := JDict [ ("name", JStr "Ana"); ("lang", JStr "es"); ("level", JInt 1);
                   ("stats", JDict [("correct", JInt 4); ("wrong", JInt 1);
                                    ("recent", JList [JInt 1])]);
                   ("custom_vocab", JDict [("es", JList [earlier])]);
                   ("conversation_history", JList []) ] in
  exists g' t' rec' cv' survivors,
    add_custom_phrase example_clock one_document_dump merge_example_store "ana" u
      " Hello ||  HOLA" 0 = Ok (g', Some "(the store)", t')
    /\ user_of g' "ana" = Ok rec'
    /\ py_getitem rec' "custom_vocab" = Ok (JDict cv')
    /\ dict_get "es" cv' = Some (JList [earlier])
    /\ filter (same_identity
                 (phrase_entry "Hello" "HOLA" (JInt 1) (JStr "2024-05-01T10:00:00Z")))
         survivors = [earlier].
Proof.
  intros earlier u.
  assert (H : exists g' t',
            add_custom_phrase example_clock one_document_dump merge_example_store "ana" u
              " Hello ||  HOLA" 0 = Ok (g', Some "(the store)", t')).
  { do 2 eexists. vm_compute. reflexivity. }
  destruct H as (g' & t' & H).
  destruct (add_custom_phrase_stores_phrase_once example_clock one_document_dump
              merge_example_store "ana" u " Hello ||  HOLA" 0%nat _ _ _
              H eq_refl eq_refl eq_refl)
    as (a & b & level & lang & cv & old & rec' & cv' & out & survivors & first
        & S & Lv & L & C & O & U & V & G & _ & _ & Ff & Fs & _).
  injection L as <-. injection S as <- <-. injection Lv as <-.
  injection C as <-. injection O as <-.
  vm_compute in Ff. injection Ff as <-.
  exists g', t', rec', cv', survivors.
  split; [exact H|]. split; [exact U|]. split; [exact V|]. split; [|exact Fs].
  vm_compute in H. injection H as <- _. vm_compute in U. injection U as <-.
  vm_compute in V. injection V as <-. vm_compute in G. injection G as <-.
  reflexivity.
Defined.

(** ** Speech synthesis *)

Lemma prefix_hyphen c s : String.prefix "-" (String c s) = is_hyphen c.
Proof.
  unfold is_hyphen. cbn [prefix].
  destruct (ascii_dec "-" c) as [<-|n].
  - destruct s; reflexivity.
  - symmetry. apply Ascii.eqb_neq. congruence.
Qed.

Lemma is_infix_hyphen s : is_infix "-" s = has_char is_hyphen s.
Proof.
  induction s as [|c s IH]; [reflexivity|].
  cbn [is_infix has_char]. rewrite prefix_hyphen, IH. reflexivity.
Qed.

Lemma split_head_join primary region :
  has_char is_hyphen primary = false ->
  split_head "-" (primary ++ "-" ++ region) = primary.
Proof.
  induction primary as [|c p IH]; intros H; [reflexivity|].
  cbn [has_char] in H. apply orb_false_iff in H as [Hc Hp].
  change (String c p ++ "-" ++ region) with (String c (p ++ "-" ++ region)).
  cbn [split_head]. unfold is_hyphen in Hc. rewrite Hc, (IH Hp). reflexivity.
Qed.

Lemma has_hyphen_join primary region :
  has_char is_hyphen (primary ++ "-" ++ region) = true.
Proof.
  induction primary as [|c p IH]; [reflexivity|].
  change (String c p ++ "-" ++ region) with (String c (p ++ "-" ++ region)).
  cbn [has_char]. rewrite IH. apply orb_true_r.
Qed.

(** X21. [tts_bytes] hears of the language code only what stands before
    its first hyphen: a code [primary-region] gives what [primary]
    gives, whatever the engine and the libraries do.  And a failure of
    the offline engine is final: with pyttsx3 as the engine the online
    service is never consulted, and when the engine raises the result is
    the error "No TTS engine available on server.". *)
Theorem tts_bytes_drops_region_and_never_falls_back
  (pyttsx3_synth : string -> option string)
  (gtts_synth : string -> string -> string + string) (text : string) :
  (forall engine primary region,
     has_char is_hyphen primary = false ->
     tts_bytes engine pyttsx3_synth gtts_synth text (primary ++ "-" ++ region)
     = tts_bytes engine pyttsx3_synth gtts_synth text primary)
  /\ (forall other lang_code,
        tts_bytes (Some Pyttsx3) pyttsx3_synth gtts_synth text lang_code
        = tts_bytes (Some Pyttsx3) pyttsx3_synth other text lang_code)
  /\ (forall lang_code,
        pyttsx3_synth text = None ->
        tts_bytes (Some Pyttsx3) pyttsx3_synth gtts_synth text lang_code
        = RuntimeError "No TTS engine available on server.").
Proof.
  split; [|split].
  - intros engine primary region H. unfold tts_bytes.
    rewrite !is_infix_hyphen, has_hyphen_join, H, (split_head_join _ _ H). reflexivity.
  - intros other lang_code. unfold tts_bytes. reflexivity.
  - intros lang_code H. unfold tts_bytes. rewrite H. reflexivity.
Qed.

Lemma tts_bytes_drops_region_and_never_falls_back_witness :
  tts_bytes (Some Gtts) (fun _ => None) echo_service "hola" ("pt" ++ "-" ++ "BR")
  = Audio "pt" "audio/mp3".
Proof.
  destruct (tts_bytes_drops_region_and_never_falls_back (fun _ => None) echo_service "hola")
    as (T & _).
  rewrite (T (Some Gtts) "pt" "BR" eq_refl). reflexivity.
Defined.

(** ** The score against a blank text *)

Lemma scan_rows_nothing_to_match a is_ blo bhi :
  forall j2len best, Difflib.scan_rows a [] is_ blo bhi j2len best = best.
Proof.
  induction is_ as [|i is_ IH]; intros j2len best; [reflexivity|].
  cbn [Difflib.scan_rows]. unfold Difflib.b2j. cbn [Difflib.positions List.length].
  cbn [Nat.leb andb Difflib.scan_row]. apply IH.
Qed.

Lemma matches_in_blank_b a fuel n :
  Difflib.matches_in a [] (S fuel) 0 n 0 0 = Some 0%nat.
Proof.
  cbn [Difflib.matches_in]. unfold Difflib.find_longest_match.
  rewrite scan_rows_nothing_to_match. cbn [fst Difflib.extend_left].
  replace (Difflib.extend_right a [] n 0 (n - (0 + 0)) (0, 0, 0)%nat) with (0, 0, 0)%nat.
  - reflexivity.
  - destruct (n - (0 + 0))%nat; cbn [Difflib.extend_right]; [reflexivity|].
    cbn [Nat.add Nat.ltb Nat.leb]. rewrite andb_false_r. reflexivity.
Qed.

Lemma matches_in_blank_a b fuel m :
  Difflib.matches_in [] b (S fuel) 0 0 0 m = Some 0%nat.
Proof. reflexivity. Qed.

Lemma seq_chars_length s : List.length (Difflib.seq_chars s) = String.length s.
Proof.
  unfold Difflib.seq_chars. induction s as [|c s IH]; simpl; [reflexivity|].
  rewrite IH. reflexivity.
Qed.

Lemma ratio_blank_b a :
  Difflib.ratio a "" = Ok (Difflib.calculate_ratio 0 (String.length a)).
Proof.
  unfold Difflib.ratio. change (Difflib.seq_chars "") with (@nil ascii).
  cbn [List.length]. rewrite matches_in_blank_b, seq_chars_length, Nat.add_0_r.
  reflexivity.
Qed.

Lemma ratio_blank_a b :
  Difflib.ratio "" b = Ok (Difflib.calculate_ratio 0 (String.length b)).
Proof.
  unfold Difflib.ratio. change (Difflib.seq_chars "") with (@nil ascii).
  cbn [List.length]. rewrite matches_in_blank_a, seq_chars_length. reflexivity.
Qed.

(** Zero divided by any float is not a score of 0.65 or more. *)
Lemma zero_over_anything_is_low (y : float) : is_correct (0 / y) = false.
Proof.
  unfold is_correct. rewrite FloatAxioms.leb_spec, FloatAxioms.div_spec.
  destruct (Prim2SF y) as [s|s| |s m e]; try destruct s; reflexivity.
Qed.

Lemma no_match_is_low n : is_correct (Difflib.calculate_ratio 0 (S n)) = false.
Proof.
  unfold Difflib.calculate_ratio.
  change (2 * float_of_Z (Z.of_nat 0))%float with 0%float.
  apply zero_over_anything_is_low.
Qed.

Lemma normalize_of_text text : strip text = text -> text <> "" -> normalize text <> "".
Proof.
  intros Hs Hn. rewrite normalize_unfold.
  rewrite <- lower_strip, <- (map_chars_strip _ isspace_repl_get), Hs.
  destruct text as [|c s]; [congruence|]. discriminate.
Qed.

(** X22. A blank side gives no match.  When one of the two normalized
    texts is empty and the other is not, [fuzzy_ratio] returns a score
    below the threshold 0.65; when both are empty it returns 1.0.  In
    particular a prompt whose target is missing, [None], empty or blank
    can never be answered correctly: every answer the practice handler
    scores (a stripped text that is not empty) is counted as wrong. *)
Theorem blank_text_never_matches :
  (forall a b, normalize_any a = Ok "" -> normalize_any b = Ok "" ->
     fuzzy_ratio a b = Ok 1%float)
  /\ (forall a b na nb,
        normalize_any a = Ok na -> normalize_any b = Ok nb ->
        na = "" \/ nb = "" -> na <> nb ->
        exists score, fuzzy_ratio a b = Ok score /\ is_correct score = false)
  /\ (forall text tgt,
        strip text = text -> text <> "" -> normalize_any tgt = Ok "" ->
        exists score,
          score_answer (JStr text) tgt = Ok score /\ is_correct score = false).
Proof.
  assert (Low : forall a b na nb,
            normalize_any a = Ok na -> normalize_any b = Ok nb ->
            na = "" \/ nb = "" -> na <> nb ->
            exists score, fuzzy_ratio a b = Ok score /\ is_correct score = false).
  { intros a b na nb Ha Hb Hblank Hne. unfold fuzzy_ratio. rewrite Ha, Hb. cbn [bind].
    destruct Hblank as [-> | ->].
    - rewrite ratio_blank_a. eexists. split; [reflexivity|].
      destruct nb as [|c s]; [congruence|]. apply no_match_is_low.
    - rewrite ratio_blank_b. eexists. split; [reflexivity|].
      destruct na as [|c s]; [congruence|]. apply no_match_is_low. }
  split; [|split; [exact Low|]].
  - intros a b Ha Hb. unfold fuzzy_ratio. rewrite Ha, Hb. reflexivity.
  - intros text tgt Hs Hn Ht. unfold score_answer.
    apply (Low _ _ (normalize text) ""); [apply normalize_any_str | exact Ht | auto |].
    apply normalize_of_text; assumption.
Qed.

Lemma blank_text_never_matches_witness :
  exists score,
    score_answer (JStr "hola") JNull = Ok score /\ is_correct score = false.
Proof.
  destruct blank_text_never_matches as (_ & _ & T).
  apply (T "hola" JNull); [reflexivity | discriminate | reflexivity].
Defined.

(** ** The admin buttons *)

Lemma dict_get_del_ne k u d : u <> k -> dict_get u (dict_del k d) = dict_get u d.
Proof.
  intros Hne. induction d as [|[k' v] d IH]; [reflexivity|].
  cbn [dict_del]. destruct (String.eqb k k') eqn:E.
  - apply String.eqb_eq in E. subst k'. cbn [dict_get].
    apply String.eqb_neq in Hne. rewrite Hne. reflexivity.
  - cbn [dict_get]. rewrite IH. reflexivity.
Qed.

Lemma dict_del_incl k d : incl (dict_del k d) d.
Proof.
  induction d as [|[k' v] d IH]; [apply incl_refl|].
  cbn [dict_del]. destruct (String.eqb k k').
  - apply incl_tl, incl_refl.
  - apply incl_cons; [left; reflexivity | apply incl_tl, IH].
Qed.

Lemma dict_get_del_eq k d : NoDup (map fst d) -> dict_get k (dict_del k d) = None.
Proof.
  induction d as [|[k' v] d IH]; intros Hnd; [reflexivity|].
  inversion Hnd as [|? ? Hnot Hnd']; subst.
  cbn [dict_del]. destruct (String.eqb k k') eqn:E.
  - apply String.eqb_eq in E. subst k'. apply dict_get_fresh, Hnot.
  - cbn [dict_get]. rewrite E. apply IH, Hnd'.
Qed.

Lemma dict_del_length k d :
  dict_has k d = true -> S (List.length (dict_del k d)) = List.length d.
Proof.
  unfold dict_has. induction d as [|[k' v] d IH]; [discriminate|].
  cbn [dict_get dict_del]. destruct (String.eqb k k'); [reflexivity|].
  intros H. cbn [List.length]. rewrite (IH H). reflexivity.
Qed.

(** X23. The admin buttons on one user.  "Reset user data" leaves, in
    the saved store, the default record under the selected name (with no
    name of its own: the display name is lost).  "Delete user" leaves a
    store with one user fewer: the selected name is gone, every other
    name is still there, and the record of every remaining user is the
    deduplication of the record it had. *)
Theorem admin_reset_and_delete_one_user
  (utcnow : nat -> string) (dump : json -> string)
  (global_data : json) (sel : string) (t : nat)
  (g' : json) (file : string) (t' : nat) :
  well_formed global_data = true ->
  (reset_user utcnow dump global_data sel t = Ok (g', file, t') ->
     user_of g' sel = Ok default_user /\ file = dump g')
  /\ (delete_user utcnow dump global_data sel t = Ok (g', file, t') ->
        exists ud ud',
          py_getitem global_data "users" = Ok (JDict ud)
          /\ py_getitem g' "users" = Ok (JDict ud')
          /\ dict_get sel ud' = None
          /\ S (List.length ud') = List.length ud
          /\ (forall u, u <> sel -> (dict_get u ud' <> None <-> dict_get u ud <> None))
          /\ (forall u rec', dict_get u ud' = Some rec' ->
                exists rec t1 t2,
                  dict_get u ud = Some rec
                  /\ deduplicate_user utcnow rec t1 = Ok (rec', t2))
          /\ file = dump g').
Proof.
  intros Hwf. split.
  - unfold reset_user. intros H.
    apply bind_ok in H. destruct H as (g1 & St & H).
    destruct (save_after_store _ _ _ _ _ _ _ _ _ _ St H Hwf) as (rec' & ta & tb & U & D & F).
    split; [|exact F].
    change (deduplicate_user utcnow default_user ta) with (Ok (default_user, ta)) in D.
    injection D as <- _. exact U.
  - unfold delete_user. intros H.
    apply bind_ok in H. destruct H as (users & E1 & H).
    apply bind_ok in H. destruct H as (users' & E2 & H).
    apply bind_ok in H. destruct H as (g1 & E3 & H).
    destruct global_data as [| | | | | |dd]; try discriminate.
    cbn [py_getitem] in E1.
    destruct (dict_get "users" dd) as [u0|] eqn:Eu; [|discriminate].
    injection E1 as ->.
    destruct users as [| | | | | |ud]; try discriminate.
    cbn [py_delitem] in E2. destruct (dict_has sel ud) eqn:Eh; [|discriminate].
    injection E2 as <-. injection E3 as <-.
    destruct (well_formed_dict _ Hwf) as (_ & Hsub).
    destruct (well_formed_dict _ (Hsub _ _ (dict_get_In _ _ _ Eu))) as (Hnd & _).
    unfold save_global in H.
    apply bind_ok in H. destruct H as ([d1 ta] & D & H). injection H as <- <- <-.
    destruct (deduplicate_global_steps _ _ _ _ _ D) as (dd1 & ud1 & users' & Ed & U & L & ->).
    injection Ed as <-. cbn [py_get_default] in U. rewrite dict_get_set_eq in U.
    injection U as <-.
    destruct (dedup_users_keys _ _ _ _ _ _ L) as (ud' & -> & K).
    { intros k Hin. apply dict_get_keys, Hin. }
    destruct (dedup_users_values _ _ _ _ _ _ L) as (ud'' & Eq & V). injection Eq as <-.
    assert (Keys : forall u, dict_get u ud' <> None <-> dict_get u (dict_del sel ud) <> None).
    { intros u. rewrite !dict_get_keys, K. reflexivity. }
    exists ud, ud'. split; [cbn [py_getitem]; rewrite Eu; reflexivity|].
    split; [cbn [py_getitem]; rewrite dict_get_set_eq; reflexivity|].
    split.
    { destruct (dict_get sel ud') eqn:Eg; [|reflexivity].
      exfalso. apply (proj1 (Keys sel)); [congruence|]. apply dict_get_del_eq, Hnd. }
    split.
    { rewrite <- (dict_del_length _ _ Eh). f_equal.
      rewrite <- (length_map fst ud'), K, length_map. reflexivity. }
    split.
    { intros u Hne. rewrite Keys, (dict_get_del_ne _ _ _ Hne). reflexivity. }
    split; [|reflexivity].
    intros u rec' Hg. destruct (V _ _ Hg) as [(_ & Hn)|(rec & t1 & t2 & Hin & R)].
    + exfalso. apply Hn. rewrite <- K. apply dict_get_keys. congruence.
    + exists rec, t1, t2. split; [|exact R].
      apply (In_dict_get _ _ _ Hnd), (dict_del_incl sel), Hin.
Qed.

Lemma admin_reset_and_delete_one_user_witness :
  exists g' file t' ud',
    delete_user example_clock one_document_dump plain_example_after "ana" 0
    = Ok (g', file, t')
    /\ py_getitem g' "users" = Ok (JDict ud')
    /\ map fst ud' = ["ben"].
Proof.
  assert (H : exists g' file t',
            delete_user example_clock one_document_dump plain_example_after "ana" 0
            = Ok (g', file, t')).
  { do 3 eexists. vm_compute. reflexivity. }
  destruct H as (g' & file & t' & H).
  destruct (admin_reset_and_delete_one_user example_clock one_document_dump
              plain_example_after "ana" 0%nat g' file t' eq_refl) as (_ & T).
  destruct (T H) as (ud & ud' & _ & G & _).
  exists g', file, t', ud'. split; [exact H|]. split; [exact G|].
  vm_compute in H. injection H as <- _ _. vm_compute in G. injection G as <-. reflexivity.
Defined.

(** ** The matcher on two equal sequences *)

Section EqualSequences.

Local Open Scope nat_scope.

Variable s : list ascii.

Lemma positions_spec c :
  forall b k j,
    In j (Difflib.positions c b k)
    <-> k <= j /\ j < k + List.length b /\ nth (j - k) b "000"%char = c.
Proof.
  induction b as [|x b IH]; intros k j; cbn [Difflib.positions List.length].
  - split; [intros [] | lia].
  - assert (Hrest : In j (Difflib.positions c b (S k))
                    <-> S k <= j /\ j < k + S (List.length b)
                        /\ nth (j - k) (x :: b) "000"%char = c).
    { rewrite IH. split.
      - intros (H1 & H2 & H3). split; [exact H1|]. split; [lia|].
        replace (j - k) with (S (j - S k)) by lia. exact H3.
      - intros (H1 & H2 & H3). split; [exact H1|]. split; [lia|].
        replace (j - k) with (S (j - S k)) in H3 by lia. exact H3. }
    destruct (Ascii.eqb x c) eqn:E.
    + apply Ascii.eqb_eq in E. subst x. cbn [In]. rewrite Hrest. split.
      * intros [<-|(H1 & H2 & H3)].
        -- split; [lia|]. split; [lia|]. rewrite Nat.sub_diag. reflexivity.
        -- split; [lia|]. split; [lia | exact H3].
      * intros (H1 & H2 & H3).
        destruct (Nat.eq_dec k j) as [->|Hne]; [left; reflexivity|].
        right. split; [lia|]. split; [lia | exact H3].
    + rewrite Hrest. split.
      * intros (H1 & H2 & H3). split; [lia|]. split; [lia | exact H3].
      * intros (H1 & H2 & H3). split; [|split; [lia | exact H3]].
        destruct (Nat.eq_dec k j) as [->|Hne]; [|lia].
        rewrite Nat.sub_diag in H3. cbn [nth] in H3. subst x.
        rewrite Ascii.eqb_refl in E. discriminate.
Qed.

Lemma positions_in c j :
  In j (Difflib.positions c s 0) <-> j < List.length s /\ Difflib.at_pos s j = c.
Proof.
  rewrite positions_spec. unfold Difflib.at_pos. rewrite Nat.sub_0_r. cbn [Nat.add].
  split.
  - intros (_ & H2 & H3). auto.
  - intros (H2 & H3). split; [lia | auto].
Qed.

Lemma positions_split c :
  forall b k done j rest,
    Difflib.positions c b k = (done ++ j :: rest)%list ->
    (forall x, In x done -> x < j) /\ (forall y, In y rest -> j < y).
Proof.
  induction b as [|x b IH]; intros k done j rest H; cbn [Difflib.positions] in H.
  - destruct done; discriminate.
  - destruct (Ascii.eqb x c).
    + destruct done as [|d done]; cbn [app] in H; injection H as <- H.
      * split; [intros ? []|]. intros y Hy.
        assert (Hin : In y (Difflib.positions c b (S k))) by (rewrite H; exact Hy).
        apply positions_spec in Hin. lia.
      * destruct (IH _ _ _ _ H) as (H1 & H2). split; [|exact H2].
        intros z [<-|Hz]; [|apply H1, Hz].
        assert (Hin : In j (Difflib.positions c b (S k))).
        { rewrite H. apply in_or_app. right. left. reflexivity. }
        apply positions_spec in Hin. lia.
    + apply (IH _ _ _ _ H).
Qed.

Lemma b2j_live c :
  Difflib.b2j s c = if matcher_live s c then Difflib.positions c s 0 else [].
Proof.
  unfold Difflib.b2j, matcher_live.
  destruct ((200 <=? List.length s)
            && (List.length s / 100 + 1 <? List.length (Difflib.positions c s 0)));
    reflexivity.
Qed.

Lemma diagonal_run_eq i j :
  diagonal_run s i j
  = if (j <? List.length s)
       && Ascii.eqb (Difflib.at_pos s i) (Difflib.at_pos s j)
       && matcher_live s (Difflib.at_pos s i)
    then S (match i, j with
            | S i', S j' => diagonal_run s i' j'
            | _, _ => 0
            end)
    else 0.
Proof. destruct i; reflexivity. Qed.

(** A run that ends off the diagonal is no longer than the runs that end
    on the diagonal in its column and in its row. *)
Lemma run_under_column i : forall j, diagonal_run s i j <= diagonal_run s j j.
Proof.
  induction i as [|i IH]; intros j; rewrite (diagonal_run_eq _ j), (diagonal_run_eq j j).
  - destruct (j <? List.length s) eqn:Ej; [|cbn; lia].
    destruct (Ascii.eqb (Difflib.at_pos s 0) (Difflib.at_pos s j)) eqn:Ec; [|cbn; lia].
    apply Ascii.eqb_eq in Ec. rewrite <- Ec, Ascii.eqb_refl.
    cbn [andb]. destruct (matcher_live s (Difflib.at_pos s 0)); lia.
  - destruct (j <? List.length s) eqn:Ej; [|cbn; lia].
    destruct (Ascii.eqb (Difflib.at_pos s (S i)) (Difflib.at_pos s j)) eqn:Ec; [|cbn; lia].
    apply Ascii.eqb_eq in Ec. rewrite <- Ec, Ascii.eqb_refl.
    cbn [andb]. destruct (matcher_live s (Difflib.at_pos s (S i))); [|lia].
    destruct j as [|j]; [lia|]. specialize (IH j). lia.
Qed.

Lemma run_under_row i :
  forall j, i < List.length s -> diagonal_run s i j <= diagonal_run s i i.
Proof.
  induction i as [|i IH]; intros j Hi; rewrite (diagonal_run_eq _ j), (diagonal_run_eq _ _).
  - apply Nat.ltb_lt in Hi. rewrite Hi, Ascii.eqb_refl.
    destruct ((j <? List.length s)
              && Ascii.eqb (Difflib.at_pos s 0) (Difflib.at_pos s j)); cbn [andb];
      destruct (matcher_live s (Difflib.at_pos s 0)); lia.
  - assert (Hi' : i < List.length s) by lia.
    apply Nat.ltb_lt in Hi. rewrite Hi, Ascii.eqb_refl.
    destruct ((j <? List.length s)
              && Ascii.eqb (Difflib.at_pos s (S i)) (Difflib.at_pos s j)); cbn [andb];
      destruct (matcher_live s (Difflib.at_pos s (S i))); try lia.
    destruct j as [|j]; [lia|]. specialize (IH j Hi'). lia.
Qed.

Lemma run_off_the_index i j :
  ~ In j (Difflib.positions (Difflib.at_pos s i) s 0) -> diagonal_run s i j = 0.
Proof.
  intros H. rewrite diagonal_run_eq.
  destruct (j <? List.length s) eqn:Ej; [|reflexivity].
  destruct (Ascii.eqb (Difflib.at_pos s i) (Difflib.at_pos s j)) eqn:Ec; [|reflexivity].
  exfalso. apply H, positions_in. apply Nat.ltb_lt in Ej. apply Ascii.eqb_eq in Ec. auto.
Qed.

Lemma scan_row_equal i j2len :
  i < List.length s ->
  (forall q, Difflib.j2len_get j2len q = row_before s i q) ->
  forall js done newj2len best,
    Difflib.positions (Difflib.at_pos s i) s 0 = (done ++ js)%list ->
    matcher_live s (Difflib.at_pos s i) = true ->
    (forall q, Difflib.j2len_get newj2len q
               = if existsb (Nat.eqb q) done then diagonal_run s i q else 0) ->
    on_diagonal best ->
    (forall q, In q done -> diagonal_run s i q <= size_of best) ->
    (forall i' q, i' < i -> diagonal_run s i' q <= size_of best) ->
    let out := Difflib.scan_row js 0 (List.length s) i j2len newj2len best in
    (forall q, Difflib.j2len_get (fst out) q
               = if existsb (Nat.eqb q) (done ++ js) then diagonal_run s i q else 0)
    /\ on_diagonal (snd out)
    /\ (forall q, In q (done ++ js) -> diagonal_run s i q <= size_of (snd out))
    /\ (forall i' q, i' < i -> diagonal_run s i' q <= size_of (snd out)).
Proof.
  intros Hi Hprev. induction js as [|j js IH];
    intros done newj2len best Hpos Hlive Hnew Hdiag Hdone Hrows.
  - cbn [Difflib.scan_row fst snd]. rewrite app_nil_r. auto.
  - cbn zeta. cbn [Difflib.scan_row].
    assert (Hj : j < List.length s /\ Difflib.at_pos s j = Difflib.at_pos s i).
    { apply positions_in. rewrite Hpos. apply in_or_app. right. left. reflexivity. }
    destruct Hj as (Hjn & Hjc).
    cbn [Nat.ltb Nat.leb].
    destruct (List.length s <=? j) eqn:El; [apply Nat.leb_le in El; lia|].
    set (k := (match j with O => 0 | S j' => Difflib.j2len_get j2len j' end) + 1).
    assert (Hk : k = diagonal_run s i j).
    { unfold k. rewrite diagonal_run_eq.
      apply Nat.ltb_lt in Hjn. rewrite Hjn, Hjc, Ascii.eqb_refl.
      cbn [andb]. rewrite Hlive.
      destruct j as [|j']; [destruct i; reflexivity|].
      rewrite Hprev. unfold row_before. destruct i; lia. }
    destruct (positions_split _ _ _ _ _ _ Hpos) as (Hbefore & Hafter).
    destruct best as [[bi bj] bs]. cbn [on_diagonal size_of snd] in *.
    set (best' := if bs <? k then (i + 1 - k, j + 1 - k, k) else (bi, bj, bs)).
    assert (Hbest' : on_diagonal best' /\ bs <= size_of best' /\ k <= size_of best').
    { unfold best'. destruct (bs <? k) eqn:Eb.
      - apply Nat.ltb_lt in Eb. cbn [on_diagonal size_of snd].
        assert (i = j); [|subst; split; [reflexivity | lia]].
        destruct (Nat.lt_trichotomy i j) as [Hlt|[Heq|Hgt]]; [|exact Heq|].
        + exfalso.
          assert (Hin : In i (done ++ j :: js)).
          { rewrite <- Hpos. apply positions_in. auto. }
          apply in_app_or in Hin as [Hin|[Hin|Hin]].
          * pose proof (Hdone _ Hin). pose proof (run_under_row i j Hi). lia.
          * lia.
          * apply Hafter in Hin. lia.
        + exfalso. pose proof (Hrows j j Hgt). pose proof (run_under_column i j). lia.
      - apply Nat.ltb_ge in Eb. cbn [on_diagonal size_of snd]. auto. }
    destruct Hbest' as (Hd' & Hbs & Hks).
    specialize (IH (done ++ [j])%list ((j, k) :: newj2len) best').
    rewrite <- app_assoc in IH. cbn [app] in IH.
    apply IH.
    + exact Hpos.
    + exact Hlive.
    + intros q. cbn [Difflib.j2len_get]. rewrite existsb_app. cbn [existsb].
      rewrite orb_false_r, Hnew. rewrite (Nat.eqb_sym q j).
      destruct (j =? q) eqn:Eq.
      * apply Nat.eqb_eq in Eq. subst q. rewrite orb_true_r. exact Hk.
      * rewrite orb_false_r. reflexivity.
    + exact Hd'.
    + intros q Hq. apply in_app_or in Hq as [Hq|[<-|[]]].
      * specialize (Hdone _ Hq). lia.
      * lia.
    + intros i' q Hlt. specialize (Hrows i' q Hlt). lia.
Qed.

Lemma scan_rows_equal m :
  forall i j2len best,
    i + m = List.length s ->
    (forall q, Difflib.j2len_get j2len q = row_before s i q) ->
    on_diagonal best ->
    (forall i' q, i' < i -> diagonal_run s i' q <= size_of best) ->
    on_diagonal (Difflib.scan_rows s s (seq i m) 0 (List.length s) j2len best).
Proof.
  induction m as [|m IH]; intros i j2len best Hlen Hprev Hdiag Hrows; [exact Hdiag|].
  cbn [seq Difflib.scan_rows].
  assert (Hi : i < List.length s) by lia.
  rewrite b2j_live.
  destruct (matcher_live s (Difflib.at_pos s i)) eqn:Elive.
  - pose proof (scan_row_equal i j2len Hi Hprev
                  (Difflib.positions (Difflib.at_pos s i) s 0) [] [] best eq_refl Elive
                  (fun _ => eq_refl) Hdiag (fun _ H => match H with end) Hrows) as Hrow.
    cbn zeta in Hrow. cbn [app] in Hrow.
    destruct (Difflib.scan_row _ 0 (List.length s) i j2len [] best) as [newj2len best'].
    cbn [fst snd] in Hrow. destruct Hrow as (R1 & R2 & R3 & R4).
    apply IH; [lia | | exact R2 |].
    + intros q. rewrite R1. cbn [row_before].
      destruct (existsb (Nat.eqb q) (Difflib.positions (Difflib.at_pos s i) s 0)) eqn:E;
        [reflexivity|].
      symmetry. apply run_off_the_index. intros Hin.
      assert (existsb (Nat.eqb q) (Difflib.positions (Difflib.at_pos s i) s 0) = true);
        [|congruence].
      apply existsb_exists. exists q. split; [exact Hin | apply Nat.eqb_refl].
    + intros i' q Hlt. destruct (Nat.eq_dec i' i) as [->|Hne].
      * destruct (in_dec Nat.eq_dec q (Difflib.positions (Difflib.at_pos s i) s 0))
          as [Hin|Hn]; [apply R3, Hin|].
        rewrite (run_off_the_index _ _ Hn). lia.
      * apply R4. lia.
  - cbn [Difflib.scan_row]. apply IH; [lia | | exact Hdiag |].
    + intros q. cbn [Difflib.j2len_get row_before]. rewrite diagonal_run_eq, Elive.
      rewrite andb_false_r. reflexivity.
    + intros i' q Hlt. destruct (Nat.eq_dec i' i) as [->|Hne]; [|apply Hrows; lia].
      rewrite diagonal_run_eq, Elive, andb_false_r. lia.
Qed.

Lemma extend_left_equal i : forall k,
  Difflib.extend_left s s 0 0 i (i, i, k) = (0, 0, k + i).
Proof.
  induction i as [|i IH]; intros k; cbn [Difflib.extend_left].
  - rewrite Nat.add_0_r. reflexivity.
  - cbn [Nat.ltb Nat.leb andb]. rewrite Ascii.eqb_refl.
    replace (S i - 1) with i by lia. rewrite IH. f_equal. lia.
Qed.

Lemma extend_right_equal fuel : forall k,
  k + fuel = List.length s ->
  Difflib.extend_right s s (List.length s) (List.length s) fuel (0, 0, k)
  = (0, 0, List.length s).
Proof.
  induction fuel as [|fuel IH]; intros k Hk; cbn [Difflib.extend_right].
  - rewrite Nat.add_0_r in Hk. subst k. reflexivity.
  - cbn [Nat.add]. assert (Hlt : (k <? List.length s) = true) by (apply Nat.ltb_lt; lia).
    rewrite Hlt, Ascii.eqb_refl. cbn [andb]. apply IH. lia.
Qed.

(** On two equal sequences the longest block is the whole sequence. *)
Lemma find_longest_match_equal :
  Difflib.find_longest_match s s 0 (List.length s) 0 (List.length s)
  = (0, 0, List.length s).
Proof.
  unfold Difflib.find_longest_match. rewrite Nat.sub_0_r.
  pose proof (scan_rows_equal (List.length s) 0 [] (0, 0, 0) eq_refl
                (fun _ => eq_refl) eq_refl (fun _ _ H => match Nat.nlt_0_r _ H with end))
    as Hdiag.
  pose proof (scan_rows_bounds s s 0 (List.length s) (List.length s) 0 0
                (List.length s) [] (0, 0, 0)) as Hb.
  destruct (Difflib.scan_rows s s (seq 0 (List.length s)) 0 (List.length s) [] (0, 0, 0))
    as [[bi bj] bs].
  cbn [on_diagonal] in Hdiag. subst bj.
  assert (Hbound : bi + bs <= List.length s).
  { unfold block_in_rows in Hb. apply Hb; [lia | lia | intros ? ? [] | lia]. }
  cbn [fst]. rewrite extend_left_equal.
  apply extend_right_equal. lia.
Qed.

Lemma matches_in_equal :
  Difflib.matches_in s s (S (List.length s)) 0 (List.length s) 0 (List.length s)
  = Some (List.length s).
Proof.
  cbn [Difflib.matches_in]. rewrite find_longest_match_equal.
  destruct (List.length s =? 0) eqn:E.
  - apply Nat.eqb_eq in E. rewrite E. reflexivity.
  - rewrite (Nat.ltb_irrefl 0). cbn [andb Nat.add].
    rewrite (Nat.ltb_irrefl (List.length s)). cbn [andb].
    f_equal. lia.
Qed.

End EqualSequences.

Lemma ratio_equal a :
  Difflib.ratio a a
  = Ok (Difflib.calculate_ratio (String.length a) (String.length a + String.length a)).
Proof.
  unfold Difflib.ratio. rewrite matches_in_equal, seq_chars_length. reflexivity.
Qed.

Lemma full_match_is_one_on_spec k :
  forall lo z,
    full_match_is_one_on k lo = true ->
    lo <= z < lo + 2 ^ Z.of_nat k -> full_match_is_one z = true.
Proof.
  induction k as [|k IH]; intros lo z H Hz.
  - cbn in Hz. replace z with lo by lia. exact H.
  - cbn [full_match_is_one_on] in H. apply andb_true_iff in H as [H1 H2].
    rewrite Nat2Z.inj_succ, Z.pow_succ_r in Hz by lia.
    destruct (Z_lt_ge_dec z (lo + 2 ^ Z.of_nat k)) as [Hlt|Hge].
    + apply (IH lo); [exact H1 | lia].
    + apply (IH (lo + 2 ^ Z.of_nat k)); [exact H2 | lia].
Qed.

Lemma full_match_ratio_is_one n :
  Z.of_nat n <= 100000 ->
  Difflib.calculate_ratio n (n + n) = 1%float.
Proof.
  intros Hn. destruct n as [|n]; [reflexivity|].
  unfold Difflib.calculate_ratio. cbn [Nat.add].
  change (match S (n + S n) with O => 1%float | S _ => ?x end) with x.
  assert (H : full_match_is_one (Z.of_nat (S n)) = true).
  { apply (full_match_is_one_on_spec 17 1); [vm_compute; reflexivity|].
    change (2 ^ Z.of_nat 17) with 131072. lia. }
  unfold full_match_is_one in H. apply Leibniz.eqb_spec in H.
  replace (Z.of_nat (S (n + S n))) with (Z.of_nat (S n) + Z.of_nat (S n)) by lia.
  exact H.
Qed.

(** X24. An answer that normalizes to the same text as the target is a
    full match: the matcher pairs every character (also on a long text,
    where it purges frequent characters from its index), so the score is
    [2.0 * n / (n + n)] for a text of [n] characters, which is 1.0, and
    the answer is counted as correct.  The value is computed for every
    [n] up to 100000. *)
Theorem same_normalized_text_is_a_full_match (a b : json) (text : string) :
  normalize_any a = Ok text ->
  normalize_any b = Ok text ->
  fuzzy_ratio a b
  = Ok (Difflib.calculate_ratio (String.length text)
          (String.length text + String.length text))
  /\ (Z.of_nat (String.length text) <= 100000 ->
      fuzzy_ratio a b = Ok 1%float /\ is_correct 1%float = true).
Proof.
  intros Ha Hb. unfold fuzzy_ratio. rewrite Ha, Hb. cbn [bind]. rewrite ratio_equal.
  split; [reflexivity|]. intros Hn.
  rewrite (full_match_ratio_is_one _ Hn). split; reflexivity.
Qed.

Lemma same_normalized_text_is_a_full_match_witness :
  fuzzy_ratio (JStr "  HOLA ") (JStr "hola") = Ok 1%float.
Proof.
  destruct (same_normalized_text_is_a_full_match (JStr "  HOLA ") (JStr "hola") "hola"
              eq_refl eq_refl) as (_ & T).
  apply T. cbn. lia.
Defined.

(** ** The import, from the merge to the saved store *)

Lemma get_frame m m' k :
  py_getitem m' k = py_getitem m k ->
  (exists d, m = JDict d) -> (exists d, m' = JDict d) ->
  py_get m' k = py_get m k.
Proof.
  intros H [d ->] [d' ->]. simpl in *.
  destruct (dict_get k d'), (dict_get k d); congruence.
Qed.

Lemma merge_user_users global_data k v global_data' ud :
  merge_user global_data k v = Ok global_data' ->
  py_get_default global_data "users" (JDict []) = Ok (JDict ud) ->
  exists x, py_get_default global_data' "users" (JDict []) = Ok (JDict (dict_set k x ud)).
Proof.
  unfold merge_user. intros H Hu. rewrite Hu in H. cbn [bind py_contains] in H.
  destruct global_data as [| | | | | |dd]; try discriminate.
  cbn [py_get_default] in Hu.
  destruct (dict_has k ud); cbn [negb] in H.
  - apply bind_ok in H. destruct H as (us & E1 & H).
    apply bind_ok in H. destruct H as (existing & E2 & H).
    apply bind_ok in H. destruct H as (existing' & E3 & H).
    apply bind_ok in H. destruct H as (us' & E4 & H).
    cbn [py_getitem] in E1. destruct (dict_get "users" dd) as [u|]; [|discriminate].
    injection Hu as ->. injection E1 as <-. injection E4 as <-. injection H as <-.
    exists existing'. cbn [py_get_default]. rewrite dict_get_set_eq. reflexivity.
  - apply bind_ok in H. destruct H as ([us g1] & E1 & H).
    apply bind_ok in H. destruct H as (us' & E2 & H).
    cbn [py_setdefault] in E1.
    destruct (dict_get "users" dd) as [u|].
    + injection Hu as ->. injection E1 as <- <-. injection E2 as <-. injection H as <-.
      exists v. cbn [py_get_default]. rewrite dict_get_set_eq. reflexivity.
    + injection Hu as <-. injection E1 as <- <-. injection E2 as <-. injection H as <-.
      exists v. cbn [py_get_default]. rewrite dict_get_set_eq. reflexivity.
Qed.

Lemma merge_loop_users_nodup items :
  forall global_data global_data' ud,
    merge_loop items global_data = Ok global_data' ->
    py_get_default global_data "users" (JDict []) = Ok (JDict ud) ->
    NoDup (map fst ud) ->
    exists ud',
      py_get_default global_data' "users" (JDict []) = Ok (JDict ud')
      /\ NoDup (map fst ud').
Proof.
  induction items as [|[k v] rest IH]; intros g g' ud H Hu Hnd.
  - simpl in H. injection H as <-. eauto.
  - cbn [merge_loop] in H. apply bind_ok in H. destruct H as (g1 & E & H).
    destruct (merge_user_users _ _ _ _ _ E Hu) as (x & Hu1).
    apply (IH _ _ _ H Hu1). apply dict_set_NoDup, Hnd.
Qed.

(** X25. The import deduplicates what the merge has joined.  For a
    user who is in the store and in the uploaded document, the history in
    the saved store is the last 500 of the records rebuilt from the
    entries kept of the existing history followed by the uploaded one:
    the kept entries stand in that order, no two of them have equal keys,
    and every entry of either history is kept or has the key of a kept
    entry.  An uploaded entry whose key is that of an existing entry is
    not stored a second time. *)
Theorem merge_upload_deduplicates_joined_history
  (utcnow : nat -> string) (dump : json -> string)
  (global_data rd : json) (t : nat) (g' : json) (file : string) (t' : nat)
  (ud inc : list (string * json)) (k : string) (existing v : json)
  (old new : list json) :
  merge_upload utcnow dump global_data rd t = Ok (g', file, t') ->
  well_formed global_data = true ->
  well_formed rd = true ->
  py_get_default global_data "users" (JDict []) = Ok (JDict ud) ->
  py_get_default rd "users" rd = Ok (JDict inc) ->
  dict_get k ud = Some existing ->
  dict_get k inc = Some v ->
  py_get_default existing "conversation_history" (JList []) = Ok (JList old) ->
  py_get_default v "conversation_history" (JList []) = Ok (JList new) ->
  exists rec' survivors news,
    user_of g' k = Ok rec'
    /\ py_getitem rec' "conversation_history" = Ok (JList (last_n 500 news))
    /\ Forall2 (history_rebuilt_from utcnow) survivors news
    /\ subseq survivors (old ++ new)
    /\ ForallOrdPairs (fun e1 e2 => same_history_key existing e2 e1 = false) survivors
    /\ (forall turn, In turn (old ++ new) ->
          In turn survivors
          \/ exists s, In s survivors /\ same_history_key existing turn s = true)
    /\ file = dump g'.
Proof.
  unfold merge_upload. intros H Hwf Hwfr Hu Hinc Hk Hv Hold Hnew.
  apply bind_ok in H. destruct H as (g1 & M & Sv).
  (* the merge *)
  unfold merge in M. rewrite Hinc in M. cbn [bind py_items] in M.
  assert (Hwfi : well_formed (JDict inc) = true).
  { destruct rd as [| | | | | |rdd]; try discriminate.
    cbn [py_get_default] in Hinc. destruct (dict_get "users" rdd) eqn:Er.
    - injection Hinc as ->. destruct (well_formed_dict _ Hwfr) as (_ & Hsub).
      apply (Hsub _ _ (dict_get_In _ _ _ Er)).
    - injection Hinc as <-. exact Hwfr. }
  destruct (well_formed_dict _ Hwfi) as (Hndi & Hwfv).
  assert (Hndu : NoDup (map fst ud)).
  { destruct global_data as [| | | | | |dd]; try discriminate.
    cbn [py_get_default] in Hu. destruct (dict_get "users" dd) eqn:Eu.
    - injection Hu as ->. destruct (well_formed_dict _ Hwf) as (_ & Hsub).
      apply (well_formed_dict _ (Hsub _ _ (dict_get_In _ _ _ Eu))).
    - injection Hu as <-. constructor. }
  destruct (merge_loop_effect _ _ _ _ Hndi M Hu) as (ud1 & U1 & _ & V3).
  destruct (merge_loop_users_nodup _ _ _ _ M Hu Hndu) as (ud1' & U1' & Hnd1).
  rewrite U1 in U1'. injection U1' as <-.
  pose proof (dict_get_In _ _ _ Hv) as Hin.
  specialize (V3 _ _ Hin). rewrite Hk in V3. destruct V3 as (existing' & Me & D1).
  destruct (merge_existing_effect _ _ _ Me (Hwfv _ _ Hin))
    as (F & (old0 & more & new0 & H1 & H2 & H3 & H4) & _).
  rewrite Hold in H1. injection H1 as <-. rewrite Hnew in H2. injection H2 as <-.
  cbn [py_iter] in H3. injection H3 as <-.
  (* the save *)
  unfold save_global in Sv.
  apply bind_ok in Sv. destruct Sv as ([d1 ta] & D & Sv). injection Sv as <- <- <-.
  destruct (deduplicate_global_steps _ _ _ _ _ D) as (dd1 & udx & users' & -> & U & L & ->).
  rewrite U1 in U. injection U as <-.
  destruct (dedup_users_lookup utcnow _ _ _ _ _ Hnd1 L) as (ud' & -> & _ & _ & T).
  { intros k0 Hin0. apply dict_get_keys, Hin0. }
  destruct (T _ _ (dict_get_In _ _ _ D1)) as (rec' & t1 & t2 & R & G).
  assert (Hh : py_get_default existing' "conversation_history" (JList [])
               = Ok (JList (old ++ new))).
  { apply get_default_of_getitem, H4. }
  destruct (deduplicate_user_history _ _ _ _ _ _ R Hh) as (news & N1 & N2).
  assert (Hl : py_get existing' "lang" = py_get existing "lang").
  { apply get_frame; [apply F; discriminate | |].
    - destruct existing; try discriminate. eauto.
    - apply (getitem_is_dict _ _ _ H4). }
  exists rec', (history_survivors existing [] (old ++ new)), news.
  split.
  { unfold user_of. cbn [py_getitem]. rewrite dict_get_set_eq. cbn [bind py_getitem].
    rewrite G. reflexivity. }
  split; [exact N1|].
  split; [rewrite <- (history_survivors_frame _ _ _ Hl); exact N2|].
  split; [apply history_survivors_subseq|].
  split; [apply history_survivors_distinct|].
  split; [|reflexivity].
  intros turn Hint.
  destruct (history_survivors_cover existing (old ++ new) [] turn Hint) as [K|K];
    [left; exact K | right; exact K].
Qed.

Lemma merge_upload_deduplicates_joined_history_witness :
  exists g' file t' rec' e,
    merge_upload example_clock one_document_dump merge_example_store merge_example_upload 0
    = Ok (g', file, t')
    /\ user_of g' "ana" = Ok rec'
    /\ py_getitem rec' "conversation_history" = Ok (JList [e]).
Proof.
  assert (H : exists g' file t',
            merge_upload example_clock one_document_dump merge_example_store
              merge_example_upload 0 = Ok (g', file, t')).
  { do 3 eexists. vm_compute. reflexivity. }
  destruct H as (g' & file & t' & H).
  destruct (merge_upload_deduplicates_joined_history _ _ _ _ _ _ _ _ _ _ "ana" _ _ _ _
              H eq_refl eq_refl eq_refl eq_refl eq_refl eq_refl eq_refl eq_refl)
    as (rec' & survivors & news & U & G & _).
  exists g', file, t', rec'.
  assert (He : exists e, py_getitem rec' "conversation_history" = Ok (JList [e])).
  { vm_compute in H. injection H as <- _ _. vm_compute in U. injection U as <-.
    eexists. vm_compute. reflexivity. }
  destruct He as (e & He). exists e. auto.
Defined.

(** ** What [load_global] can return *)

(** X26. When the file parses to an object, [load_global] returns an
    object with a users entry.  But the test ["users" not in data] is
    also passed by a parsed list that holds the string "users" and by a
    parsed string that contains it: such a document is returned as it
    is, it is no store, and "Load user" raises [TypeError] on it for
    every name that is not blank. *)
Theorem load_global_returns_store_for_objects_only
  (json_load : string -> result json) (text : string) (data : json) :
  json_load text = Ok data ->
  (forall d, data = JDict d ->
     exists d', load_global json_load (File (Ok text)) = Ok (JDict d')
                /\ dict_get "users" d' <> None)
  /\ ((exists l, data = JList l /\ In (JStr "users") l)
      \/ (exists s, data = JStr s /\ is_infix "users" s = true) ->
      load_global json_load (File (Ok text)) = Ok data
      /\ forall utcnow dump username t,
           strip username <> "" ->
           load_user utcnow dump data username t = Raise TypeError).
Proof.
  intros H. unfold load_global, load_body. cbn [path_exists read_file bind].
  rewrite H. cbn [bind]. split.
  - intros d ->. cbn [py_contains bind]. unfold dict_has.
    destruct (dict_get "users" d) eqn:E; cbn [negb].
    + exists d. split; [reflexivity | congruence].
    + exists [("users", JDict d)]. split; [reflexivity | discriminate].
  - intros Hcase.
    assert (Hc : py_contains "users" data = Ok true
                 /\ py_getitem data "users" = Raise TypeError).
    { destruct Hcase as [(l & -> & Hin)|(s & -> & Hs)]; cbn [py_contains py_getitem].
      - split; [|reflexivity]. f_equal. apply existsb_exists.
        exists (JStr "users"). split; [exact Hin | reflexivity].
      - rewrite Hs. split; reflexivity. }
    destruct Hc as (Hc & Hg). rewrite Hc. cbn [bind negb]. split; [reflexivity|].
    intros utcnow dump username t Hn. unfold load_user.
    apply String.eqb_neq in Hn. rewrite Hn, Hc. cbn [bind negb]. rewrite Hg. reflexivity.
Qed.

Lemma load_global_returns_store_for_objects_only_witness :
  load_global list_document_load (File (Ok "[users]")) = Ok (JList [JStr "users"])
  /\ load_user example_clock one_document_dump (JList [JStr "users"]) "ana" 0
     = Raise TypeError.
Proof.
  destruct (load_global_returns_store_for_objects_only list_document_load "[users]"
              (JList [JStr "users"]) eq_refl) as (_ & T).
  destruct T as (L & U).
  { left. exists [JStr "users"]. split; [reflexivity | left; reflexivity]. }
  split; [exact L|]. apply U. discriminate.
Defined.
